(** * Order-book analytics: the order book and its analytics engines

    A shallow embedding of [src/core/orderbook.py],
    [src/analytics/spread_analyzer.py], [src/analytics/depth_analyzer.py]
    and [src/analytics/liquidity_analyzer.py].

    Numbers.  The Python code computes on [float].  A float is embedded
    as the rational it denotes, and the comparisons of the source,
    [==] included ([Qeq_bool]), are those of [Q].  An arithmetic
    expression of the source is the same expression on [Q]; what is
    stated of such an expression is stated of it as the source writes
    it.  Where the source accumulates floats and branches on the sum it
    has reached, in [estimate_vwap] and [estimate_slippage], the rounding
    of every operation is explicit, as a function [rnd] about which
    nothing is assumed; and the sample mean and deviation the spread
    analyzer tests its samples against are NumPy's, taken as given
    functions, not the exact ones.  NaN and infinities are outside the
    model.

    State.  Python methods mutate [self]; here every method takes the
    object and returns the updated object.  A method that can raise
    returns a [result]: [Ok] with its value or [Raise] with the
    exception. *)

From Stdlib Require Import QArith Qabs Qminmax ZArith List String Bool Lia Lqa.
From Stdlib Require Import Sorted Permutation.
From Stdlib Require Import Qround Qpower.
Import ListNotations.

Open Scope Q_scope.

(** ** Python scalars *)

Definition Qltb (x y : Q) : bool := negb (Qle_bool y x).

(** Truthiness of an [Optional[float]]: [None] and [0.0] are falsy. *)
Definition truthy (o : option Q) : bool :=
  match o with
  | None => false
  | Some x => negb (Qeq_bool x 0)
  end.

(** Exceptions the modelled code can raise. *)
Inductive exn : Type :=
| ValueError (msg : string)
| KeyError (key : Q)
| LinAlgError (msg : string).

Inductive result (A : Type) : Type :=
| Ok (a : A)
| Raise (e : exn).
Arguments Ok {A} a.
Arguments Raise {A} e.

Definition bind {A B : Type} (c : result A) (k : A -> result B) : result B :=
  match c with
  | Ok a => k a
  | Raise e => Raise e
  end.

Notation "x <- c ;; k" := (bind c (fun x => k))
  (at level 61, c at next level, right associativity).

(** ** Python lists *)

(** [l[:n]] for an integer [n] that may be negative. *)
Definition slice_to {A : Type} (l : list A) (n : Z) : list A :=
  if (n <? 0)%Z
  then firstn (List.length l - Z.to_nat (- n)) l
  else firstn (Z.to_nat n) l.

(** [l[-n:]] for a positive literal [n]. *)
Definition last_n {A : Type} (n : nat) (l : list A) : list A :=
  skipn (List.length l - n) l.

(** [sum(l)] on floats. *)
Definition Qsum (l : list Q) : Q := fold_left Qplus l 0.

(** [sorted(l, key=lambda x: x[0])] and
    [sorted(l, key=lambda x: x[0], reverse=True)]: Python's sort is stable
    in both directions, so it is the stable insertion sort on the key. *)
Fixpoint insert_by {A : Type} (before : Q -> Q -> bool) (x : Q * A)
  (l : list (Q * A)) : list (Q * A) :=
  match l with
  | [] => [x]
  | y :: l' =>
      if before (fst x) (fst y) then x :: y :: l' else y :: insert_by before x l'
  end.

Definition sorted_by {A : Type} (before : Q -> Q -> bool) (l : list (Q * A))
  : list (Q * A) :=
  fold_right (insert_by before) [] l.

Definition ascending (a b : Q) : bool := Qle_bool a b.
Definition descending (a b : Q) : bool := Qle_bool b a.

Definition sorted_asc {A : Type} := @sorted_by A ascending.
Definition sorted_desc {A : Type} := @sorted_by A descending.

(** ** Python dicts keyed by a float price

    Insertion-ordered; assigning to a key that is already present replaces
    its value in place. *)
Section Dict.
Context {V : Type}.

Definition dict := list (Q * V).

Fixpoint dict_get (d : dict) (k : Q) : option V :=
  match d with
  | [] => None
  | (k', v) :: d' => if Qeq_bool k' k then Some v else dict_get d' k
  end.

Fixpoint dict_set (d : dict) (k : Q) (v : V) : dict :=
  match d with
  | [] => [(k, v)]
  | (k', v') :: d' =>
      if Qeq_bool k' k then (k', v) :: d' else (k', v') :: dict_set d' k v
  end.

(** [d[k]], raising [KeyError] on a missing key. *)
Definition dict_item (d : dict) (k : Q) : result V :=
  match dict_get d k with
  | Some v => Ok v
  | None => Raise (KeyError k)
  end.
End Dict.
Arguments dict V : clear implicits.

(** ** [Order] and [PriceLevel] *)

Module Order.
Record t : Type := mk {
  price : Q;
  quantity : Q;
  order_id : option string;
  timestamp : option Z
}.
(** [Order(price, quantity)] *)
Definition new (price quantity : Q) : t := mk price quantity None None.
End Order.

Module PriceLevel.
Record t : Type := mk {
  price : Q;
  orders : list Order.t;
  total_quantity : Q
}.

(** [PriceLevel(price)] *)
Definition new (price : Q) : t := mk price [] 0.

Definition add_order (self : t) (order : Order.t) : t :=
  mk (price self)
     (orders self ++ [order])
     (total_quantity self + Order.quantity order).

(** [order.order_id == order_id] for an [Optional[str]] field and a
    [str] argument. *)
Definition has_id (order : Order.t) (order_id : string) : bool :=
  match Order.order_id order with
  | Some id => String.eqb id order_id
  | None => false
  end.

(** The loop of [remove_order]: the first order with the identifier and
    the list without it. *)
Fixpoint pop_first (order_id : string) (orders : list Order.t)
  : option (Order.t * list Order.t) :=
  match orders with
  | [] => None
  | order :: rest =>
      if has_id order order_id then Some (order, rest)
      else
        match pop_first order_id rest with
        | Some (found, rest') => Some (found, order :: rest')
        | None => None
        end
  end.

(** Returns the method's boolean and the level as it leaves it. *)
Definition remove_order (self : t) (order_id : string) : bool * t :=
  match pop_first order_id (orders self) with
  | Some (order, rest) =>
      (true,
       mk (price self) rest (total_quantity self - Order.quantity order))
  | None => (false, self)
  end.

(** The loop of [update_quantity]: the first order with the identifier,
    as it was, and the list with its quantity replaced. *)
Fixpoint set_first (order_id : string) (new_quantity : Q)
  (orders : list Order.t) : option (Order.t * list Order.t) :=
  match orders with
  | [] => None
  | order :: rest =>
      if has_id order order_id
      then Some (order,
                 Order.mk (Order.price order) new_quantity
                          (Order.order_id order) (Order.timestamp order)
                   :: rest)
      else
        match set_first order_id new_quantity rest with
        | Some (found, rest') => Some (found, order :: rest')
        | None => None
        end
  end.

Definition update_quantity (self : t) (order_id : string) (new_quantity : Q)
  : bool * t :=
  match set_first order_id new_quantity (orders self) with
  | Some (order, orders') =>
      (true,
       mk (price self) orders'
          (total_quantity self + (new_quantity - Order.quantity order)))
  | None => (false, self)
  end.
End PriceLevel.

(** ** [OrderBook] *)

Module OrderBook.
Record t : Type := mk {
  symbol : string;
  max_levels : Z;
  bid_prices : list Q;
  ask_prices : list Q;
  bid_levels : dict PriceLevel.t;
  ask_levels : dict PriceLevel.t;
  _best_bid : option Q;
  _best_ask : option Q;
  _mid_price : option Q;
  update_count : Z;
  last_update_time : option Z
}.

(** [OrderBook(symbol, max_levels)] *)
Definition new (symbol : string) (max_levels : Z) : t :=
  mk symbol max_levels [] [] [] [] None None None 0%Z None.

Definition _update_caches (self : t) : t :=
  let best_bid :=
    match bid_prices self with
    | p :: _ => Some p
    | [] => _best_bid self
    end in
  let best_ask :=
    match ask_prices self with
    | p :: _ => Some p
    | [] => _best_ask self
    end in
  let mid_price :=
    if truthy best_bid && truthy best_ask
    then match best_bid, best_ask with
         | Some b, Some a => Some ((b + a) / 2)
         | _, _ => _mid_price self
         end
    else _mid_price self in
  mk (symbol self) (max_levels self)
     (bid_prices self) (ask_prices self)
     (bid_levels self) (ask_levels self)
     best_bid best_ask mid_price (update_count self)
     (last_update_time self).

(** One turn of the loop body shared by [update_bids] and
    [update_asks]: the running price list and level dict. *)
Definition add_entry (acc : list Q * dict PriceLevel.t) (entry : Q * Q)
  : list Q * dict PriceLevel.t :=
  let '(prices, levels) := acc in
  let '(price, quantity) := entry in
  if Qltb 0 price && Qltb 0 quantity
  then
    let level := PriceLevel.add_order (PriceLevel.new price)
                                      (Order.new price quantity) in
    (prices ++ [price], dict_set levels price level)
  else (prices, levels).

Definition rebuild (sorted_entries : list (Q * Q))
  : list Q * dict PriceLevel.t :=
  fold_left add_entry sorted_entries ([], []).

Definition update_bids (self : t) (bids : list (Q * Q)) : t :=
  let '(prices, levels) := rebuild (sorted_desc bids) in
  let self := mk (symbol self) (max_levels self)
                 prices (ask_prices self)
                 levels (ask_levels self)
                 (_best_bid self) (_best_ask self) (_mid_price self)
                 (update_count self) (last_update_time self) in
  let self := _update_caches self in
  mk (symbol self) (max_levels self)
     (bid_prices self) (ask_prices self)
     (bid_levels self) (ask_levels self)
     (_best_bid self) (_best_ask self) (_mid_price self)
     (update_count self + 1)%Z (last_update_time self).

Definition update_asks (self : t) (asks : list (Q * Q)) : t :=
  let '(prices, levels) := rebuild (sorted_asc asks) in
  let self := mk (symbol self) (max_levels self)
                 (bid_prices self) prices
                 (bid_levels self) levels
                 (_best_bid self) (_best_ask self) (_mid_price self)
                 (update_count self) (last_update_time self) in
  let self := _update_caches self in
  mk (symbol self) (max_levels self)
     (bid_prices self) (ask_prices self)
     (bid_levels self) (ask_levels self)
     (_best_bid self) (_best_ask self) (_mid_price self)
     (update_count self + 1)%Z (last_update_time self).

Definition best_bid (self : t) : option Q := _best_bid self.
Definition best_ask (self : t) : option Q := _best_ask self.
Definition mid_price (self : t) : option Q := _mid_price self.

Definition get_spread (self : t) : option Q :=
  if truthy (best_bid self) && truthy (best_ask self)
  then match best_bid self, best_ask self with
       | Some b, Some a => Some (a - b)
       | _, _ => None
       end
  else None.

(** The dict returned by [get_depth]. *)
Record depth_level : Type := mk_level {
  price : Q;
  quantity : Q;
  order_count : nat
}.

Record depth : Type := mk_depth {
  bids : list depth_level;
  asks : list depth_level;
  total_bid_volume : Q;
  total_ask_volume : Q
}.

(** One of the two loops of [get_depth]: the entries appended so far
    and the running volume. *)
Fixpoint depth_side (levels : dict PriceLevel.t) (prices : list Q)
  (entries : list depth_level) (volume : Q)
  : result (list depth_level * Q) :=
  match prices with
  | [] => Ok (entries, volume)
  | price :: rest =>
      level <- dict_item levels price ;;
      depth_side levels rest
        (entries ++ [mk_level price (PriceLevel.total_quantity level)
                              (List.length (PriceLevel.orders level))])
        (volume + PriceLevel.total_quantity level)
  end.

Definition get_depth (self : t) (levels : Z) : result depth :=
  b <- depth_side (bid_levels self) (slice_to (bid_prices self) levels) [] 0 ;;
  a <- depth_side (ask_levels self) (slice_to (ask_prices self) levels) [] 0 ;;
  Ok (mk_depth (fst b) (fst a) (snd b) (snd a)).

(** The dict returned by [estimate_vwap]. *)
Record vwap_result : Type := mk_vwap {
  vwap : Q;
  filled : Q;
  remaining : Q
}.

(** The dict returned by [estimate_slippage]: the zero result carries the
    first two keys only. *)
Record slippage_result : Type := mk_slippage {
  slippage_bps : Q;
  slippage_abs : Q;
  slippage_vwap : option Q;
  slippage_mid_price : option Q;
  slippage_filled : option Q
}.

Definition zero_slippage : slippage_result :=
  mk_slippage 0 0 None None None.

Definition valid_side (side : string) : bool :=
  String.eqb side "buy" || String.eqb side "sell".

(** [estimate_vwap] accumulates floats level by level, and the sum it has
    reached decides whether the next level is taken whole.  In it and in
    [estimate_slippage] the rounding of the source is therefore explicit:
    a float is the rational it denotes, and each [+], [-], [*] and [/] on
    floats is the exact operation followed by [rnd], which rounds a
    rational to a float.  Nothing is assumed about [rnd]. *)
Section Rounding.
Variable rnd : Q -> Q.

(** The loop of [estimate_vwap], with its [break]: the state is
    [(total_cost, filled_quantity)]. *)
Fixpoint vwap_walk (level_dict : dict PriceLevel.t) (quantity : Q)
  (levels : list Q) (total_cost filled_quantity : Q) : result (Q * Q) :=
  match levels with
  | [] => Ok (total_cost, filled_quantity)
  | price :: rest =>
      level <- dict_item level_dict price ;;
      let available := PriceLevel.total_quantity level in
      if Qle_bool (rnd (filled_quantity + available)) quantity
      then vwap_walk level_dict quantity rest
             (rnd (total_cost + rnd (price * available)))
             (rnd (filled_quantity + available))
      else
        let remaining := rnd (quantity - filled_quantity) in
        Ok (rnd (total_cost + rnd (price * remaining)), quantity)
  end.

Definition estimate_vwap (self : t) (quantity : Q) (side : string)
  : result vwap_result :=
  if negb (valid_side side)
  then Raise (ValueError "Side must be 'buy' or 'sell'")
  else
    let levels :=
      if String.eqb side "buy" then ask_prices self else bid_prices self in
    let level_dict :=
      if String.eqb side "buy" then ask_levels self else bid_levels self in
    st <- vwap_walk level_dict quantity levels 0 0 ;;
    let '(total_cost, filled_quantity) := st in
    if Qeq_bool filled_quantity 0
    then Ok (mk_vwap 0 0 quantity)
    else Ok (mk_vwap (rnd (total_cost / filled_quantity)) filled_quantity
                     (rnd (quantity - filled_quantity))).

Definition estimate_slippage (self : t) (quantity : Q) (side : string)
  : result slippage_result :=
  if negb (truthy (mid_price self)) then Ok zero_slippage
  else
    vwap_result <- estimate_vwap self quantity side ;;
    if Qeq_bool (filled vwap_result) 0 then Ok zero_slippage
    else
      let vwap := vwap vwap_result in
      let mid := match mid_price self with Some m => m | None => 0 end in
      let slippage_abs :=
        if String.eqb side "buy" then rnd (vwap - mid) else rnd (mid - vwap) in
      let slippage_bps := rnd (rnd (slippage_abs / mid) * 10000) in
      Ok (mk_slippage slippage_bps slippage_abs
                      (Some vwap) (Some mid) (Some (filled vwap_result))).
End Rounding.
End OrderBook.

(** ** NumPy reductions

    [np.mean] and [np.std] (population standard deviation) on a list of
    floats.  The square root is the one operation of the source that has
    no exact counterpart on [Q]; the definitions that reach it take it as
    the section variable [np_sqrt], and nothing is assumed about it. *)

Definition Qlen {A : Type} (l : list A) : Q := inject_Z (Z.of_nat (List.length l)).

Definition np_mean (l : list Q) : Q := Qsum l / Qlen l.

Section NumPy.
Variable np_sqrt : Q -> Q.

Definition np_std (l : list Q) : Q :=
  let m := np_mean l in
  np_sqrt (np_mean (map (fun x => Qabs (x - m) ^ 2) l)).
End NumPy.

(** [np.var]: the population variance. *)
Definition np_var (l : list Q) : Q :=
  let m := np_mean l in
  np_mean (map (fun x => Qabs (x - m) ^ 2) l).

(** [np.diff]: the differences of consecutive elements. *)
Fixpoint np_diff (l : list Q) : list Q :=
  match l with
  | x :: ((y :: _) as rest) => (y - x) :: np_diff rest
  | _ => []
  end.

(** Element-wise quotient of two arrays of one length. *)
Fixpoint np_divide (xs ys : list Q) : list Q :=
  match xs, ys with
  | x :: xs', y :: ys' => (x / y) :: np_divide xs' ys'
  | _, _ => []
  end.

(** [np.cov(x, y)[0, 1]]: the sample covariance, normalised by
    [n - 1]. *)
Definition np_cov (xs ys : list Q) : Q :=
  let mx := np_mean xs in
  let my := np_mean ys in
  Qsum (map (fun xy => (fst xy - mx) * (snd xy - my)) (combine xs ys))
  / (Qlen xs - 1).

(** [l[-n:]] for a positive [n]. *)
Definition last_p {A : Type} (n : positive) (l : list A) : list A :=
  skipn (List.length l - Pos.to_nat n) l.

(** [l[:-1]] and [l[:-2]]. *)
Definition drop_last {A : Type} (n : nat) (l : list A) : list A :=
  firstn (List.length l - n) l.

(** [l[start:]] for an integer [start] that may be negative. *)
Definition slice_from {A : Type} (l : list A) (start : Z) : list A :=
  if (start <? 0)%Z
  then skipn (List.length l - Z.to_nat (- start)) l
  else skipn (Z.to_nat start) l.

(** [np.sort] of an array of floats. *)
Definition np_sort (l : list Q) : list Q :=
  map fst (sorted_asc (map (fun x => (x, tt)) l)).

(** [np.min] and [np.max] of a non-empty array. *)
Definition np_min (l : list Q) : Q :=
  match l with
  | [] => 0
  | x :: rest => fold_left Qmin rest x
  end.

Definition np_max (l : list Q) : Q :=
  match l with
  | [] => 0
  | x :: rest => fold_left Qmax rest x
  end.

(** [np.median]: the middle element of the sorted array, or the mean of
    the two middle ones. *)
Definition np_median (l : list Q) : Q :=
  let s := np_sort l in
  let n := List.length s in
  if Nat.even n
  then np_mean [nth (n / 2 - 1) s 0; nth (n / 2) s 0]
  else nth (n / 2) s 0.

(** [np.percentile(l, q)] with NumPy's default, linear interpolation
    between the two order statistics around the index
    [q / 100 * (n - 1)]. *)
Definition np_percentile (l : list Q) (q : Q) : Q :=
  let s := np_sort l in
  let n := List.length s in
  let virtual_index := q / 100 * (Qlen s - 1) in
  let lower := Z.to_nat (Qfloor virtual_index) in
  let upper := Nat.min (lower + 1) (n - 1) in
  let gamma := virtual_index - inject_Z (Qfloor virtual_index) in
  nth lower s 0 + (nth upper s 0 - nth lower s 0) * gamma.

(** [np.arange(n)] as floats. *)
Definition np_arange (n : nat) : list Q :=
  map (fun i => inject_Z (Z.of_nat i)) (seq 0 n).

(** [np.polyfit(x, y, 1)[0]]: the slope of the least-squares line. *)
Definition np_polyfit_slope (xs ys : list Q) : Q :=
  let mx := np_mean xs in
  let my := np_mean ys in
  Qsum (map (fun xy => (fst xy - mx) * (snd xy - my)) (combine xs ys))
  / Qsum (map (fun x => (x - mx) ^ 2) xs).

(** ** [SpreadAnalyzer] *)

Module SpreadAnalyzer.
Record SpreadMetrics : Type := mk_metrics {
  absolute_spread : Q;
  relative_spread : Q;
  spread_bps : Q;
  effective_spread : Q;
  price_impact : Q;
  spread_volatility : Q;
  is_wide_spread : bool
}.

(** [SpreadMetrics()] *)
Definition default_metrics : SpreadMetrics :=
  mk_metrics 0 0 0 0 0 0 false.

(** The analyzer keeps a reference to the book, which its owner goes on
    updating; the methods below take the book's current state as
    [orderbook]. *)
Record t : Type := mk {
  history : list SpreadMetrics;
  max_history : nat
}.

(** [SpreadAnalyzer(orderbook)] *)
Definition new : t := mk [] 1000.

(** [np.sqrt], [np.mean] and [np.std] as NumPy computes them on floats.
    NumPy's mean and deviation of a sample are rounded sums: the mean of
    equal samples need not be the sample, nor their deviation zero.  The
    analyzer takes the three functions as given, and nothing is assumed
    about them. *)
Section WithNumPy.
Variable np_sqrt : Q -> Q.
Variables np_mean np_std : list Q -> Q.

Definition calculate_price_impact (orderbook : OrderBook.t) (quantity : Q)
  : result Q :=
  if negb (truthy (OrderBook.mid_price orderbook))
     || match OrderBook.mid_price orderbook with
        | Some m => Qeq_bool m 0
        | None => false
        end
  then Ok 0
  else
    depth <- OrderBook.get_depth orderbook 10 ;;
    match OrderBook.bids depth, OrderBook.asks depth with
    | [], _ | _, [] => Ok 0
    | _, _ =>
        let bid_liquidity :=
          Qsum (map OrderBook.quantity (OrderBook.bids depth)) in
        let ask_liquidity :=
          Qsum (map OrderBook.quantity (OrderBook.asks depth)) in
        let avg_liquidity := (bid_liquidity + ask_liquidity) / 2 in
        if Qeq_bool avg_liquidity 0 then Ok 0
        else
          match OrderBook.get_spread orderbook,
                OrderBook.mid_price orderbook with
          | Some spread, Some mid_price =>
              let lambda_est := spread / (avg_liquidity * mid_price) in
              Ok (lambda_est * np_sqrt quantity * mid_price)
          | _, _ => Ok 0
          end
    end.

Definition _detect_wide_spread (self : t) (metrics : SpreadMetrics)
  : bool :=
  if (List.length (history self) <? 10)%nat then false
  else
    let recent_spreads := map spread_bps (last_n 10 (history self)) in
    let avg_spread := np_mean recent_spreads in
    let std_spread := np_std recent_spreads in
    if Qltb 0 std_spread
       && Qltb (avg_spread + 3 * std_spread) (spread_bps metrics)
    then true
    else if Qltb 50 (spread_bps metrics) then true
    else false.

(** Returns the metrics and the analyzer with its new history. *)
Definition calculate_all_metrics (self : t) (orderbook : OrderBook.t)
  : result (SpreadMetrics * t) :=
  match OrderBook.get_spread orderbook, OrderBook.mid_price orderbook with
  | Some spread, Some mid_price =>
      if Qeq_bool mid_price 0 then Ok (default_metrics, self)
      else
        let relative := (spread / mid_price) * 100 in
        let bps := relative * 100 in
        let effective :=
          if truthy (OrderBook.best_bid orderbook)
             && truthy (OrderBook.best_ask orderbook)
          then match OrderBook.best_bid orderbook,
                     OrderBook.best_ask orderbook with
               | Some b, Some a => Qabs (2 * (mid_price - (b + a) / 2))
               | _, _ => 0
               end
          else 0 in
        impact <- calculate_price_impact orderbook 1 ;;
        let volatility :=
          if (1 <? List.length (history self))%nat
          then
            match map absolute_spread (last_n 100 (history self)) with
            | [] => 0
            | spreads => np_std spreads
            end
          else 0 in
        let metrics :=
          mk_metrics spread relative bps effective impact
                     volatility false in
        let metrics :=
          mk_metrics spread relative bps effective impact
                     volatility (_detect_wide_spread self metrics) in
        let history := history self ++ [metrics] in
        let history :=
          if (max_history self <? List.length history)%nat
          then tl history else history in
        Ok (metrics, mk history (max_history self))
  | _, _ => Ok (default_metrics, self)
  end.

(** The dict returned by [calculate_spread_statistics]. *)
Record statistics : Type := mk_statistics {
  stat_mean : Q;
  stat_median : Q;
  stat_std : Q;
  stat_min : Q;
  stat_max : Q;
  stat_q1 : Q;
  stat_q3 : Q;
  stat_iqr : Q
}.

(** [None] is the empty dict.  With a negative [window] that leaves no
    sample, [np.min] raises on the empty array. *)
Definition calculate_spread_statistics (self : t) (window : Z)
  : result (option statistics) :=
  let window :=
    if (Z.of_nat (List.length (history self)) <? window)%Z
    then Z.of_nat (List.length (history self)) else window in
  if (window =? 0)%Z then Ok None
  else
    let spreads := map spread_bps (slice_from (history self) (- window)) in
    match spreads with
    | [] =>
        Raise (ValueError
                 "zero-size array to reduction operation minimum which has no identity")
    | _ =>
        Ok (Some (mk_statistics
                    (np_mean spreads)
                    (np_median spreads)
                    (np_std spreads)
                    (np_min spreads)
                    (np_max spreads)
                    (np_percentile spreads 25)
                    (np_percentile spreads 75)
                    (np_percentile spreads 75 - np_percentile spreads 25)))
    end.
End WithNumPy.

(** [periods] is a positive integer (the default is 20).  On a single
    sample [np.polyfit] scales the column of abscissas, all zero, by its
    norm, and the least-squares solver fails on the resulting matrix. *)
Definition get_spread_trend (self : t) (periods : positive)
  : result string :=
  if (List.length (history self) <? Pos.to_nat periods)%nat
  then Ok "insufficient_data"%string
  else
    let spreads := map spread_bps (last_p periods (history self)) in
    if (List.length spreads =? 1)%nat
    then Raise (LinAlgError
                  "SVD did not converge in Linear Least Squares"%string)
    else
      let x := np_arange (List.length spreads) in
      let slope := np_polyfit_slope x spreads in
      if Qltb (1 # 10) slope then Ok "increasing"%string
      else if Qltb slope (- (1 # 10)) then Ok "decreasing"%string
      else Ok "stable"%string.
End SpreadAnalyzer.

(** ** [DepthAnalyzer] *)

Module DepthAnalyzer.
Record DepthMetrics : Type := mk_metrics {
  total_bid_volume : Q;
  total_ask_volume : Q;
  volume_imbalance : Q;
  cumulative_depth_bps : option (list (Q * Q));
  vwap_at_depth : option (dict Q);
  liquidity_score : Q;
  order_book_slope : Q;
  depth_resilience : Q
}.

(** [DepthMetrics()] *)
Definition default_metrics : DepthMetrics :=
  mk_metrics 0 0 0 None None 0 0 0.

Record t : Type := mk {
  depth_levels : Z
}.

(** A loop of [_calculate_cumulative_depth]: the running volume and the
    pairs appended. *)
Fixpoint cumulative_side (mid_price : Q) (levels : list OrderBook.depth_level)
  (cumulative_volume : Q) : list (Q * Q) :=
  match levels with
  | [] => []
  | level :: rest =>
      let price_offset_bps :=
        ((OrderBook.price level - mid_price) / mid_price) * 10000 in
      let cumulative_volume := cumulative_volume + OrderBook.quantity level in
      (price_offset_bps, cumulative_volume)
        :: cumulative_side mid_price rest cumulative_volume
  end.

Definition _calculate_cumulative_depth (orderbook : OrderBook.t)
  (depth : OrderBook.depth) : list (Q * Q) :=
  match OrderBook.mid_price orderbook with
  | None => []
  | Some mid_price =>
      if Qeq_bool mid_price 0 then []
      else
        sorted_asc (cumulative_side mid_price (OrderBook.bids depth) 0
                    ++ cumulative_side mid_price (OrderBook.asks depth) 0)
  end.

(** A loop of [_calculate_partial_vwap], with its [break]: fill up to
    [limit], the state being [(total_cost, filled_volume)]. *)
Fixpoint fill_to (limit : Q) (levels : list OrderBook.depth_level)
  (total_cost filled_volume : Q) : Q * Q :=
  match levels with
  | [] => (total_cost, filled_volume)
  | level :: rest =>
      let available := OrderBook.quantity level in
      if Qle_bool (filled_volume + available) limit
      then fill_to limit rest
             (total_cost + OrderBook.price level * available)
             (filled_volume + available)
      else
        let remaining := limit - filled_volume in
        (total_cost + OrderBook.price level * remaining,
         filled_volume + remaining)
  end.

Definition _calculate_partial_vwap (depth : OrderBook.depth)
  (target_volume : Q) : Q :=
  let '(total_cost, filled_volume) :=
    fill_to (target_volume / 2) (OrderBook.bids depth) 0 0 in
  let '(total_cost, filled_volume) :=
    fill_to target_volume (OrderBook.asks depth) total_cost filled_volume in
  if Qeq_bool filled_volume 0 then 0 else total_cost / filled_volume.

Definition depth_percentages : list Q := [1 # 10; 1 # 4; 1 # 2; 1; 2; 5].

Definition _calculate_vwap_at_depth (depth : OrderBook.depth) : dict Q :=
  fold_left
    (fun vwap_at_depth percentage =>
       let total_volume :=
         OrderBook.total_bid_volume depth + OrderBook.total_ask_volume depth in
       let target_volume := total_volume * (percentage / 100) in
       dict_set vwap_at_depth percentage
                (_calculate_partial_vwap depth target_volume))
    depth_percentages [].

Definition _calculate_book_slope (depth : OrderBook.depth) : Q :=
  match OrderBook.bids depth, OrderBook.asks depth with
  | [], _ | _, [] => 0
  | _, _ =>
      let slopes := [] in
      let bid_prices := map OrderBook.price (OrderBook.bids depth) in
      let bid_volumes := map OrderBook.quantity (OrderBook.bids depth) in
      let slopes :=
        if (1 <? List.length bid_prices)%nat
        then
          let price_range := hd 0 bid_prices - last bid_prices 0 in
          let volume_sum := Qsum bid_volumes in
          if Qltb 0 volume_sum
          then slopes ++ [price_range / volume_sum] else slopes
        else slopes in
      let ask_prices := map OrderBook.price (OrderBook.asks depth) in
      let ask_volumes := map OrderBook.quantity (OrderBook.asks depth) in
      let slopes :=
        if (1 <? List.length ask_prices)%nat
        then
          let price_range := last ask_prices 0 - hd 0 ask_prices in
          let volume_sum := Qsum ask_volumes in
          if Qltb 0 volume_sum
          then slopes ++ [price_range / volume_sum] else slopes
        else slopes in
      match slopes with
      | [] => 0
      | _ => np_mean slopes
      end
  end.

Definition _calculate_liquidity_score (metrics : DepthMetrics) : Q :=
  let score := 50 in
  let total_volume := total_bid_volume metrics + total_ask_volume metrics in
  let score :=
    if Qltb 1000 total_volume then score + 20
    else if Qltb total_volume 100 then score - 20
    else score in
  let imbalance_abs := Qabs (volume_imbalance metrics) in
  let score :=
    if Qltb (7 # 10) imbalance_abs then score - 30
    else if Qltb imbalance_abs (2 # 10) then score + 10
    else score in
  let score :=
    if Qltb 0 (order_book_slope metrics)
    then
      if Qltb (order_book_slope metrics) (1 # 1000) then score + 20
      else if Qltb (1 # 100) (order_book_slope metrics) then score - 20
      else score
    else score in
  Qmax 0 (Qmin 100 score).

Definition herfindahl_index (volumes : list Q) : Q :=
  let total := Qsum volumes in
  if Qeq_bool total 0 then 1
  else Qsum (map (fun v => (v / total) ^ 2) volumes).

Definition _calculate_resilience_score (depth : OrderBook.depth) : Q :=
  if (List.length (OrderBook.bids depth) <? 3)%nat
     || (List.length (OrderBook.asks depth) <? 3)%nat
  then 0
  else
    let bid_volumes := map OrderBook.quantity (OrderBook.bids depth) in
    let ask_volumes := map OrderBook.quantity (OrderBook.asks depth) in
    let bid_concentration := herfindahl_index bid_volumes in
    let ask_concentration := herfindahl_index ask_volumes in
    let resilience :=
      100 * (1 - (bid_concentration + ask_concentration) / 2) in
    Qmax 0 (Qmin 100 resilience).

Definition calculate_all_metrics (self : t) (orderbook : OrderBook.t)
  : result DepthMetrics :=
  depth <- OrderBook.get_depth orderbook (depth_levels self) ;;
  match OrderBook.bids depth, OrderBook.asks depth with
  | [], _ | _, [] => Ok default_metrics
  | _, _ =>
      let bid_volume := OrderBook.total_bid_volume depth in
      let ask_volume := OrderBook.total_ask_volume depth in
      let total_volume := bid_volume + ask_volume in
      let imbalance :=
        if Qltb 0 total_volume
        then (bid_volume - ask_volume) / total_volume else 0 in
      let cumulative := _calculate_cumulative_depth orderbook depth in
      let vwaps := _calculate_vwap_at_depth depth in
      let slope := _calculate_book_slope depth in
      let metrics :=
        mk_metrics bid_volume ask_volume imbalance
                   (Some cumulative) (Some vwaps) 0 slope 0 in
      let score := _calculate_liquidity_score metrics in
      let resilience := _calculate_resilience_score depth in
      Ok (mk_metrics bid_volume ask_volume imbalance
                     (Some cumulative) (Some vwaps) score slope resilience)
  end.

(** A dict keyed by an [int]: assigning to a present key replaces its
    value in place. *)
Fixpoint int_dict_set (d : list (Z * Q)) (k : Z) (v : Q) : list (Z * Q) :=
  match d with
  | [] => [(k, v)]
  | (k', v') :: d' =>
      if (k' =? k)%Z then (k', v) :: d' else (k', v') :: int_dict_set d' k v
  end.

Fixpoint imbalances_loop (orderbook : OrderBook.t) (levels : list Z)
  (imbalances : list (Z * Q)) : result (list (Z * Q)) :=
  match levels with
  | [] => Ok imbalances
  | level_count :: rest =>
      depth <- OrderBook.get_depth orderbook level_count ;;
      let total_bid := OrderBook.total_bid_volume depth in
      let total_ask := OrderBook.total_ask_volume depth in
      let total := total_bid + total_ask in
      let imbalance :=
        if Qltb 0 total then (total_bid - total_ask) / total else 0 in
      imbalances_loop orderbook rest
        (int_dict_set imbalances level_count imbalance)
  end.

Definition calculate_volume_imbalance_at_levels (self : t)
  (orderbook : OrderBook.t) (levels : list Z) : result (list (Z * Q)) :=
  imbalances_loop orderbook levels [].
End DepthAnalyzer.

(** ** [LiquidityAnalyzer]

    [np.sqrt] and [np.exp] are section variables, as [np.sqrt] is for the
    spread analyzer.  The [window] of [calculate_kyle_lambda] and
    [calculate_amihud_ratio] is a positive integer (every call in the
    repository uses the default, 20). *)

Module LiquidityAnalyzer.
Record LiquidityMetrics : Type := mk_metrics {
  kyle_lambda : Q;
  amihud_ratio : Q;
  liquidity_coverage_ratio : Q;
  resilience_score : Q;
  price_efficiency : Q;
  market_impact_models : option (list (string * Q));
  overall_liquidity_score : Q
}.

Record t : Type := mk {
  price_history : list Q;
  volume_history : list Q;
  max_history : nat
}.

(** [LiquidityAnalyzer(orderbook, price_history, volume_history)] *)
Definition new (price_history volume_history : option (list Q)) : t :=
  mk (match price_history with Some l => l | None => [] end)
     (match volume_history with Some l => l | None => [] end)
     1000.

Definition calculate_kyle_lambda (self : t) (window : positive) : Q :=
  if (List.length (price_history self) <? Pos.to_nat window)%nat
     || (List.length (volume_history self) <? Pos.to_nat window)%nat
  then 0
  else
    let prices := last_p window (price_history self) in
    let volumes := last_p window (volume_history self) in
    if (List.length prices <? 2)%nat then 0
    else
      let returns := np_divide (np_diff prices) (drop_last 1 prices) in
      let volume_changes := np_diff volumes in
      if negb (List.length returns =? List.length volume_changes)%nat
         || (List.length returns <? 2)%nat
      then 0
      else
        let covariance := np_cov returns volume_changes in
        let volume_variance := np_var volume_changes in
        if Qeq_bool volume_variance 0 then 0
        else covariance / volume_variance.

Definition calculate_amihud_ratio (self : t) (window : positive) : Q :=
  if (List.length (price_history self) <? Pos.to_nat window)%nat
     || (List.length (volume_history self) <? Pos.to_nat window)%nat
  then 0
  else
    let prices := last_p window (price_history self) in
    let volumes := last_p window (volume_history self) in
    if (List.length prices <? 2)%nat then 0
    else
      let returns :=
        map Qabs (np_divide (np_diff prices) (drop_last 1 prices)) in
      let volumes_for_returns := tl volumes in
      let valid :=
        filter (fun rv => Qltb 0 (snd rv))
               (combine returns volumes_for_returns) in
      match valid with
      | [] => 0
      | _ => np_mean (map (fun rv => fst rv / snd rv) valid)
      end.

Definition calculate_lcr (self : t) (orderbook : OrderBook.t)
  (stress_volume : Q) : result Q :=
  depth <- OrderBook.get_depth orderbook 20 ;;
  let total_liquidity :=
    OrderBook.total_bid_volume depth + OrderBook.total_ask_volume depth in
  if Qle_bool stress_volume 0 then Ok 0
  else Ok (total_liquidity / stress_volume).

Definition calculate_price_efficiency (self : t) : Q :=
  if (List.length (price_history self) <? 20)%nat then 1 # 2
  else
    let prices_np := last_n 20 (price_history self) in
    let returns := np_divide (np_diff prices_np) (drop_last 1 prices_np) in
    if (List.length returns <? 2)%nat then 1 # 2
    else
      let var_1day := np_var returns in
      if (4 <=? List.length returns)%nat
      then
        let returns_2day :=
          np_divide
            (map (fun ab => fst ab - snd ab)
                 (combine (skipn 2 prices_np) (drop_last 2 prices_np)))
            (drop_last 2 prices_np) in
        let var_2day := np_var returns_2day / 2 in
        if Qltb 0 var_1day
        then
          let variance_ratio := var_2day / var_1day in
          let efficiency := 1 - Qabs (variance_ratio - 1) in
          Qmax 0 (Qmin 1 efficiency)
        else 1 # 2
      else 1 # 2.

Definition update_history (self : t) (price volume : Q) : t :=
  let price_history := price_history self ++ [price] in
  let volume_history := volume_history self ++ [volume] in
  let price_history :=
    if (max_history self <? List.length price_history)%nat
    then tl price_history else price_history in
  let volume_history :=
    if (max_history self <? List.length volume_history)%nat
    then tl volume_history else volume_history in
  mk price_history volume_history (max_history self).

Section WithNumPy.
Variables np_sqrt np_exp : Q -> Q.

Definition calculate_resilience_score (self : t) (orderbook : OrderBook.t)
  : result Q :=
  let factors := [] in
  depth <- OrderBook.get_depth orderbook 10 ;;
  let bid_volumes := map OrderBook.quantity (OrderBook.bids depth) in
  let ask_volumes := map OrderBook.quantity (OrderBook.asks depth) in
  let factors :=
    match bid_volumes, ask_volumes with
    | [], _ | _, [] => factors
    | _, _ =>
        let top_bid_ratio :=
          if Qltb 0 (Qsum bid_volumes)
          then hd 0 bid_volumes / Qsum bid_volumes else 0 in
        let top_ask_ratio :=
          if Qltb 0 (Qsum ask_volumes)
          then hd 0 ask_volumes / Qsum ask_volumes else 0 in
        let concentration_score :=
          100 * (1 - (top_bid_ratio + top_ask_ratio) / 2) in
        factors ++ [concentration_score]
    end in
  let factors :=
    if (10 <? List.length (price_history self))%nat
    then
      let recent_prices := last_n 10 (price_history self) in
      let price_volatility :=
        if Qltb 0 (np_mean recent_prices)
        then np_std np_sqrt recent_prices / np_mean recent_prices else 0 in
      let volatility_score := 100 * (1 - Qmin (price_volatility * 100) 1) in
      factors ++ [volatility_score]
    else factors in
  let factors :=
    match volume_history self with
    | [] => factors
    | _ =>
        let recent_volumes := last_n 10 (volume_history self) in
        if Qltb 0 (np_mean recent_volumes)
        then
          let volume_stability :=
            1 - np_std np_sqrt recent_volumes / np_mean recent_volumes in
          let volume_score := 100 * volume_stability in
          factors ++ [volume_score]
        else factors
    end in
  match factors with
  | [] => Ok 50
  | _ => Ok (np_mean factors)
  end.

Definition calculate_market_impact_models (self : t)
  (orderbook : OrderBook.t) (quantity : Q) : result (list (string * Q)) :=
  let models := [] in
  if negb (truthy (OrderBook.mid_price orderbook))
     || match OrderBook.mid_price orderbook with
        | Some m => Qeq_bool m 0
        | None => false
        end
  then Ok models
  else
    let mid_price :=
      match OrderBook.mid_price orderbook with Some m => m | None => 0 end in
    depth <- OrderBook.get_depth orderbook 10 ;;
    let total_liquidity :=
      OrderBook.total_bid_volume depth + OrderBook.total_ask_volume depth in
    let models :=
      if Qltb 0 total_liquidity
      then
        let a := 1 / total_liquidity in
        models ++ [("linear"%string, a * quantity * mid_price)]
      else models in
    let models :=
      match OrderBook.get_spread orderbook with
      | Some spread =>
          let b :=
            if Qltb 0 total_liquidity
            then spread / (2 * np_sqrt total_liquidity) else 0 in
          models ++ [("sqrt"%string, b * np_sqrt quantity * mid_price)]
      | None => models
      end in
    let kyle_lambda := calculate_kyle_lambda self 20 in
    Ok (models ++ [("kyle"%string, kyle_lambda * quantity * mid_price)]).

Definition calculate_composite_score (metrics : LiquidityMetrics) : Q :=
  let scores := [] in
  let weights := [] in
  let '(scores, weights) :=
    if Qltb 0 (kyle_lambda metrics)
    then (scores ++ [100 * np_exp (- kyle_lambda metrics * 1000)],
          weights ++ [3 # 10])
    else if Qeq_bool (kyle_lambda metrics) 0
    then (scores ++ [50], weights ++ [3 # 10])
    else (scores, weights) in
  let '(scores, weights) :=
    if Qltb 0 (amihud_ratio metrics)
    then (scores ++ [100 * np_exp (- amihud_ratio metrics * 10000)],
          weights ++ [2 # 10])
    else if Qeq_bool (amihud_ratio metrics) 0
    then (scores ++ [50], weights ++ [2 # 10])
    else (scores, weights) in
  let lcr_score := Qmin (liquidity_coverage_ratio metrics * 100) 100 in
  let scores := scores ++ [lcr_score] in
  let weights := weights ++ [2 # 10] in
  let scores := scores ++ [resilience_score metrics] in
  let weights := weights ++ [2 # 10] in
  let efficiency_score := price_efficiency metrics * 100 in
  let scores := scores ++ [efficiency_score] in
  let weights := weights ++ [1 # 10] in
  match scores, weights with
  | [], _ | _, [] => 50
  | _, _ =>
      let total_weight := Qsum weights in
      if Qltb 0 total_weight
      then
        let weighted_score :=
          Qsum (map (fun sw => fst sw * snd sw) (combine scores weights))
          / total_weight in
        Qmax 0 (Qmin 100 weighted_score)
      else 50
  end.

Definition calculate_all_metrics (self : t) (orderbook : OrderBook.t)
  : result LiquidityMetrics :=
  let kyle := calculate_kyle_lambda self 20 in
  let amihud := calculate_amihud_ratio self 20 in
  lcr <- calculate_lcr self orderbook 10000 ;;
  resilience <- calculate_resilience_score self orderbook ;;
  let efficiency := calculate_price_efficiency self in
  models <- calculate_market_impact_models self orderbook 100 ;;
  let metrics :=
    mk_metrics kyle amihud lcr resilience efficiency (Some models) 0 in
  Ok (mk_metrics kyle amihud lcr resilience efficiency (Some models)
                 (calculate_composite_score metrics)).
End WithNumPy.
End LiquidityAnalyzer.

(** * Specification vocabulary

    The notions the properties below are stated with: the states a book
    can be brought to, what the update loop keeps and stores, the
    cumulative volume the VWAP walk reads, and the books of the worked
    examples. *)

Import OrderBook.

(** ** The update loop *)

(** The entries the loop keeps. *)
Definition retained (entry : Q * Q) : bool :=
  Qltb 0 (fst entry) && Qltb 0 (snd entry).

(** The level the loop stores for a kept entry. *)
Definition level_of (entry : Q * Q) : PriceLevel.t :=
  PriceLevel.add_order (PriceLevel.new (fst entry))
                       (Order.new (fst entry) (snd entry)).

(** The last kept entry with the given price, if any. *)
Fixpoint last_entry_at (p : Q) (l : list (Q * Q)) (found : option (Q * Q))
  : option (Q * Q) :=
  match l with
  | [] => found
  | e :: l' =>
      last_entry_at p l'
        (if retained e && Qeq_bool (fst e) p then Some e else found)
  end.

(** The order a sort by key establishes. *)
Definition key_before {A : Type} (before : Q -> Q -> bool) (x y : Q * A)
  : Prop :=
  before (fst x) (fst y) = true.

(** [_update_caches] on the two cached bests. *)
Definition cached (prices : list Q) (old : option Q) : option Q :=
  match prices with
  | p :: _ => Some p
  | [] => old
  end.

Definition cached_mid (best_bid best_ask old : option Q) : option Q :=
  if truthy best_bid && truthy best_ask
  then match best_bid, best_ask with
       | Some b, Some a => Some ((b + a) / 2)
       | _, _ => old
       end
  else old.

(** A side as an update leaves it: every indexed price is positive and
    has a level of positive quantity. *)
Definition side_ok (prices : list Q) (levels : dict PriceLevel.t) : Prop :=
  forall p, In p prices ->
    0 < p /\
    exists level,
      dict_get levels p = Some level /\
      0 < PriceLevel.total_quantity level.

(** ** Book states

    The states a program can bring a book to: a fresh book, then any
    number of [update_bids] and [update_asks] calls (the other methods
    read only). *)

Inductive reachable : OrderBook.t -> Prop :=
| reach_new (symbol : string) (max_levels : Z) :
    reachable (OrderBook.new symbol max_levels)
| reach_bids (self : OrderBook.t) (bids : list (Q * Q)) :
    reachable self -> reachable (update_bids self bids)
| reach_asks (self : OrderBook.t) (asks : list (Q * Q)) :
    reachable self -> reachable (update_asks self asks).

(** What holds of every book state: both sides are as an update leaves
    them, the cached best of a populated side is the head of its price
    list, cached bests are positive, and the cached mid price is present
    exactly when both bests are, as their mean. *)
Record wf (self : OrderBook.t) : Prop := mk_wf {
  wf_bids : side_ok (bid_prices self) (bid_levels self);
  wf_asks : side_ok (ask_prices self) (ask_levels self);
  wf_best_bid : cached (bid_prices self) (_best_bid self) = _best_bid self;
  wf_best_ask : cached (ask_prices self) (_best_ask self) = _best_ask self;
  wf_bid_pos : forall p, _best_bid self = Some p -> 0 < p;
  wf_ask_pos : forall p, _best_ask self = Some p -> 0 < p;
  wf_mid :
    _mid_price self =
    match _best_bid self, _best_ask self with
    | Some b, Some a => Some ((b + a) / 2)
    | _, _ => None
    end
}.

(** ** The VWAP walk *)

(** The quantity resting at an indexed price. *)
Definition available (levels : dict PriceLevel.t) (p : Q) : Q :=
  match dict_get levels p with
  | Some level => PriceLevel.total_quantity level
  | None => 0
  end.

(** Cumulative quantity of a run of indexed prices. *)
Definition volume (levels : dict PriceLevel.t) (prices : list Q) : Q :=
  Qsum (map (available levels) prices).

(** The running totals of the VWAP walk over a run of indexed prices it
    takes whole, as its loop accumulates them: each turn adds one level
    and rounds. *)
Definition walked_volume (rnd : Q -> Q) (levels : dict PriceLevel.t)
  (prices : list Q) (filled_quantity : Q) : Q :=
  fold_left (fun filled p => rnd (filled + available levels p))
            prices filled_quantity.

Definition walked_cost (rnd : Q -> Q) (levels : dict PriceLevel.t)
  (prices : list Q) (total_cost : Q) : Q :=
  fold_left (fun cost p => rnd (cost + rnd (p * available levels p)))
            prices total_cost.

(** The cost of a walk that takes the first [k] levels whole: if there
    is a level at index [k] the walk stops inside it and buys there what
    is left of [quantity]. *)
Definition walk_cost (rnd : Q -> Q) (levels : dict PriceLevel.t)
  (prices : list Q) (k : nat) (quantity : Q) : Q :=
  match nth_error prices k with
  | Some p =>
      rnd (walked_cost rnd levels (firstn k prices) 0
           + rnd (p * rnd (quantity
                           - walked_volume rnd levels (firstn k prices) 0)))
  | None => walked_cost rnd levels prices 0
  end.

(** ** A book and the analyzer that watches it *)

(** A book together with an analyzer that watches it: the analyzer is
    created on some state of the book, after which the book is updated
    and the analyzer asked for metrics, in any order. *)
Inductive watching (np_sqrt : Q -> Q) (np_mean np_std : list Q -> Q)
  : OrderBook.t -> SpreadAnalyzer.t -> Prop :=
| watch_new (orderbook : OrderBook.t) :
    reachable orderbook ->
    watching np_sqrt np_mean np_std orderbook SpreadAnalyzer.new
| watch_bids orderbook self bids :
    watching np_sqrt np_mean np_std orderbook self ->
    watching np_sqrt np_mean np_std (update_bids orderbook bids) self
| watch_asks orderbook self asks :
    watching np_sqrt np_mean np_std orderbook self ->
    watching np_sqrt np_mean np_std (update_asks orderbook asks) self
| watch_metrics orderbook self metrics self' :
    watching np_sqrt np_mean np_std orderbook self ->
    SpreadAnalyzer.calculate_all_metrics np_sqrt np_mean np_std
      self orderbook = Ok (metrics, self') ->
    watching np_sqrt np_mean np_std orderbook self'.

(** ** Binary64

    The arithmetic of IEEE 754 binary64 on the rationals that are floats:
    rounding to nearest with ties to even, on the normal and the
    subnormal range (overflow is outside it), the correctly rounded
    square root, and NumPy's sum, mean and deviation of an array of
    floats.  The worked examples run the code with them. *)

Definition round_half_even (x : Q) : Z :=
  let f := Qfloor x in
  match Qcompare (x - inject_Z f) (1 # 2) with
  | Lt => f
  | Gt => (f + 1)%Z
  | Eq => if Z.even f then f else (f + 1)%Z
  end.

(** The binary exponent of a positive rational [a]:
    [2 ^ ilog2 a <= a < 2 ^ (ilog2 a + 1)]. *)
Definition ilog2 (a : Q) : Z :=
  let e := (Z.log2 (Qnum a) - Z.log2 (Zpos (Qden a)))%Z in
  if Qle_bool (2 ^ e) a then e else (e - 1)%Z.

Definition round64 (x : Q) : Q :=
  if Qeq_bool x 0 then 0
  else
    let a := Qabs x in
    let ulp := Z.max (ilog2 a - 52) (-1074) in
    let n := round_half_even (a / 2 ^ ulp) in
    Qred ((if Qle_bool 0 x then 1 else -1) * inject_Z n * 2 ^ ulp).

(** [np.sqrt] on a float: the float nearest to the root. *)
Definition sqrt64 (x : Q) : Q :=
  if Qle_bool x 0 then 0
  else
    let ulp := (ilog2 x / 2 - 52)%Z in
    let m := x / 2 ^ (2 * ulp) in
    let s := Z.sqrt (Qfloor m) in
    let n :=
      match Qcompare m (inject_Z (s * s + s) + (1 # 4)) with
      | Lt => s
      | Gt => (s + 1)%Z
      | Eq => if Z.even s then s else (s + 1)%Z
      end in
    Qred (inject_Z n * 2 ^ ulp).

Definition add64 (x y : Q) : Q := round64 (x + y).

(** NumPy sums an array of floats pairwise.  Fewer than 8 elements are
    added in turn; up to 128 elements are added into eight accumulators,
    the element at index [i] into accumulator [i mod 8], the accumulators
    are added as a balanced tree, and the elements beyond the last
    multiple of 8 are added in turn; a longer array is split in two near
    its middle, at a multiple of 8. *)
Definition lane (block : list Q) (j : nat) : Q :=
  let picks := map (fun k => nth (8 * k + j) block 0)
                   (seq 0 (List.length block / 8)) in
  match picks with
  | [] => 0
  | x :: rest => fold_left add64 rest x
  end.

Fixpoint pairwise_sum (fuel : nat) (a : list Q) : Q :=
  let n := List.length a in
  if (n <? 8)%nat then fold_left add64 a 0
  else if (n <=? 128)%nat then
    let whole := (n - n mod 8)%nat in
    let r := lane (firstn whole a) in
    let res :=
      add64 (add64 (add64 (r 0%nat) (r 1%nat)) (add64 (r 2%nat) (r 3%nat)))
            (add64 (add64 (r 4%nat) (r 5%nat)) (add64 (r 6%nat) (r 7%nat))) in
    fold_left add64 (skipn whole a) res
  else
    match fuel with
    | O => 0
    | S fuel' =>
        let n2 := (n / 2 - (n / 2) mod 8)%nat in
        add64 (pairwise_sum fuel' (firstn n2 a))
              (pairwise_sum fuel' (skipn n2 a))
    end.

Definition np_sum64 (a : list Q) : Q := pairwise_sum (List.length a) a.

(** [np.mean] and [np.std] of a list of floats: the sum over the count,
    and the root of the mean of the squared deviations from that mean. *)
Definition np_mean64 (a : list Q) : Q := round64 (np_sum64 a / Qlen a).

Definition np_std64 (a : list Q) : Q :=
  let arrmean := np_mean64 a in
  let x := map (fun v => let d := round64 (v - arrmean) in round64 (d * d))
               a in
  sqrt64 (round64 (np_sum64 x / Qlen a)).

(** ** Worked examples *)

(** The book of the specification's worked examples. *)
Definition example_book : OrderBook.t :=
  update_asks (update_bids (OrderBook.new "X" 1000) [(100, 2); (99, 3)])
              [(101, 1); (102, 4)].

(** The depths of two books that differ in their bid quantities only. *)
Definition uniform_book : OrderBook.t :=
  update_asks
    (update_bids (OrderBook.new "X" 1000)
       [(100, 5); (99, 5); (98, 5); (97, 5); (96, 5)])
    [(101, 1); (102, 4); (103, 2)].

Definition concentrated_book : OrderBook.t :=
  update_asks
    (update_bids (OrderBook.new "X" 1000)
       [(100, 20); (99, 1); (98, 1); (97, 1); (96, 1)])
    [(101, 1); (102, 4); (103, 2)].

Definition depth_of (book : OrderBook.t) : depth :=
  match get_depth book 20 with
  | Ok d => d
  | Raise _ => mk_depth [] [] 0 0
  end.

(** A square root to run the analyzer with: the integer square root of
    the argument scaled by [10^12], hence six decimals, exact on 0. *)
Definition sqrt6 (x : Q) : Q :=
  inject_Z (Z.sqrt (Qnum x * 10 ^ 12 / Zpos (Qden x))) / inject_Z (10 ^ 6).






(** The float written [0.1], and a book with ten asks of that
    quantity. *)
Definition tenth : Q := round64 (1 # 10).

Definition tenth_book : OrderBook.t :=
  update_asks (update_bids (OrderBook.new "X" 1000) [(100, 1)])
    [(101, tenth); (102, tenth); (103, tenth); (104, tenth); (105, tenth);
     (106, tenth); (107, tenth); (108, tenth); (109, tenth); (110, tenth)].

(** ** Price levels *)

(** No order of the list carries the identifier. *)
Definition id_absent (order_id : string) (orders : list Order.t) : Prop :=
  Forall (fun order => PriceLevel.has_id order order_id = false) orders.

(** ** Sequences of updates *)

Inductive update : Type :=
| Bids (entries : list (Q * Q))
| Asks (entries : list (Q * Q)).

Definition apply_update (self : OrderBook.t) (u : update) : OrderBook.t :=
  match u with
  | Bids entries => update_bids self entries
  | Asks entries => update_asks self entries
  end.

Definition apply_updates (self : OrderBook.t) (us : list update)
  : OrderBook.t :=
  fold_left apply_update us self.

(** ** Levels as an update stores them *)

(** Every indexed price has the level the loop built from a kept entry at
    that price. *)
Definition side_levels (prices : list Q) (levels : dict PriceLevel.t)
  : Prop :=
  forall p, In p prices ->
    exists e,
      retained e = true /\ fst e == p /\
      dict_get levels p = Some (level_of e).

(** The entry [get_depth] reports for an indexed price. *)
Definition depth_entry (levels : dict PriceLevel.t) (p : Q) : depth_level :=
  mk_level p (available levels p)
    (match dict_get levels p with
     | Some level => List.length (PriceLevel.orders level)
     | None => 0
     end).

(** ** Depth analytics *)

(** The volume imbalance of the [k] nearest levels of a book. *)
Definition imbalance_at (orderbook : OrderBook.t) (k : Z) : Q :=
  let vb := volume (bid_levels orderbook)
                   (slice_to (bid_prices orderbook) k) in
  let va := volume (ask_levels orderbook)
                   (slice_to (ask_prices orderbook) k) in
  if Qltb 0 (vb + va) then (vb - va) / (vb + va) else 0.

(** * Properties *)

(** ** Boolean comparisons on [Q] *)

Lemma Qltb_lt (x y : Q) : Qltb x y = true <-> x < y.
Proof.
  unfold Qltb. rewrite negb_true_iff.
  split; intro H.
  - apply Qnot_le_lt. intro Hle. apply Qle_bool_iff in Hle. congruence.
  - destruct (Qle_bool y x) eqn:E; [|reflexivity].
    apply Qle_bool_iff in E. exfalso. exact (Qlt_not_le _ _ H E).
Qed.

Lemma Qltb_ge (x y : Q) : Qltb x y = false <-> y <= x.
Proof.
  unfold Qltb. rewrite negb_false_iff. apply Qle_bool_iff.
Qed.

Lemma Qle_bool_gt (x y : Q) : Qle_bool x y = false <-> y < x.
Proof.
  rewrite <- Qltb_lt. unfold Qltb. rewrite negb_true_iff. reflexivity.
Qed.

Lemma Qeq_bool_trans_l (a b c : Q) :
  Qeq_bool a b = true -> Qeq_bool a c = Qeq_bool b c.
Proof.
  intro H. apply Qeq_bool_iff in H.
  destruct (Qeq_bool a c) eqn:E1, (Qeq_bool b c) eqn:E2; try reflexivity.
  - apply Qeq_bool_iff in E1. apply Qeq_bool_neq in E2.
    exfalso. apply E2. rewrite <- H. exact E1.
  - apply Qeq_bool_iff in E2. apply Qeq_bool_neq in E1.
    exfalso. apply E1. rewrite H. exact E2.
Qed.

Lemma truthy_Some (o : option Q) :
  truthy o = true -> exists x, o = Some x /\ ~ x == 0.
Proof.
  destruct o as [x|]; simpl; [|discriminate].
  rewrite negb_true_iff. intro H. exists x. split; [reflexivity|].
  now apply Qeq_bool_neq.
Qed.

Lemma truthy_pos (x : Q) : 0 < x -> truthy (Some x) = true.
Proof.
  intro H. simpl. rewrite negb_true_iff.
  destruct (Qeq_bool x 0) eqn:E; [|reflexivity].
  apply Qeq_bool_iff in E. rewrite E in H. exfalso. exact (Qlt_irrefl _ H).
Qed.

(** ** Dicts *)

Lemma dict_get_set {V : Type} (d : dict V) (k k' : Q) (v : V) :
  dict_get (dict_set d k v) k' =
  if Qeq_bool k k' then Some v else dict_get d k'.
Proof.
  induction d as [|[k1 v1] d IH]; simpl.
  - reflexivity.
  - destruct (Qeq_bool k1 k) eqn:E; simpl.
    + rewrite (Qeq_bool_trans_l _ _ k' E).
      destruct (Qeq_bool k k'); reflexivity.
    + rewrite IH.
      destruct (Qeq_bool k1 k') eqn:E1; [|reflexivity].
      destruct (Qeq_bool k k') eqn:E2; [|reflexivity].
      apply Qeq_bool_iff in E1, E2. apply Qeq_bool_neq in E.
      exfalso. apply E. rewrite E1, E2. reflexivity.
Qed.

Lemma dict_get_set_same {V : Type} (d : dict V) (k : Q) (v : V) :
  dict_get (dict_set d k v) k = Some v.
Proof.
  rewrite dict_get_set.
  assert (H : Qeq_bool k k = true) by (apply Qeq_bool_iff; reflexivity).
  now rewrite H.
Qed.

(** ** The rebuild loop *)

Module RebuildFacts.
Import OrderBook.

Lemma add_entry_eq (acc : list Q * dict PriceLevel.t) (entry : Q * Q) :
  add_entry acc entry =
  if retained entry
  then (fst acc ++ [fst entry], dict_set (snd acc) (fst entry) (level_of entry))
  else acc.
Proof.
  destruct acc as [ps d], entry as [p q]. unfold add_entry, retained, level_of.
  simpl. destruct (Qltb 0 p && Qltb 0 q); reflexivity.
Qed.

Lemma fold_add_entry_prices (l : list (Q * Q)) :
  forall acc,
    fst (fold_left add_entry l acc) =
    fst acc ++ map fst (filter retained l).
Proof.
  induction l as [|e l IH]; intro acc; simpl.
  - now rewrite app_nil_r.
  - rewrite IH, add_entry_eq.
    destruct (retained e); simpl.
    + now rewrite <- app_assoc.
    + reflexivity.
Qed.

Lemma rebuild_prices (l : list (Q * Q)) :
  fst (rebuild l) = map fst (filter retained l).
Proof. unfold rebuild. now rewrite fold_add_entry_prices. Qed.

Lemma last_entry_at_default (p : Q) (l : list (Q * Q)) :
  forall found,
    last_entry_at p l found =
    match last_entry_at p l None with
    | Some e => Some e
    | None => found
    end.
Proof.
  induction l as [|e l IH]; intro found; simpl.
  - reflexivity.
  - destruct (retained e && Qeq_bool (fst e) p).
    + rewrite (IH (Some e)). destruct (last_entry_at p l None); reflexivity.
    + apply IH.
Qed.

Lemma fold_add_entry_levels (l : list (Q * Q)) (p : Q) :
  forall acc,
    dict_get (snd (fold_left add_entry l acc)) p =
    match last_entry_at p l None with
    | Some e => Some (level_of e)
    | None => dict_get (snd acc) p
    end.
Proof.
  induction l as [|e l IH]; intro acc; simpl.
  - reflexivity.
  - rewrite IH, add_entry_eq.
    destruct (retained e) eqn:R; simpl.
    + rewrite dict_get_set.
      destruct (Qeq_bool (fst e) p) eqn:E.
      * rewrite (last_entry_at_default p l (Some e)).
        destruct (last_entry_at p l None); reflexivity.
      * reflexivity.
    + reflexivity.
Qed.

(** What [update_bids]/[update_asks] store under a price: one level
    holding the single order of the last kept entry at that price. *)
Lemma rebuild_levels (l : list (Q * Q)) (p : Q) :
  dict_get (snd (rebuild l)) p =
  option_map level_of (last_entry_at p l None).
Proof.
  unfold rebuild. rewrite fold_add_entry_levels. simpl.
  destruct (last_entry_at p l None); reflexivity.
Qed.

Lemma last_entry_at_spec (p : Q) (l : list (Q * Q)) :
  forall found e,
    last_entry_at p l found = Some e ->
    (found = Some e \/ (In e l /\ retained e = true /\ fst e == p)).
Proof.
  induction l as [|x l IH]; intros found e H; simpl in H.
  - now left.
  - apply IH in H. destruct H as [H|H].
    + destruct (retained x && Qeq_bool (fst x) p) eqn:E.
      * inversion H; subst. apply andb_true_iff in E. destruct E as [E1 E2].
        right. split; [now left|]. split; [assumption|].
        now apply Qeq_bool_iff.
      * now left.
    + right. destruct H as (H1 & H2 & H3). split; [now right|]. now split.
Qed.

Lemma last_entry_at_found (p : Q) (l : list (Q * Q)) :
  forall found,
    (found <> None \/ exists e, In e l /\ retained e = true /\ fst e == p) ->
    last_entry_at p l found <> None.
Proof.
  induction l as [|x l IH]; intros found H; simpl.
  - destruct H as [H|[e [[] _]]]. exact H.
  - apply IH.
    destruct (retained x && Qeq_bool (fst x) p) eqn:E.
    + left. discriminate.
    + destruct H as [H|[e (Hin & Hr & Hp)]]; [now left|].
      destruct Hin as [->|Hin].
      * rewrite Hr in E. simpl in E.
        apply Qeq_bool_iff in Hp. congruence.
      * right. exists e. now repeat split.
Qed.
End RebuildFacts.

(** ** Sorting *)

Section SortFacts.
Context {A : Type}.
Variable before : Q -> Q -> bool.

Lemma insert_by_perm (x : Q * A) (l : list (Q * A)) :
  Permutation (insert_by before x l) (x :: l).
Proof.
  induction l as [|y l IH]; simpl.
  - constructor. constructor.
  - destruct (before (fst x) (fst y)).
    + apply Permutation_refl.
    + eapply perm_trans; [apply perm_skip, IH | apply perm_swap].
Qed.

Lemma sorted_by_perm (l : list (Q * A)) :
  Permutation (sorted_by before l) l.
Proof.
  induction l as [|x l IH]; simpl.
  - constructor.
  - eapply perm_trans; [apply insert_by_perm | now apply perm_skip].
Qed.

(** Stability: entries with equal keys keep the order they came in. *)
Lemma insert_by_stable (k : Q) (x : Q * A) (l : list (Q * A)) :
  (forall a b, a == b -> before a b = true) ->
  filter (fun y => Qeq_bool (fst y) k) (insert_by before x l) =
  filter (fun y => Qeq_bool (fst y) k) (x :: l).
Proof.
  intro Hrefl. induction l as [|y l IH]; [reflexivity|].
  cbn [insert_by]. destruct (before (fst x) (fst y)) eqn:B; [reflexivity|].
  cbn [filter] in *. rewrite IH.
  destruct (Qeq_bool (fst x) k) eqn:Ex, (Qeq_bool (fst y) k) eqn:Ey;
    try reflexivity.
  apply Qeq_bool_iff in Ex, Ey.
  rewrite Hrefl in B; [discriminate|]. now rewrite Ex, Ey.
Qed.

Lemma sorted_by_stable (k : Q) (l : list (Q * A)) :
  (forall a b, a == b -> before a b = true) ->
  filter (fun y => Qeq_bool (fst y) k) (sorted_by before l) =
  filter (fun y => Qeq_bool (fst y) k) l.
Proof.
  intro Hrefl. induction l as [|x l IH]; [reflexivity|].
  cbn [sorted_by fold_right]. fold (sorted_by before l).
  rewrite insert_by_stable by exact Hrefl.
  cbn [filter]. now rewrite IH.
Qed.

Hypothesis before_total :
  forall a b, before a b = false -> before b a = true.
Hypothesis before_trans :
  forall a b c, before a b = true -> before b c = true -> before a c = true.

Lemma insert_by_sorted (x : Q * A) (l : list (Q * A)) :
  StronglySorted (key_before before) l ->
  StronglySorted (key_before before) (insert_by before x l).
Proof.
  induction 1 as [|y l Hs IH Hall]; simpl.
  - constructor; constructor.
  - destruct (before (fst x) (fst y)) eqn:E.
    + constructor.
      * now constructor.
      * constructor; [exact E|].
        eapply Forall_impl; [|exact Hall].
        intros z Hz. unfold key_before in *. eauto.
    + constructor; [exact IH|].
      eapply Permutation_Forall.
      * apply Permutation_sym, insert_by_perm.
      * constructor; [|exact Hall].
        unfold key_before. now apply before_total.
Qed.

Lemma sorted_by_sorted (l : list (Q * A)) :
  StronglySorted (key_before before) (sorted_by before l).
Proof.
  induction l as [|x l IH]; simpl.
  - constructor.
  - now apply insert_by_sorted.
Qed.
End SortFacts.

Lemma StronglySorted_filter {A : Type} (R : A -> A -> Prop) (f : A -> bool)
  (l : list A) :
  StronglySorted R l -> StronglySorted R (filter f l).
Proof.
  induction 1 as [|x l Hs IH Hall]; simpl.
  - constructor.
  - destruct (f x); [|exact IH].
    constructor; [exact IH|].
    apply Forall_forall. intros y Hy. apply filter_In in Hy.
    rewrite Forall_forall in Hall. now apply Hall.
Qed.

Lemma StronglySorted_map {A B : Type} (R : B -> B -> Prop) (f : A -> B)
  (l : list A) :
  StronglySorted (fun x y => R (f x) (f y)) l -> StronglySorted R (map f l).
Proof.
  induction 1 as [|x l Hs IH Hall]; simpl.
  - constructor.
  - constructor; [exact IH|].
    apply Forall_forall. intros y Hy. apply in_map_iff in Hy.
    destruct Hy as [z [<- Hz]]. rewrite Forall_forall in Hall. now apply Hall.
Qed.

Lemma sorted_desc_sorted {A : Type} (l : list (Q * A)) :
  StronglySorted (fun x y => fst y <= fst x) (sorted_desc l).
Proof.
  eapply StronglySorted_ind with (P := StronglySorted (fun x y : Q * A => fst y <= fst x));
    [constructor | | apply (sorted_by_sorted descending)].
  - intros x l0 _ IH Hall. constructor; [exact IH|].
    eapply Forall_impl; [|exact Hall]. intros y Hy.
    unfold key_before, descending in Hy. now apply Qle_bool_iff.
  - intros a b H. unfold descending in *.
    apply Qle_bool_gt in H. apply Qle_bool_iff. now apply Qlt_le_weak.
  - intros a b c H1 H2. unfold descending in *.
    apply Qle_bool_iff in H1, H2. apply Qle_bool_iff. eapply Qle_trans; eauto.
Qed.

Lemma sorted_asc_sorted {A : Type} (l : list (Q * A)) :
  StronglySorted (fun x y => fst x <= fst y) (sorted_asc l).
Proof.
  eapply StronglySorted_ind with (P := StronglySorted (fun x y : Q * A => fst x <= fst y));
    [constructor | | apply (sorted_by_sorted ascending)].
  - intros x l0 _ IH Hall. constructor; [exact IH|].
    eapply Forall_impl; [|exact Hall]. intros y Hy.
    unfold key_before, ascending in Hy. now apply Qle_bool_iff.
  - intros a b H. unfold ascending in *.
    apply Qle_bool_gt in H. apply Qle_bool_iff. now apply Qlt_le_weak.
  - intros a b c H1 H2. unfold ascending in *.
    apply Qle_bool_iff in H1, H2. apply Qle_bool_iff. eapply Qle_trans; eauto.
Qed.

(** ** What an update writes *)

Module UpdateFacts.
Import OrderBook RebuildFacts.

Section Bids.
Variables (self : t) (bids : list (Q * Q)).

Lemma update_bids_bid_prices :
  bid_prices (update_bids self bids) = fst (rebuild (sorted_desc bids)).
Proof. unfold update_bids. now destruct (rebuild _). Qed.

Lemma update_bids_bid_levels :
  bid_levels (update_bids self bids) = snd (rebuild (sorted_desc bids)).
Proof. unfold update_bids. now destruct (rebuild _). Qed.

Lemma update_bids_ask_prices :
  ask_prices (update_bids self bids) = ask_prices self.
Proof. unfold update_bids. now destruct (rebuild _). Qed.

Lemma update_bids_ask_levels :
  ask_levels (update_bids self bids) = ask_levels self.
Proof. unfold update_bids. now destruct (rebuild _). Qed.

Lemma update_bids_best_bid :
  _best_bid (update_bids self bids) =
  cached (bid_prices (update_bids self bids)) (_best_bid self).
Proof. unfold update_bids. now destruct (rebuild _). Qed.

Lemma update_bids_best_ask :
  _best_ask (update_bids self bids) = cached (ask_prices self) (_best_ask self).
Proof. unfold update_bids. now destruct (rebuild _). Qed.

Lemma update_bids_mid_price :
  _mid_price (update_bids self bids) =
  cached_mid (_best_bid (update_bids self bids))
             (_best_ask (update_bids self bids)) (_mid_price self).
Proof. unfold update_bids. now destruct (rebuild _). Qed.
End Bids.

Section Asks.
Variables (self : t) (asks : list (Q * Q)).

Lemma update_asks_ask_prices :
  ask_prices (update_asks self asks) = fst (rebuild (sorted_asc asks)).
Proof. unfold update_asks. now destruct (rebuild _). Qed.

Lemma update_asks_ask_levels :
  ask_levels (update_asks self asks) = snd (rebuild (sorted_asc asks)).
Proof. unfold update_asks. now destruct (rebuild _). Qed.

Lemma update_asks_bid_prices :
  bid_prices (update_asks self asks) = bid_prices self.
Proof. unfold update_asks. now destruct (rebuild _). Qed.

Lemma update_asks_bid_levels :
  bid_levels (update_asks self asks) = bid_levels self.
Proof. unfold update_asks. now destruct (rebuild _). Qed.

Lemma update_asks_best_ask :
  _best_ask (update_asks self asks) =
  cached (ask_prices (update_asks self asks)) (_best_ask self).
Proof. unfold update_asks. now destruct (rebuild _). Qed.

Lemma update_asks_best_bid :
  _best_bid (update_asks self asks) = cached (bid_prices self) (_best_bid self).
Proof. unfold update_asks. now destruct (rebuild _). Qed.

Lemma update_asks_mid_price :
  _mid_price (update_asks self asks) =
  cached_mid (_best_bid (update_asks self asks))
             (_best_ask (update_asks self asks)) (_mid_price self).
Proof. unfold update_asks. now destruct (rebuild _). Qed.
End Asks.

Lemma retained_pos (e : Q * Q) :
  retained e = true -> 0 < fst e /\ 0 < snd e.
Proof.
  unfold retained. rewrite andb_true_iff, !Qltb_lt. tauto.
Qed.

Lemma rebuild_side_ok (l : list (Q * Q)) :
  side_ok (fst (rebuild l)) (snd (rebuild l)).
Proof.
  intros p Hp. rewrite rebuild_prices in Hp.
  apply in_map_iff in Hp. destruct Hp as [e [<- He]].
  apply filter_In in He. destruct He as [Hin Hr].
  split; [now apply retained_pos|].
  rewrite rebuild_levels.
  destruct (last_entry_at (fst e) l None) as [e'|] eqn:E.
  - exists (level_of e'). split; [reflexivity|].
    apply last_entry_at_spec in E. destruct E as [E|(_ & Hr' & _)];
      [discriminate|].
    apply retained_pos in Hr'. simpl. lra.
  - exfalso. revert E. apply last_entry_at_found. right.
    exists e. repeat split; auto.
Qed.
End UpdateFacts.

(** ** Book states are well formed *)

Module BookFacts.
Import OrderBook RebuildFacts UpdateFacts.

Lemma cached_mid_wf (bb ba old : option Q) :
  (forall p, bb = Some p -> 0 < p) ->
  (forall p, ba = Some p -> 0 < p) ->
  (bb = None \/ ba = None -> old = None) ->
  cached_mid bb ba old =
  match bb, ba with
  | Some b, Some a => Some ((b + a) / 2)
  | _, _ => None
  end.
Proof.
  intros Hb Ha Hold. unfold cached_mid.
  destruct bb as [b|], ba as [a|]; simpl;
    try (rewrite Hold by auto; now destruct (negb _)).
  - specialize (Hb b eq_refl). specialize (Ha a eq_refl).
    pose proof (truthy_pos b Hb) as Tb. pose proof (truthy_pos a Ha) as Ta.
    simpl in Tb, Ta. now rewrite Tb, Ta.
  - rewrite Hold by auto. reflexivity.
  - rewrite Hold by auto. reflexivity.
Qed.

Lemma cached_pos (prices : list Q) (levels : dict PriceLevel.t)
  (old : option Q) :
  side_ok prices levels ->
  (forall p, old = Some p -> 0 < p) ->
  forall p, cached prices old = Some p -> 0 < p.
Proof.
  intros Hs Hold p. destruct prices as [|q prices]; simpl.
  - apply Hold.
  - intro H. inversion H; subst. apply Hs. now left.
Qed.

Lemma cached_idem (prices : list Q) (old : option Q) :
  cached prices (cached prices old) = cached prices old.
Proof. now destruct prices. Qed.

Lemma wf_new (symbol : string) (max_levels : Z) :
  wf (OrderBook.new symbol max_levels).
Proof.
  constructor; simpl; try reflexivity; try discriminate;
    intros p [].
Qed.

Lemma wf_update_bids (self : OrderBook.t) (bids : list (Q * Q)) :
  wf self -> wf (update_bids self bids).
Proof.
  intros [Hb Ha Cb Ca Pb Pa M].
  assert (Sb : side_ok (bid_prices (update_bids self bids))
                       (bid_levels (update_bids self bids))).
  { rewrite update_bids_bid_prices, update_bids_bid_levels.
    apply rebuild_side_ok. }
  assert (Pb' : forall p, _best_bid (update_bids self bids) = Some p -> 0 < p).
  { rewrite update_bids_best_bid. eapply cached_pos; eauto. }
  assert (Pa' : forall p, _best_ask (update_bids self bids) = Some p -> 0 < p).
  { rewrite update_bids_best_ask, Ca. exact Pa. }
  constructor; try assumption.
  - rewrite update_bids_ask_prices, update_bids_ask_levels. exact Ha.
  - rewrite update_bids_best_bid. apply cached_idem.
  - rewrite update_bids_best_ask, update_bids_ask_prices. apply cached_idem.
  - rewrite update_bids_mid_price. apply cached_mid_wf; try assumption.
    intros [H|H].
    + rewrite update_bids_best_bid in H.
      rewrite M. destruct (bid_prices (update_bids self bids)); simpl in H;
        [|discriminate]. now rewrite H.
    + rewrite update_bids_best_ask, Ca in H.
      rewrite M, H. now destruct (_best_bid self).
Qed.

Lemma wf_update_asks (self : OrderBook.t) (asks : list (Q * Q)) :
  wf self -> wf (update_asks self asks).
Proof.
  intros [Hb Ha Cb Ca Pb Pa M].
  assert (Sa : side_ok (ask_prices (update_asks self asks))
                       (ask_levels (update_asks self asks))).
  { rewrite update_asks_ask_prices, update_asks_ask_levels.
    apply rebuild_side_ok. }
  assert (Pa' : forall p, _best_ask (update_asks self asks) = Some p -> 0 < p).
  { rewrite update_asks_best_ask. eapply cached_pos; eauto. }
  assert (Pb' : forall p, _best_bid (update_asks self asks) = Some p -> 0 < p).
  { rewrite update_asks_best_bid, Cb. exact Pb. }
  constructor; try assumption.
  - rewrite update_asks_bid_prices, update_asks_bid_levels. exact Hb.
  - rewrite update_asks_best_bid, update_asks_bid_prices. apply cached_idem.
  - rewrite update_asks_best_ask. apply cached_idem.
  - rewrite update_asks_mid_price. apply cached_mid_wf; try assumption.
    intros [H|H].
    + rewrite update_asks_best_bid, Cb in H.
      rewrite M, H. reflexivity.
    + rewrite update_asks_best_ask in H.
      rewrite M. destruct (ask_prices (update_asks self asks)); simpl in H;
        [|discriminate]. rewrite H. now destruct (_best_bid self).
Qed.

Lemma reachable_wf (self : OrderBook.t) : reachable self -> wf self.
Proof.
  induction 1.
  - apply wf_new.
  - now apply wf_update_bids.
  - now apply wf_update_asks.
Qed.
End BookFacts.

(** ** The order book: level aggregation, caches, ordering *)

Import OrderBook RebuildFacts UpdateFacts BookFacts.

(** The level an update stores under a price holds exactly one order: the
    last kept entry of the sorted snapshot at that price. *)
Lemma update_bids_level (self : OrderBook.t) (bids : list (Q * Q)) (p : Q) :
  dict_get (bid_levels (update_bids self bids)) p =
  option_map level_of (last_entry_at p (sorted_desc bids) None).
Proof. rewrite update_bids_bid_levels. apply rebuild_levels. Qed.

Lemma update_asks_level (self : OrderBook.t) (asks : list (Q * Q)) (p : Q) :
  dict_get (ask_levels (update_asks self asks)) p =
  option_map level_of (last_entry_at p (sorted_asc asks) None).
Proof. rewrite update_asks_ask_levels. apply rebuild_levels. Qed.

Lemma level_of_single_order (e : Q * Q) :
  PriceLevel.orders (level_of e) = [Order.new (fst e) (snd e)] /\
  PriceLevel.total_quantity (level_of e) == snd e.
Proof. split; [reflexivity|]. simpl. lra. Qed.

(** C1 (code defect).  The claim: entries that share a price in one call
    are all retained as separate orders of one level whose
    [total_quantity] is their sum.  The code: on the snapshot
    [(100, 2); (100, 3)] both [update_bids] and [update_asks] index the
    price 100 twice and store one level holding only the order of quantity
    3, with [total_quantity] 3 instead of 5; the entry of quantity 2 is
    overwritten. *)
Theorem update_same_price_overwrites :
  let snapshot := [(100, 2); (100, 3)] in
  let bid_book := update_bids (OrderBook.new "X" 1000) snapshot in
  let ask_book := update_asks (OrderBook.new "X" 1000) snapshot in
  bid_prices bid_book = [100; 100] /\
  bid_levels bid_book =
    [(100, PriceLevel.mk 100 [Order.new 100 3] 3)] /\
  ask_prices ask_book = [100; 100] /\
  ask_levels ask_book =
    [(100, PriceLevel.mk 100 [Order.new 100 3] 3)].
Proof. vm_compute. repeat split; reflexivity. Qed.

(** C2 (code defect).  The claim: after an update that leaves a side
    empty the cached best price of that side is absent, and [get_spread]
    is absent unless both sides are populated.  The code: [_update_caches]
    only ever overwrites a cached best price, so after the bids
    [(100, 1)] and asks [(101, 1)] an [update_bids] with the empty
    snapshot leaves [best_bid] at 100 and [get_spread] at 1, and likewise
    for the ask side (in general: [update_bids_nothing_kept],
    [update_asks_nothing_kept]). *)
Theorem emptied_side_keeps_cached_best :
  let book :=
    update_asks (update_bids (OrderBook.new "X" 1000) [(100, 1)]) [(101, 1)] in
  let no_bids := update_bids book [] in
  let no_asks := update_asks book [] in
  (bid_prices no_bids = [] /\ best_bid no_bids = Some 100 /\
   get_spread no_bids = Some 1) /\
  (ask_prices no_asks = [] /\ best_ask no_asks = Some 101 /\
   get_spread no_asks = Some 1).
Proof. vm_compute. repeat split; reflexivity. Qed.

(** A snapshot that keeps no entry empties the side and leaves its cached
    best as it was. *)
Lemma update_bids_nothing_kept (self : OrderBook.t) (bids : list (Q * Q)) :
  (forall e, In e bids -> retained e = false) ->
  bid_prices (update_bids self bids) = [] /\
  best_bid (update_bids self bids) = best_bid self.
Proof.
  intro H.
  assert (E : bid_prices (update_bids self bids) = []).
  { rewrite update_bids_bid_prices, rebuild_prices.
    destruct (filter retained (sorted_desc bids)) as [|e l] eqn:F;
      [reflexivity|].
    assert (Hin : In e (filter retained (sorted_desc bids)))
      by (rewrite F; now left).
    apply filter_In in Hin. destruct Hin as [Hin Hr].
    rewrite H in Hr; [discriminate|].
    eapply Permutation_in; [apply sorted_by_perm | exact Hin]. }
  split; [exact E|]. unfold best_bid.
  now rewrite update_bids_best_bid, E.
Qed.

Lemma update_asks_nothing_kept (self : OrderBook.t) (asks : list (Q * Q)) :
  (forall e, In e asks -> retained e = false) ->
  ask_prices (update_asks self asks) = [] /\
  best_ask (update_asks self asks) = best_ask self.
Proof.
  intro H.
  assert (E : ask_prices (update_asks self asks) = []).
  { rewrite update_asks_ask_prices, rebuild_prices.
    destruct (filter retained (sorted_asc asks)) as [|e l] eqn:F;
      [reflexivity|].
    assert (Hin : In e (filter retained (sorted_asc asks)))
      by (rewrite F; now left).
    apply filter_In in Hin. destruct Hin as [Hin Hr].
    rewrite H in Hr; [discriminate|].
    eapply Permutation_in; [apply sorted_by_perm | exact Hin]. }
  split; [exact E|]. unfold best_ask.
  now rewrite update_asks_best_ask, E.
Qed.

(** The price lists are ordered, though not strictly. *)
Lemma update_bids_descending (self : OrderBook.t) (bids : list (Q * Q)) :
  StronglySorted (fun a b => b <= a) (bid_prices (update_bids self bids)).
Proof.
  rewrite update_bids_bid_prices, rebuild_prices.
  apply StronglySorted_map, StronglySorted_filter, sorted_desc_sorted.
Qed.

Lemma update_asks_ascending (self : OrderBook.t) (asks : list (Q * Q)) :
  StronglySorted (fun a b => a <= b) (ask_prices (update_asks self asks)).
Proof.
  rewrite update_asks_ask_prices, rebuild_prices.
  apply StronglySorted_map, StronglySorted_filter, sorted_asc_sorted.
Qed.

Lemma reachable_sorted (self : OrderBook.t) :
  reachable self ->
  StronglySorted (fun a b => b <= a) (bid_prices self) /\
  StronglySorted (fun a b => a <= b) (ask_prices self).
Proof.
  induction 1 as [symbol max_levels | self bids R [Hb Ha] | self asks R [Hb Ha]].
  - split; constructor.
  - split; [apply update_bids_descending|].
    now rewrite update_bids_ask_prices.
  - split; [|apply update_asks_ascending].
    now rewrite update_asks_bid_prices.
Qed.

(** When the snapshot keeps an entry, the cached best is the largest kept
    bid price, respectively the smallest kept ask price. *)
Lemma update_bids_best_is_max (self : OrderBook.t) (bids : list (Q * Q))
  (e : Q * Q) :
  In e bids -> retained e = true ->
  exists best,
    best_bid (update_bids self bids) = Some best /\
    fst e <= best /\
    exists e', In e' bids /\ retained e' = true /\ fst e' = best.
Proof.
  intros Hin Hr.
  pose proof (update_bids_descending self bids) as Hs.
  assert (Hmem : In (fst e) (bid_prices (update_bids self bids))).
  { rewrite update_bids_bid_prices, rebuild_prices.
    apply in_map, filter_In. split; [|exact Hr].
    eapply Permutation_in; [apply Permutation_sym, sorted_by_perm | exact Hin]. }
  unfold best_bid. rewrite update_bids_best_bid.
  destruct (bid_prices (update_bids self bids)) as [|best rest] eqn:E;
    [destruct Hmem|].
  exists best. split; [reflexivity|]. split.
  - destruct Hmem as [<-|Hmem]; [apply Qle_refl|].
    inversion Hs as [|? ? _ Hall]; subst.
    rewrite Forall_forall in Hall. now apply Hall.
  - assert (Hb : In best (bid_prices (update_bids self bids)))
      by (rewrite E; now left).
    rewrite update_bids_bid_prices, rebuild_prices in Hb.
    apply in_map_iff in Hb. destruct Hb as [e' [He' Hb]].
    apply filter_In in Hb. destruct Hb as [Hb1 Hb2].
    exists e'. repeat split; auto.
    eapply Permutation_in; [apply sorted_by_perm | exact Hb1].
Qed.

Lemma update_asks_best_is_min (self : OrderBook.t) (asks : list (Q * Q))
  (e : Q * Q) :
  In e asks -> retained e = true ->
  exists best,
    best_ask (update_asks self asks) = Some best /\
    best <= fst e /\
    exists e', In e' asks /\ retained e' = true /\ fst e' = best.
Proof.
  intros Hin Hr.
  pose proof (update_asks_ascending self asks) as Hs.
  assert (Hmem : In (fst e) (ask_prices (update_asks self asks))).
  { rewrite update_asks_ask_prices, rebuild_prices.
    apply in_map, filter_In. split; [|exact Hr].
    eapply Permutation_in; [apply Permutation_sym, sorted_by_perm | exact Hin]. }
  unfold best_ask. rewrite update_asks_best_ask.
  destruct (ask_prices (update_asks self asks)) as [|best rest] eqn:E;
    [destruct Hmem|].
  exists best. split; [reflexivity|]. split.
  - destruct Hmem as [<-|Hmem]; [apply Qle_refl|].
    inversion Hs as [|? ? _ Hall]; subst.
    rewrite Forall_forall in Hall. now apply Hall.
  - assert (Hb : In best (ask_prices (update_asks self asks)))
      by (rewrite E; now left).
    rewrite update_asks_ask_prices, rebuild_prices in Hb.
    apply in_map_iff in Hb. destruct Hb as [e' [He' Hb]].
    apply filter_In in Hb. destruct Hb as [Hb1 Hb2].
    exists e'. repeat split; auto.
    eapply Permutation_in; [apply sorted_by_perm | exact Hb1].
Qed.

(** C3 (code defect, the one of C1).  The claim: the stored bid prices
    are strictly descending and the stored ask prices strictly ascending.
    The code: a snapshot with two kept entries at one price indexes that
    price twice, so the list is ordered but not strictly
    ([update_bids_descending], [update_asks_ascending]); the cached best
    is still the extreme kept price ([update_bids_best_is_max],
    [update_asks_best_is_min]). *)
Theorem update_same_price_not_strict :
  let snapshot := [(100, 1); (100, 2)] in
  let bid_book := update_bids (OrderBook.new "X" 1000) snapshot in
  let ask_book := update_asks (OrderBook.new "X" 1000) snapshot in
  bid_prices bid_book = [100; 100] /\
  ~ StronglySorted (fun a b => b < a) (bid_prices bid_book) /\
  ask_prices ask_book = [100; 100] /\
  ~ StronglySorted (fun a b => a < b) (ask_prices ask_book).
Proof.
  assert (Hb : bid_prices (update_bids (OrderBook.new "X" 1000)
                             [(100, 1); (100, 2)]) = [100; 100])
    by (vm_compute; reflexivity).
  assert (Ha : ask_prices (update_asks (OrderBook.new "X" 1000)
                             [(100, 1); (100, 2)]) = [100; 100])
    by (vm_compute; reflexivity).
  cbv zeta. rewrite Hb, Ha.
  repeat split; try reflexivity; intro H;
    inversion H as [|? ? _ Hall]; subst;
    inversion Hall as [|? ? Hlt _]; subst;
    exact (Qlt_irrefl _ Hlt).
Qed.

Lemma example_book_reachable : reachable example_book.
Proof. apply reach_asks, reach_bids, reach_new. Defined.

(** C6.  In every state of the book, a cached [mid_price] that is present
    is [(best_bid + best_ask) / 2] of the cached [best_bid] and [best_ask]
    of that same state; and when both sides are populated, the cached
    bests are the heads of the two price lists, [get_spread] is
    [best_ask - best_bid] and [mid_price] is [(best_bid + best_ask) / 2]. *)
Theorem cached_mid_price_consistent (self : OrderBook.t) :
  reachable self ->
  (forall m, mid_price self = Some m ->
     exists b a,
       best_bid self = Some b /\ best_ask self = Some a /\
       m = (b + a) / 2) /\
  (bid_prices self <> [] -> ask_prices self <> [] ->
     exists b a,
       hd_error (bid_prices self) = Some b /\
       hd_error (ask_prices self) = Some a /\
       best_bid self = Some b /\ best_ask self = Some a /\
       get_spread self = Some (a - b) /\
       mid_price self = Some ((b + a) / 2)).
Proof.
  intro R. apply reachable_wf in R. destruct R as [Hb Ha Cb Ca Pb Pa M].
  unfold mid_price, best_bid, best_ask, get_spread. split.
  - intros m Hm. rewrite M in Hm.
    destruct (_best_bid self) as [b|]; [|discriminate].
    destruct (_best_ask self) as [a|]; [|discriminate].
    exists b, a. repeat split. now inversion Hm.
  - intros Nb Na.
    destruct (bid_prices self) as [|b bs]; [now elim Nb|].
    destruct (ask_prices self) as [|a az]; [now elim Na|].
    simpl in Cb, Ca. exists b, a.
    unfold best_bid, best_ask. rewrite M, <- Cb, <- Ca.
    rewrite <- Cb in Pb. rewrite <- Ca in Pa.
    pose proof (truthy_pos b (Pb b eq_refl)) as Tb.
    pose proof (truthy_pos a (Pa a eq_refl)) as Ta.
    rewrite Tb, Ta. simpl. repeat split.
Qed.

Lemma cached_mid_price_consistent_witness :
  reachable example_book /\
  mid_price example_book = Some ((100 + 101) / 2) /\
  get_spread example_book = Some (101 - 100).
Proof.
  split; [exact example_book_reachable|].
  destruct (cached_mid_price_consistent example_book example_book_reachable)
    as [_ H].
  destruct H as (b & a & Hb & Ha & _ & _ & Hs & Hm).
  - vm_compute. discriminate.
  - vm_compute. discriminate.
  - assert (Eb : b = 100) by (vm_compute in Hb; now inversion Hb).
    assert (Ea : a = 101) by (vm_compute in Ha; now inversion Ha).
    subst b a. split; assumption.
Defined.

Lemma cached_mid_idem (b a old : option Q) :
  cached_mid b a (cached_mid b a old) = cached_mid b a old.
Proof.
  unfold cached_mid. destruct (truthy b && truthy a); [|reflexivity].
  destruct b, a; reflexivity.
Qed.

(** C9.  Applying one update twice in a row gives the same [best_bid],
    [best_ask], [mid_price] and [get_depth] result as applying it once,
    for [update_bids] and for [update_asks], from any book. *)
Theorem update_twice_same_as_once (self : OrderBook.t)
  (entries : list (Q * Q)) (levels : Z) :
  (let once := update_bids self entries in
   let twice := update_bids once entries in
   best_bid twice = best_bid once /\
   best_ask twice = best_ask once /\
   mid_price twice = mid_price once /\
   get_depth twice levels = get_depth once levels) /\
  (let once := update_asks self entries in
   let twice := update_asks once entries in
   best_bid twice = best_bid once /\
   best_ask twice = best_ask once /\
   mid_price twice = mid_price once /\
   get_depth twice levels = get_depth once levels).
Proof.
  split; cbv zeta.
  - set (once := update_bids self entries).
    assert (Hp : bid_prices (update_bids once entries) = bid_prices once)
      by (unfold once; now rewrite !update_bids_bid_prices).
    assert (Hl : bid_levels (update_bids once entries) = bid_levels once)
      by (unfold once; now rewrite !update_bids_bid_levels).
    assert (Hb : best_bid (update_bids once entries) = best_bid once).
    { unfold best_bid. rewrite update_bids_best_bid, Hp.
      unfold once at 2 3. rewrite update_bids_best_bid. apply cached_idem. }
    assert (Ha : best_ask (update_bids once entries) = best_ask once).
    { unfold best_ask. rewrite update_bids_best_ask.
      unfold once. rewrite update_bids_ask_prices, update_bids_best_ask.
      apply cached_idem. }
    repeat split; try assumption.
    + unfold mid_price, best_bid, best_ask in *.
      rewrite update_bids_mid_price, Hb, Ha.
      unfold once at 3 4. rewrite update_bids_mid_price.
      apply cached_mid_idem.
    + unfold get_depth. rewrite Hp, Hl.
      now rewrite update_bids_ask_prices, update_bids_ask_levels.
  - set (once := update_asks self entries).
    assert (Hp : ask_prices (update_asks once entries) = ask_prices once)
      by (unfold once; now rewrite !update_asks_ask_prices).
    assert (Hl : ask_levels (update_asks once entries) = ask_levels once)
      by (unfold once; now rewrite !update_asks_ask_levels).
    assert (Ha : best_ask (update_asks once entries) = best_ask once).
    { unfold best_ask. rewrite update_asks_best_ask, Hp.
      unfold once at 2 3. rewrite update_asks_best_ask. apply cached_idem. }
    assert (Hb : best_bid (update_asks once entries) = best_bid once).
    { unfold best_bid. rewrite update_asks_best_bid.
      unfold once. rewrite update_asks_bid_prices, update_asks_best_bid.
      apply cached_idem. }
    repeat split; try assumption.
    + unfold mid_price, best_bid, best_ask in *.
      rewrite update_asks_mid_price, Hb, Ha.
      unfold once at 3 4. rewrite update_asks_mid_price.
      apply cached_mid_idem.
    + unfold get_depth. rewrite Hp, Hl.
      now rewrite update_asks_bid_prices, update_asks_bid_levels.
Qed.

(** C10.  In every state of the book, [update_bids] leaves the ask price
    list, the ask levels and the cached [best_ask] as they were, and
    [update_asks] leaves the bid price list, the bid levels and the cached
    [best_bid] as they were. *)
Theorem update_leaves_other_side (self : OrderBook.t)
  (entries : list (Q * Q)) :
  reachable self ->
  (ask_prices (update_bids self entries) = ask_prices self /\
   ask_levels (update_bids self entries) = ask_levels self /\
   best_ask (update_bids self entries) = best_ask self) /\
  (bid_prices (update_asks self entries) = bid_prices self /\
   bid_levels (update_asks self entries) = bid_levels self /\
   best_bid (update_asks self entries) = best_bid self).
Proof.
  intro R. apply reachable_wf in R. destruct R as [_ _ Cb Ca _ _ _].
  unfold best_ask, best_bid. repeat split.
  - apply update_bids_ask_prices.
  - apply update_bids_ask_levels.
  - now rewrite update_bids_best_ask.
  - apply update_asks_bid_prices.
  - apply update_asks_bid_levels.
  - now rewrite update_asks_best_bid.
Qed.

Lemma update_leaves_other_side_witness :
  reachable example_book /\
  best_ask (update_bids example_book [(99, 5)]) = best_ask example_book /\
  bid_prices (update_asks example_book [(99, 5)]) = bid_prices example_book.
Proof.
  split; [exact example_book_reachable|].
  destruct (update_leaves_other_side example_book [(99, 5)]
              example_book_reachable) as [(_ & _ & H1) (H2 & _ & _)].
  split; assumption.
Defined.

Lemma Qhalf (x : Q) : x / 2 == x * (1 # 2).
Proof. reflexivity. Qed.

(** ** Sums *)

Lemma fold_left_Qplus_acc (l : list Q) :
  forall a, fold_left Qplus l a == a + Qsum l.
Proof.
  unfold Qsum. induction l as [|x l IH]; intro a; simpl.
  - lra.
  - rewrite (IH (a + x)), (IH (0 + x)). lra.
Qed.

Lemma Qsum_nil : Qsum [] = 0.
Proof. reflexivity. Qed.

Lemma Qsum_cons (x : Q) (l : list Q) : Qsum (x :: l) == x + Qsum l.
Proof.
  unfold Qsum at 1. simpl. rewrite fold_left_Qplus_acc. lra.
Qed.

Lemma Qsum_nonneg (l : list Q) : Forall (fun x => 0 <= x) l -> 0 <= Qsum l.
Proof.
  induction 1 as [|x l Hx _ IH].
  - rewrite Qsum_nil. lra.
  - rewrite Qsum_cons. lra.
Qed.

(** ** The VWAP walk *)

Module WalkFacts.
Import OrderBook.

Lemma volume_cons levels p prices :
  volume levels (p :: prices) == available levels p + volume levels prices.
Proof. unfold volume. simpl. apply Qsum_cons. Qed.

Section Rounding.
Variable rnd : Q -> Q.

(** The walk returns on a side each of whose indexed prices has a level.
    It takes some number [k] of levels whole, the running sum staying
    within [quantity]; then either the side is exhausted, or the level at
    index [k] would overshoot and the walk stops inside it. *)
Lemma vwap_walk_shape (levels : dict PriceLevel.t) (quantity : Q) :
  forall prices total_cost filled_quantity,
    (forall p, In p prices -> dict_get levels p <> None) ->
    filled_quantity <= quantity ->
    exists c f k,
      vwap_walk rnd levels quantity prices total_cost filled_quantity
        = Ok (c, f) /\
      (forall j, (j <= k)%nat ->
         walked_volume rnd levels (firstn j prices) filled_quantity
         <= quantity) /\
      f <= quantity /\
      match nth_error prices k with
      | None =>
          f = walked_volume rnd levels prices filled_quantity /\
          c = walked_cost rnd levels prices total_cost
      | Some p =>
          quantity
          < rnd (walked_volume rnd levels (firstn k prices) filled_quantity
                 + available levels p) /\
          f = quantity /\
          c = rnd (walked_cost rnd levels (firstn k prices) total_cost
                   + rnd (p * rnd (quantity
                                   - walked_volume rnd levels
                                       (firstn k prices) filled_quantity)))
      end.
Proof.
  induction prices as [|p rest IH]; intros cost filled Hd Hq.
  - exists cost, filled, 0%nat. cbn.
    repeat split; try lra.
    intros j Hj. now destruct j.
  - cbn [vwap_walk]. unfold dict_item.
    destruct (dict_get levels p) as [level|] eqn:E;
      [|exfalso; apply (Hd p); [now left | exact E]].
    cbn [bind].
    assert (Ea : available levels p = PriceLevel.total_quantity level)
      by (unfold available; now rewrite E).
    rewrite <- Ea.
    destruct (Qle_bool (rnd (filled + available levels p)) quantity) eqn:B.
    + apply Qle_bool_iff in B.
      destruct (IH (rnd (cost + rnd (p * available levels p)))
                   (rnd (filled + available levels p)))
        as (c & f & k & Hw & Hle & Hf & Hm).
      * intros p' Hp'. apply Hd. now right.
      * exact B.
      * exists c, f, (S k). split; [exact Hw|]. split.
        { intros [|j] Hj; [exact Hq|].
          apply (Hle j). lia. }
        split; [exact Hf|]. exact Hm.
    + apply Qle_bool_gt in B.
      exists (rnd (cost + rnd (p * rnd (quantity - filled)))), quantity, 0%nat.
      split; [reflexivity|]. split.
      { intros j Hj. assert (j = 0%nat) by lia. subst j. exact Hq. }
      split; [lra|]. cbn. repeat split. exact B.
Qed.
End Rounding.
End WalkFacts.

Import WalkFacts.

Lemma valid_side_iff (side : string) :
  valid_side side = true <-> side = "buy"%string \/ side = "sell"%string.
Proof.
  unfold valid_side. rewrite orb_true_iff, !String.eqb_eq. reflexivity.
Qed.

Lemma side_ok_lookup (prices : list Q) (levels : dict PriceLevel.t) :
  side_ok prices levels ->
  forall p, In p prices -> dict_get levels p <> None.
Proof.
  intros H p Hp. destruct (H p Hp) as (_ & level & E & _). congruence.
Qed.

(** An argument of [estimate_vwap] names the side it walks. *)
Lemma estimate_vwap_eq (rnd : Q -> Q) (self : OrderBook.t) (quantity : Q)
  (side : string) (prices : list Q) (levels : dict PriceLevel.t) :
  (side = "buy"%string /\
   prices = ask_prices self /\ levels = ask_levels self) \/
  (side = "sell"%string /\
   prices = bid_prices self /\ levels = bid_levels self) ->
  estimate_vwap rnd self quantity side =
  (st <- vwap_walk rnd levels quantity prices 0 0 ;;
   let '(total_cost, filled_quantity) := st in
   if Qeq_bool filled_quantity 0
   then Ok (mk_vwap 0 0 quantity)
   else Ok (mk_vwap (rnd (total_cost / filled_quantity)) filled_quantity
                    (rnd (quantity - filled_quantity)))).
Proof.
  unfold estimate_vwap.
  intros [(-> & -> & ->)|(-> & -> & ->)]; reflexivity.
Qed.

(** On a book state, [estimate_vwap] returns for a side in
    [{buy, sell}] and raises [ValueError] for any other. *)
Lemma estimate_vwap_returns (rnd : Q -> Q) (self : OrderBook.t)
  (quantity : Q) (side : string) :
  wf self ->
  if valid_side side
  then exists r, estimate_vwap rnd self quantity side = Ok r
  else exists msg,
         estimate_vwap rnd self quantity side = Raise (ValueError msg).
Proof.
  intros [Hb Ha _ _ _ _ _]. unfold estimate_vwap.
  destruct (valid_side side); simpl; [|eauto].
  set (prices := if String.eqb side "buy" then ask_prices self
                 else bid_prices self).
  set (levels := if String.eqb side "buy" then ask_levels self
                 else bid_levels self).
  assert (Hs : side_ok prices levels)
    by (unfold prices, levels; now destruct (String.eqb side "buy")).
  assert (Hw : forall ps c f,
             (forall p, In p ps -> dict_get levels p <> None) ->
             exists st, vwap_walk rnd levels quantity ps c f = Ok st).
  { induction ps as [|p ps IH]; intros c f Hd; simpl; [eauto|].
    unfold dict_item.
    destruct (dict_get levels p) eqn:E;
      [|exfalso; apply (Hd p); [now left | exact E]].
    simpl. destruct (Qle_bool _ _); [|eauto].
    apply IH. intros p' Hp'. apply Hd. now right. }
  destruct (Hw prices 0 0 (side_ok_lookup _ _ Hs)) as [[c f] E].
  rewrite E. simpl. destruct (Qeq_bool f 0); eauto.
Qed.

(** On a book state a cached mid price is positive, hence truthy. *)
Lemma wf_mid_truthy (self : OrderBook.t) (m : Q) :
  wf self -> mid_price self = Some m -> truthy (mid_price self) = true.
Proof.
  intros [_ _ _ _ Pb Pa M] Hm. rewrite Hm. apply truthy_pos.
  unfold mid_price in Hm. rewrite M in Hm.
  destruct (_best_bid self) as [b|]; [|discriminate].
  destruct (_best_ask self) as [a|]; [|discriminate].
  inversion Hm; subst.
  specialize (Pb b eq_refl). specialize (Pa a eq_refl).
  apply Qlt_shift_div_l; lra.
Qed.

(** C4 (amended).  In every state of the book, whatever the quantity and
    however floats round: [estimate_vwap] fails, with [ValueError],
    exactly when the side is outside [{buy, sell}], and returns
    otherwise; [estimate_slippage] fails, with [ValueError], exactly when
    the side is outside [{buy, sell}] and the cached mid price is
    present, and returns otherwise; and when the mid price is absent
    [estimate_slippage] returns the zero result for any side, valid or
    not. *)
Theorem side_validation (rnd : Q -> Q) (self : OrderBook.t) (quantity : Q)
  (side : string) :
  reachable self ->
  let valid := side = "buy"%string \/ side = "sell"%string in
  ((exists e, estimate_vwap rnd self quantity side = Raise e) <->
   ~ valid) /\
  (~ valid ->
   exists msg, estimate_vwap rnd self quantity side = Raise (ValueError msg)) /\
  (valid -> exists r, estimate_vwap rnd self quantity side = Ok r) /\
  ((exists e, estimate_slippage rnd self quantity side = Raise e) <->
   ~ valid /\ mid_price self <> None) /\
  (~ valid -> mid_price self <> None ->
   exists msg,
     estimate_slippage rnd self quantity side = Raise (ValueError msg)) /\
  (valid -> exists r, estimate_slippage rnd self quantity side = Ok r) /\
  (mid_price self = None ->
   estimate_slippage rnd self quantity side = Ok zero_slippage).
Proof.
  intro R. cbv zeta. apply reachable_wf in R.
  pose proof (estimate_vwap_returns rnd self quantity side R) as Hv.
  pose proof (wf_mid_truthy self) as Hmid.
  rewrite <- valid_side_iff.
  assert (Hs : valid_side side = true ->
               exists r, estimate_slippage rnd self quantity side = Ok r).
  { intro Hside. rewrite Hside in Hv. destruct Hv as [r Hr].
    unfold estimate_slippage.
    destruct (negb (truthy (mid_price self))); [eauto|].
    rewrite Hr. simpl. destruct (Qeq_bool (filled r) 0); eauto. }
  assert (Hn : mid_price self = None ->
               estimate_slippage rnd self quantity side = Ok zero_slippage).
  { intro Hm. unfold estimate_slippage. now rewrite Hm. }
  assert (Hr : valid_side side <> true -> mid_price self <> None ->
               exists msg,
                 estimate_slippage rnd self quantity side
                 = Raise (ValueError msg)).
  { intros Hside Hm. apply not_true_is_false in Hside.
    rewrite Hside in Hv. destruct Hv as [msg Hr].
    unfold estimate_slippage.
    destruct (mid_price self) as [m|] eqn:Em; [|now elim Hm].
    rewrite (Hmid m R eq_refl). simpl. rewrite Hr. simpl. eauto. }
  revert Hv Hs Hr. destruct (valid_side side); intros Hv Hs Hr.
  - destruct Hv as [r Hr']. destruct (Hs eq_refl) as [r' Hr''].
    split; [split; [intros [e He]; congruence | intro N; now elim N]|].
    split; [intro N; now elim N|].
    split; [eauto|].
    split; [split; [intros [e He]; congruence | intros [N _]; now elim N]|].
    split; [intro N; now elim N|].
    split; [eauto | exact Hn].
  - destruct Hv as [msg Hr'].
    assert (N : false <> true) by discriminate.
    split; [split; [intros _; exact N | intros _; eauto]|].
    split; [eauto|].
    split; [intro F; discriminate F|].
    split.
    { split.
      - intros [e He]. split; [exact N|].
        intro Hm. rewrite (Hn Hm) in He. discriminate.
      - intros [_ Hm]. destruct (Hr N Hm) as [msg' H']. eauto. }
    split; [intros _ Hm; exact (Hr N Hm)|].
    split; [intro F; discriminate F | exact Hn].
Qed.

Lemma side_validation_witness :
  (exists r, estimate_slippage round64 example_book (3 # 2) "buy" = Ok r) /\
  (exists msg,
     estimate_slippage round64 example_book (3 # 2) "hold"
     = Raise (ValueError msg)) /\
  (exists msg,
     estimate_vwap round64 example_book (3 # 2) "hold"
     = Raise (ValueError msg)).
Proof.
  destruct (side_validation round64 example_book (3 # 2) "buy"
              example_book_reachable) as (_ & _ & _ & _ & _ & H & _).
  destruct (side_validation round64 example_book (3 # 2) "hold"
              example_book_reachable) as (_ & H1 & _ & _ & H2 & _).
  assert (N : ~ ("hold"%string = "buy"%string \/ "hold"%string = "sell"%string))
    by (intros [E|E]; discriminate E).
  split; [apply H; now left|]. split.
  - apply (H2 N). vm_compute. discriminate.
  - exact (H1 N).
Defined.

(** C4 fails as stated: on a fresh book, whose mid price is absent,
    [estimate_slippage] with the side ["hold"] returns the zero result
    instead of failing. *)
Lemma estimate_slippage_accepts_bad_side :
  ~ ("hold"%string = "buy"%string \/ "hold"%string = "sell"%string) /\
  estimate_slippage round64 (OrderBook.new "X" 1000) 1 "hold"
  = Ok zero_slippage.
Proof.
  split; [intros [E|E]; discriminate E | reflexivity].
Qed.

(** C7 (amended).  In every state of the book, for a quantity [q >= 0]
    and a side in [{buy, sell}], and however floats round,
    [estimate_vwap] returns a result [r] computed on the opposing side
    (asks for buy, bids for sell) walked from its best price: the walked
    prices are ordered from the best one outward; some number [k] of
    leading levels is taken whole, the running sum of their quantities
    staying within [q]; either the side is then exhausted and [filled r]
    is the running sum over the whole side, or the next level would
    carry the running sum beyond [q] and supplies the partial fill that
    brings [filled r] to [q]; [filled r <= q], with equality whenever the
    running sum over the whole side is at least [q]; when something is
    filled, [vwap r] is the rounded quotient of the cost of these fills
    by [filled r] and [remaining r] is the rounded [q - filled r]; and
    when nothing is filled the result is [vwap = 0], [filled = 0],
    [remaining = q]. *)
Theorem estimate_vwap_walks_opposing_side (rnd : Q -> Q)
  (self : OrderBook.t) (quantity : Q) (side : string)
  (prices : list Q) (levels : dict PriceLevel.t) :
  reachable self ->
  0 <= quantity ->
  (side = "buy"%string /\
   prices = ask_prices self /\ levels = ask_levels self) \/
  (side = "sell"%string /\
   prices = bid_prices self /\ levels = bid_levels self) ->
  exists r k,
    estimate_vwap rnd self quantity side = Ok r /\
    (side = "buy"%string -> StronglySorted (fun a b => a <= b) prices) /\
    (side = "sell"%string -> StronglySorted (fun a b => b <= a) prices) /\
    (forall j, (j <= k)%nat ->
       walked_volume rnd levels (firstn j prices) 0 <= quantity) /\
    match nth_error prices k with
    | None => filled r == walked_volume rnd levels prices 0
    | Some p =>
        quantity
        < rnd (walked_volume rnd levels (firstn k prices) 0
               + available levels p) /\
        filled r == quantity
    end /\
    filled r <= quantity /\
    (quantity <= walked_volume rnd levels prices 0 ->
     filled r == quantity) /\
    (~ filled r == 0 ->
     vwap r = rnd (walk_cost rnd levels prices k quantity / filled r) /\
     remaining r = rnd (quantity - filled r)) /\
    (filled r == 0 -> vwap r = 0 /\ filled r = 0 /\ remaining r = quantity).
Proof.
  intros R Hq Hside.
  assert (Hsorted :
    (side = "buy"%string -> StronglySorted (fun a b => a <= b) prices) /\
    (side = "sell"%string -> StronglySorted (fun a b => b <= a) prices)).
  { destruct (reachable_sorted self R) as [Sb Sa].
    destruct Hside as [(-> & -> & _)|(-> & -> & _)];
      split; intro E; try discriminate E; assumption. }
  destruct Hsorted as [Sbuy Ssell].
  apply reachable_wf in R.
  assert (Hs : side_ok prices levels).
  { destruct R as [Hb Ha _ _ _ _ _].
    destruct Hside as [(_ & -> & ->)|(_ & -> & ->)]; assumption. }
  destruct (vwap_walk_shape rnd levels quantity prices 0 0
              (side_ok_lookup _ _ Hs) Hq)
    as (c & f & k & Hw & Hle & Hf & Hm).
  rewrite (estimate_vwap_eq rnd self quantity side prices levels Hside), Hw.
  cbn [bind].
  assert (Hall : nth_error prices k = None -> firstn k prices = prices).
  { intro E. apply firstn_all2. now apply nth_error_None. }
  assert (Hfull : quantity <= walked_volume rnd levels prices 0 ->
                  f == quantity).
  { intro H. destruct (nth_error prices k) eqn:E.
    - destruct Hm as (_ & -> & _). reflexivity.
    - destruct Hm as (H1 & _). rewrite <- H1 in H. lra. }
  assert (Hc : c = walk_cost rnd levels prices k quantity).
  { unfold walk_cost. destruct (nth_error prices k).
    - now destruct Hm as (_ & _ & ->).
    - now destruct Hm as (_ & ->). }
  destruct (Qeq_bool f 0) eqn:Z.
  - apply Qeq_bool_iff in Z.
    exists (mk_vwap 0 0 quantity), k. cbn [vwap filled remaining].
    split; [reflexivity|]. split; [exact Sbuy|]. split; [exact Ssell|].
    split; [exact Hle|]. split.
    { destruct (nth_error prices k) eqn:E.
      - destruct Hm as (H1 & H2 & _). rewrite H2 in Z. split; [exact H1|].
        now symmetry.
      - destruct Hm as (H1 & _). rewrite <- H1. now symmetry. }
    split; [exact Hq|]. split; [intro H; rewrite <- (Hfull H); now symmetry|].
    split; [intro N; elim N; reflexivity|]. auto.
  - apply Qeq_bool_neq in Z.
    exists (mk_vwap (rnd (c / f)) f (rnd (quantity - f))), k.
    cbn [vwap filled remaining].
    split; [reflexivity|]. split; [exact Sbuy|]. split; [exact Ssell|].
    split; [exact Hle|]. split.
    { destruct (nth_error prices k) eqn:E.
      - destruct Hm as (H1 & H2 & _). rewrite H2. split; [exact H1|].
        reflexivity.
      - destruct Hm as (H1 & _). rewrite <- H1. reflexivity. }
    split; [exact Hf|]. split; [exact Hfull|].
    split; [intros _; rewrite Hc; split; reflexivity|].
    intro N. now elim Z.
Qed.

Lemma tenth_book_reachable : reachable tenth_book.
Proof. unfold tenth_book. repeat constructor. Qed.

Lemma estimate_vwap_walks_opposing_side_witness :
  exists r,
    estimate_vwap round64 tenth_book (1 # 4) "buy" = Ok r /\
    filled r <= 1 # 4 /\
    (~ filled r == 0 -> remaining r = round64 ((1 # 4) - filled r)).
Proof.
  destruct (estimate_vwap_walks_opposing_side round64
              tenth_book (1 # 4) "buy"
              (ask_prices tenth_book) (ask_levels tenth_book)
              tenth_book_reachable)
    as (r & k & Hr & _ & _ & _ & _ & Hle & _ & Hrem & _).
  - unfold Qle. simpl. lia.
  - left. repeat split.
  - exists r. split; [exact Hr|]. split; [exact Hle|].
    intro N. now apply Hrem.
Defined.

(** C7 fails as stated: [tenth_book] offers ten asks of the float 0.1,
    whose quantities add up to more than 1, yet a buy of 1 is reported
    filled at [1 - 2^-53] only: the sum of the ten quantities as the walk
    accumulates it falls short of 1, so every level is taken whole and
    the walk ends short of the quantity asked for. *)
Lemma estimate_vwap_short_of_liquidity :
  exists r,
    estimate_vwap round64 tenth_book 1 "buy" = Ok r /\
    1 <= volume (ask_levels tenth_book) (ask_prices tenth_book) /\
    filled r == 9007199254740991 # 9007199254740992 /\
    filled r < 1 /\
    remaining r == 1 # 9007199254740992.
Proof.
  eexists. split; [vm_compute; reflexivity|].
  repeat split; vm_compute; reflexivity || discriminate.
Qed.

(** The worked example of the specification: buying 1.5 against the asks
    [(101, 1); (102, 4)] fills 1 at 101 and 0.5 at 102. *)
Example estimate_vwap_example :
  exists r,
    estimate_vwap round64 example_book (3 # 2) "buy" = Ok r /\
    vwap r == round64 (152 / (3 # 2)) /\
    filled r == 3 # 2 /\ remaining r == 0.
Proof.
  eexists. split; [vm_compute; reflexivity|].
  repeat split; vm_compute; reflexivity.
Qed.

(** ** Depth queries on a book state *)

Lemma In_firstn {A : Type} (x : A) (n : nat) (l : list A) :
  In x (firstn n l) -> In x l.
Proof.
  revert l. induction n as [|n IH]; intros [|y l]; simpl; try tauto.
  intros [H|H]; [now left | right; now apply IH].
Qed.

Lemma In_slice_to {A : Type} (x : A) (n : Z) (l : list A) :
  In x (slice_to l n) -> In x l.
Proof. unfold slice_to. destruct (n <? 0)%Z; apply In_firstn. Qed.



(** ** [DepthAnalyzer]: the resilience score *)

Module ResilienceFacts.
Import DepthAnalyzer.

Lemma clamp_bounds (x : Q) : 0 <= Qmax 0 (Qmin 100 x) <= 100.
Proof.
  split.
  - apply Q.le_max_l.
  - apply Q.max_lub; [lra | apply Q.le_min_l].
Qed.

Lemma clamp_inside (x : Q) :
  0 <= x <= 100 -> Qmax 0 (Qmin 100 x) == x.
Proof.
  intros [H0 H1].
  rewrite Q.max_r; rewrite Q.min_r; auto; lra.
Qed.

Lemma square_shares_le (t : Q) (l : list Q) :
  0 < t ->
  Forall (fun v => 0 <= v) l ->
  Qsum l <= t ->
  0 <= Qsum (map (fun v => (v / t) ^ 2) l) /\
  Qsum (map (fun v => (v / t) ^ 2) l) <= Qsum l / t.
Proof.
  intros Ht. induction 1 as [|x l Hx Hl IH]; intro Hs.
  - simpl. rewrite Qsum_nil. split; [lra|].
    unfold Qdiv. lra.
  - cbn [map]. rewrite Qsum_cons in Hs.
    pose proof (Qsum_nonneg l Hl) as Hn.
    destruct IH as [I0 I1]; [lra|].
    rewrite !Qsum_cons.
    assert (E : (x + Qsum l) / t == x / t + Qsum l / t) by (field; lra).
    rewrite E.
    assert (Y0 : 0 <= x / t) by (apply Qle_shift_div_l; lra).
    assert (Y1 : x / t <= 1) by (apply Qle_shift_div_r; lra).
    assert (Esq : (x / t) ^ 2 == (x / t) * (x / t)) by reflexivity.
    assert (Yq : (x / t) ^ 2 <= x / t).
    { rewrite Esq. setoid_replace (x / t) with (1 * (x / t)) at 3 by lra.
      apply Qmult_le_compat_r; assumption. }
    assert (Y2 : 0 <= (x / t) ^ 2)
      by (rewrite Esq; apply Qmult_le_0_compat; lra).
    set (S := Qsum (map (fun v => (v / t) ^ 2) l)) in *.
    set (sq := (x / t) ^ 2) in *.
    set (y := x / t) in *. set (r := Qsum l / t) in *.
    clearbody S sq y r. split; lra.
Qed.

Lemma herfindahl_index_bounds (volumes : list Q) :
  Forall (fun v => 0 <= v) volumes ->
  0 <= herfindahl_index volumes <= 1.
Proof.
  intro H. unfold herfindahl_index.
  destruct (Qeq_bool (Qsum volumes) 0) eqn:E; [lra|].
  apply Qeq_bool_neq in E.
  pose proof (Qsum_nonneg volumes H) as Hn.
  assert (Ht : 0 < Qsum volumes).
  { destruct (Qlt_le_dec 0 (Qsum volumes)) as [L|L]; [exact L|].
    exfalso. apply E. lra. }
  destruct (square_shares_le (Qsum volumes) volumes Ht H) as [H0 H1];
    [lra|].
  split; [exact H0|].
  setoid_replace (Qsum volumes / Qsum volumes) with 1 in H1
    by (field; exact E).
  exact H1.
Qed.

(** What [calculate_all_metrics] reports as [depth_resilience] is the
    score of the depth it queried. *)
Lemma calculate_all_metrics_resilience (self : DepthAnalyzer.t)
  (orderbook : OrderBook.t) (metrics : DepthMetrics) :
  calculate_all_metrics self orderbook = Ok metrics ->
  exists depth,
    get_depth orderbook (depth_levels self) = Ok depth /\
    depth_resilience metrics = _calculate_resilience_score depth.
Proof.
  unfold calculate_all_metrics.
  destruct (get_depth orderbook (depth_levels self)) as [depth|e];
    simpl; [|discriminate].
  intro H. exists depth. split; [reflexivity|].
  destruct depth as [[|b bs] [|a az] tb ta]; simpl in H;
    inversion H; subst; clear H; try reflexivity.
  unfold _calculate_resilience_score. simpl. now rewrite orb_true_r.
Qed.
End ResilienceFacts.

Import ResilienceFacts.

(** C8.  The depth resilience score lies in [[0, 100]], both as
    [_calculate_resilience_score] computes it and as
    [calculate_all_metrics] reports it; it is 0 whenever a side of the
    queried depth has fewer than 3 levels; and of two depths with the
    same ask side, of at least 3 levels of non-negative quantity, the one
    with bid quantities [5, 5, 5, 5, 5] scores strictly higher than the
    one with bid quantities [20, 1, 1, 1, 1]. *)
Theorem depth_resilience_score :
  (forall depth,
     0 <= DepthAnalyzer._calculate_resilience_score depth <= 100) /\
  (forall self orderbook metrics,
     DepthAnalyzer.calculate_all_metrics self orderbook = Ok metrics ->
     0 <= DepthAnalyzer.depth_resilience metrics <= 100) /\
  (forall depth,
     (List.length (bids depth) < 3 \/ List.length (asks depth) < 3)%nat ->
     DepthAnalyzer._calculate_resilience_score depth = 0) /\
  (forall self orderbook metrics depth,
     DepthAnalyzer.calculate_all_metrics self orderbook = Ok metrics ->
     get_depth orderbook (DepthAnalyzer.depth_levels self) = Ok depth ->
     (List.length (bids depth) < 3 \/ List.length (asks depth) < 3)%nat ->
     DepthAnalyzer.depth_resilience metrics = 0) /\
  (forall uniform concentrated,
     map quantity (bids uniform) = [5; 5; 5; 5; 5] ->
     map quantity (bids concentrated) = [20; 1; 1; 1; 1] ->
     asks uniform = asks concentrated ->
     (3 <= List.length (asks uniform))%nat ->
     Forall (fun level => 0 <= quantity level) (asks uniform) ->
     DepthAnalyzer._calculate_resilience_score concentrated
     < DepthAnalyzer._calculate_resilience_score uniform).
Proof.
  assert (Zero : forall depth,
    (List.length (bids depth) < 3 \/ List.length (asks depth) < 3)%nat ->
    DepthAnalyzer._calculate_resilience_score depth = 0).
  { intros depth H. unfold DepthAnalyzer._calculate_resilience_score.
    destruct H as [H|H]; apply Nat.ltb_lt in H; rewrite H;
      [|rewrite orb_true_r]; reflexivity. }
  assert (Bound : forall depth,
    0 <= DepthAnalyzer._calculate_resilience_score depth <= 100).
  { intro depth. unfold DepthAnalyzer._calculate_resilience_score.
    destruct (_ || _); [lra | apply clamp_bounds]. }
  split; [exact Bound|]. split.
  { intros self orderbook metrics H.
    apply calculate_all_metrics_resilience in H.
    destruct H as (depth & _ & ->). apply Bound. }
  split; [exact Zero|]. split.
  { intros self orderbook metrics depth H G L.
    apply calculate_all_metrics_resilience in H.
    destruct H as (depth' & G' & ->). rewrite G in G'.
    inversion G'; subst. now apply Zero. }
  intros uniform concentrated Hu Hc Hasks Hlen Hpos.
  unfold DepthAnalyzer._calculate_resilience_score.
  rewrite <- Hasks, Hu, Hc.
  assert (Lu : List.length (bids uniform) = 5%nat)
    by (rewrite <- (length_map quantity), Hu; reflexivity).
  assert (Lc : List.length (bids concentrated) = 5%nat)
    by (rewrite <- (length_map quantity), Hc; reflexivity).
  rewrite Lu, Lc.
  assert (La : (List.length (asks uniform) <? 3)%nat = false)
    by (apply Nat.ltb_ge; exact Hlen).
  rewrite La. simpl orb. cbv iota.
  assert (Ha : Forall (fun v => 0 <= v) (map quantity (asks uniform))).
  { apply Forall_forall. intros v Hv. apply in_map_iff in Hv.
    destruct Hv as (level & <- & Hin).
    rewrite Forall_forall in Hpos. now apply Hpos. }
  pose proof (herfindahl_index_bounds _ Ha) as [A0 A1].
  set (a := DepthAnalyzer.herfindahl_index (map quantity (asks uniform))) in *.
  assert (Eu : DepthAnalyzer.herfindahl_index [5; 5; 5; 5; 5] == 1 # 5)
    by (vm_compute; reflexivity).
  assert (Ec : DepthAnalyzer.herfindahl_index [20; 1; 1; 1; 1] == 101 # 144)
    by (vm_compute; reflexivity).
  rewrite Eu, Ec. clearbody a.
  rewrite !Qhalf.
  assert (Cu : Qmax 0 (Qmin 100 (100 * (1 - ((1 # 5) + a) * (1 # 2))))
               == 100 * (1 - ((1 # 5) + a) * (1 # 2)))
    by (apply clamp_inside; split; lra).
  assert (Cc : Qmax 0 (Qmin 100 (100 * (1 - ((101 # 144) + a) * (1 # 2))))
               == 100 * (1 - ((101 # 144) + a) * (1 # 2)))
    by (apply clamp_inside; split; lra).
  rewrite Cu, Cc. lra.
Qed.

Lemma depth_resilience_score_witness :
  DepthAnalyzer._calculate_resilience_score (depth_of concentrated_book)
  < DepthAnalyzer._calculate_resilience_score (depth_of uniform_book).
Proof.
  destruct depth_resilience_score as (_ & _ & _ & _ & H).
  apply H.
  - reflexivity.
  - reflexivity.
  - reflexivity.
  - simpl. lia.
  - repeat constructor; unfold Qle; simpl; lia.
Defined.

(** ** [SpreadAnalyzer]: the wide-spread flag *)

Module SpreadFacts.
Import SpreadAnalyzer.

Section WithNumPy.
Variable np_sqrt : Q -> Q.
Variables np_mean np_std : list Q -> Q.




Lemma get_spread_bests (orderbook : OrderBook.t) (spread : Q) :
  get_spread orderbook = Some spread ->
  _best_bid orderbook <> None /\ _best_ask orderbook <> None.
Proof.
  unfold get_spread, best_bid, best_ask.
  destruct (_best_bid orderbook), (_best_ask orderbook); simpl;
    try discriminate; try (destruct (negb _); discriminate).
  intros _. split; discriminate.
Qed.

Lemma cached_keeps (prices : list Q) (old : option Q) :
  old <> None -> cached prices old <> None.
Proof. destruct prices; simpl; [auto | discriminate]. Qed.

(** A non-empty history was recorded from a book with both bests
    cached, and an update never clears a cached best. *)
Lemma watching_inv (orderbook : OrderBook.t) (self : SpreadAnalyzer.t) :
  watching np_sqrt np_mean np_std orderbook self ->
  reachable orderbook /\
  (history self <> [] ->
   _best_bid orderbook <> None /\ _best_ask orderbook <> None).
Proof.
  induction 1 as [b R | b a e W [R I] | b a e W [R I]
                  | b a m a' W [R I] C].
  - split; [exact R|]. intro H. now elim H.
  - split; [now apply reach_bids|]. intro H. destruct (I H) as [Nb Na].
    rewrite update_bids_best_bid, update_bids_best_ask.
    split; now apply cached_keeps.
  - split; [now apply reach_asks|]. intro H. destruct (I H) as [Nb Na].
    rewrite update_asks_best_bid, update_asks_best_ask.
    split; now apply cached_keeps.
  - split; [exact R|]. intro H.
    unfold calculate_all_metrics in C.
    destruct (get_spread b) as [spread|] eqn:S;
      [|inversion C; subst; now apply I].
    apply get_spread_bests in S. exact S.
Qed.
End WithNumPy.
End SpreadFacts.

Import SpreadFacts.





(** The deviation NumPy computes need not be the exact one.  Ten equal
    samples of 10.005002501250624 bps, the spread of a book quoted
    999/1000, have an exact deviation of 0; NumPy's mean of them is one
    unit in the last place above the sample, and its deviation that
    unit, [2^-49].  The sigma test therefore applies, and flags a spread
    of 20 bps. *)
Example wide_spread_flag_on_rounding_residue :
  let sample := round64 (round64 (round64 (1 / (1999 # 2)) * 100) * 100) in
  let self :=
    SpreadAnalyzer.mk
      (repeat (SpreadAnalyzer.mk_metrics 1 0 sample 0 0 0 false) 10) 1000 in
  let recent :=
    map SpreadAnalyzer.spread_bps (last_n 10 (SpreadAnalyzer.history self)) in
  let metrics := SpreadAnalyzer.mk_metrics 2 0 20 0 0 0 false in
  np_std sqrt64 recent == 0 /\
  np_mean64 recent == sample + 2 ^ (-49) /\
  np_std64 recent == 2 ^ (-49) /\
  SpreadAnalyzer._detect_wide_spread np_mean64 np_std64 self metrics = true /\
  SpreadAnalyzer._detect_wide_spread np_mean (np_std sqrt64) self metrics
  = false.
Proof.
  cbv zeta. repeat split; vm_compute; reflexivity.
Qed.

(** * Further properties *)

(** ** [PriceLevel] *)

Lemma pop_first_split (order_id : string) (orders : list Order.t) :
  match PriceLevel.pop_first order_id orders with
  | Some (found, rest) =>
      exists before after,
        orders = before ++ found :: after /\
        rest = before ++ after /\
        id_absent order_id before /\
        PriceLevel.has_id found order_id = true
  | None => id_absent order_id orders
  end.
Proof.
  induction orders as [|o orders IH]; simpl.
  - constructor.
  - destruct (PriceLevel.has_id o order_id) eqn:E.
    + exists [], orders. repeat split; [constructor | exact E].
    + destruct (PriceLevel.pop_first order_id orders) as [[found rest]|].
      * destruct IH as (before & after & -> & -> & Hb & Hf).
        exists (o :: before), after. repeat split; auto.
        now constructor.
      * now constructor.
Qed.

Lemma set_first_split (order_id : string) (q : Q) (orders : list Order.t) :
  match PriceLevel.set_first order_id q orders with
  | Some (found, orders') =>
      exists before after,
        orders = before ++ found :: after /\
        orders' =
          before
          ++ Order.mk (Order.price found) q (Order.order_id found)
                      (Order.timestamp found)
          :: after /\
        id_absent order_id before /\
        PriceLevel.has_id found order_id = true
  | None => id_absent order_id orders
  end.
Proof.
  induction orders as [|o orders IH]; simpl.
  - constructor.
  - destruct (PriceLevel.has_id o order_id) eqn:E.
    + exists [], orders. repeat split; [constructor | exact E].
    + destruct (PriceLevel.set_first order_id q orders) as [[found rest]|].
      * destruct IH as (before & after & -> & -> & Hb & Hf).
        exists (o :: before), after. repeat split; auto.
        now constructor.
      * now constructor.
Qed.

(** X2.  [remove_order] removes the first order that carries the
    identifier and nothing else, lowering the total by that order's
    quantity; when no order carries it, it returns [False] and leaves the
    level as it was. *)
Theorem remove_order_removes_first_match (level : PriceLevel.t)
  (order_id : string) :
  let (removed, level') := PriceLevel.remove_order level order_id in
  if removed
  then
    exists before found after,
      PriceLevel.orders level = before ++ found :: after /\
      PriceLevel.orders level' = before ++ after /\
      id_absent order_id before /\
      PriceLevel.has_id found order_id = true /\
      PriceLevel.price level' = PriceLevel.price level /\
      PriceLevel.total_quantity level' =
        PriceLevel.total_quantity level - Order.quantity found
  else
    level' = level /\ id_absent order_id (PriceLevel.orders level).
Proof.
  unfold PriceLevel.remove_order.
  pose proof (pop_first_split order_id (PriceLevel.orders level)) as S.
  destruct (PriceLevel.pop_first order_id (PriceLevel.orders level))
    as [[found rest]|].
  - destruct S as (before & after & E & -> & Hb & Hf).
    exists before, found, after. repeat split; assumption.
  - split; [reflexivity | exact S].
Qed.

Lemma pop_first_app_fresh (order_id : string) (orders : list Order.t)
  (order : Order.t) :
  id_absent order_id orders ->
  PriceLevel.has_id order order_id = true ->
  PriceLevel.pop_first order_id (orders ++ [order]) = Some (order, orders).
Proof.
  intros Ha Ho. induction Ha as [|o orders Hx _ IH]; simpl.
  - now rewrite Ho.
  - now rewrite Hx, IH.
Qed.

(** X3.  Adding an order under an identifier no order of the level
    carries, then removing that identifier, gives back the level's orders
    and price; the total is the old one plus, then minus, the order's
    quantity, which on floats need not be the old total. *)
Theorem add_then_remove_order (level : PriceLevel.t) (order : Order.t)
  (order_id : string) :
  id_absent order_id (PriceLevel.orders level) ->
  Order.order_id order = Some order_id ->
  exists level',
    PriceLevel.remove_order (PriceLevel.add_order level order) order_id
      = (true, level') /\
    PriceLevel.orders level' = PriceLevel.orders level /\
    PriceLevel.price level' = PriceLevel.price level /\
    PriceLevel.total_quantity level' =
      PriceLevel.total_quantity level + Order.quantity order
      - Order.quantity order.
Proof.
  intros Ha Ho.
  assert (Hid : PriceLevel.has_id order order_id = true).
  { unfold PriceLevel.has_id. rewrite Ho. apply String.eqb_refl. }
  unfold PriceLevel.remove_order, PriceLevel.add_order.
  cbn [PriceLevel.orders].
  rewrite (pop_first_app_fresh _ _ _ Ha Hid).
  eexists. split; [reflexivity|]. cbn. repeat split.
Qed.

Lemma add_then_remove_order_witness :
  exists level',
    PriceLevel.remove_order
      (PriceLevel.add_order (PriceLevel.new 100)
         (Order.mk 100 2 (Some "a"%string) None))
      "a" = (true, level') /\
    PriceLevel.orders level' = [] /\
    PriceLevel.total_quantity level' = 0 + 2 - 2.
Proof.
  destruct (add_then_remove_order (PriceLevel.new 100)
              (Order.mk 100 2 (Some "a"%string) None) "a")
    as (level' & H & Ho & _ & Ht).
  - constructor.
  - reflexivity.
  - exists level'. split; [exact H|]. split; [exact Ho | exact Ht].
Defined.

(** X4.  [update_quantity] replaces the quantity of the first order that
    carries the identifier, keeps every other order and the order of the
    list, and moves the total by the difference; when no order carries
    the identifier it returns [False] and leaves the level as it was. *)
Theorem update_quantity_sets_first_match (level : PriceLevel.t)
  (order_id : string) (new_quantity : Q) :
  let (updated, level') :=
    PriceLevel.update_quantity level order_id new_quantity in
  if updated
  then
    exists before found after,
      PriceLevel.orders level = before ++ found :: after /\
      PriceLevel.orders level' =
        before
        ++ Order.mk (Order.price found) new_quantity (Order.order_id found)
                    (Order.timestamp found)
        :: after /\
      id_absent order_id before /\
      PriceLevel.has_id found order_id = true /\
      PriceLevel.price level' = PriceLevel.price level /\
      PriceLevel.total_quantity level' =
        PriceLevel.total_quantity level
        + (new_quantity - Order.quantity found)
  else
    level' = level /\ id_absent order_id (PriceLevel.orders level).
Proof.
  unfold PriceLevel.update_quantity.
  pose proof (set_first_split order_id new_quantity
                (PriceLevel.orders level)) as S.
  destruct (PriceLevel.set_first order_id new_quantity
              (PriceLevel.orders level)) as [[found rest]|].
  - destruct S as (before & after & E & -> & Hb & Hf).
    exists before, found, after. repeat split; assumption.
  - split; [reflexivity | exact S].
Qed.

(** ** [OrderBook]: what an update keeps *)

Lemma Permutation_filter {A : Type} (f : A -> bool) (l l' : list A) :
  Permutation l l' -> Permutation (filter f l) (filter f l').
Proof.
  induction 1 as [|x l l' _ IH|x y l|l l' l'' _ IH1 _ IH2]; simpl.
  - constructor.
  - destruct (f x); [now constructor | exact IH].
  - destruct (f x), (f y); try apply Permutation_refl. apply perm_swap.
  - eapply perm_trans; eauto.
Qed.

(** X5.  An update indexes exactly the prices of the entries with a
    positive price and a positive quantity, each as often as it occurs
    among them; the other entries are dropped without a trace. *)
Theorem update_indexes_the_positive_entries (self : OrderBook.t)
  (entries : list (Q * Q)) :
  Permutation (bid_prices (update_bids self entries))
              (map fst (filter (fun e => Qltb 0 (fst e) && Qltb 0 (snd e))
                               entries)) /\
  Permutation (ask_prices (update_asks self entries))
              (map fst (filter (fun e => Qltb 0 (fst e) && Qltb 0 (snd e))
                               entries)).
Proof.
  rewrite update_bids_bid_prices, update_asks_ask_prices, !rebuild_prices.
  split; apply Permutation_map, (Permutation_filter retained),
           sorted_by_perm.
Qed.

Lemma apply_update_fields (self : OrderBook.t) (u : update) :
  symbol (apply_update self u) = symbol self /\
  max_levels (apply_update self u) = max_levels self /\
  last_update_time (apply_update self u) = last_update_time self /\
  update_count (apply_update self u) = (update_count self + 1)%Z.
Proof.
  destruct u as [entries|entries]; simpl;
    [unfold update_bids | unfold update_asks];
    destruct (rebuild _); repeat split.
Qed.

(** X6.  After any sequence of updates on a fresh book, [update_count] is
    the number of updates applied, the symbol and [max_levels] are the
    ones the book was created with, and [last_update_time] is still
    unset. *)
Theorem update_count_counts_updates (symbol0 : string) (max_levels0 : Z)
  (us : list update) :
  let book := apply_updates (OrderBook.new symbol0 max_levels0) us in
  update_count book = Z.of_nat (List.length us) /\
  symbol book = symbol0 /\
  max_levels book = max_levels0 /\
  last_update_time book = None.
Proof.
  cbv zeta. unfold apply_updates.
  assert (G : forall us self,
    update_count (fold_left apply_update us self)
      = (update_count self + Z.of_nat (List.length us))%Z /\
    symbol (fold_left apply_update us self) = symbol self /\
    max_levels (fold_left apply_update us self) = max_levels self /\
    last_update_time (fold_left apply_update us self)
      = last_update_time self).
  { clear us. induction us as [|u us IH]; intro self.
    - simpl. repeat split. lia.
    - cbn [fold_left]. destruct (IH (apply_update self u)) as (C & S & M & T).
      destruct (apply_update_fields self u) as (S' & M' & T' & C').
      rewrite C, S, M, T, S', M', T', C'. repeat split.
      rewrite length_cons. lia. }
  destruct (G us (OrderBook.new symbol0 max_levels0)) as (C & S & M & T).
  rewrite C, S, M, T. simpl. repeat split.
Qed.

(** ** [OrderBook.get_depth] *)

Lemma rebuild_side_levels (l : list (Q * Q)) :
  side_levels (fst (rebuild l)) (snd (rebuild l)).
Proof.
  intros p Hp. rewrite rebuild_prices in Hp.
  apply in_map_iff in Hp. destruct Hp as [e [<- He]].
  apply filter_In in He. destruct He as [Hin Hr].
  rewrite rebuild_levels.
  destruct (last_entry_at (fst e) l None) as [e'|] eqn:E.
  - exists e'. apply last_entry_at_spec in E.
    destruct E as [E|(_ & Hr' & Hp')]; [discriminate|].
    repeat split; assumption.
  - exfalso. revert E. apply last_entry_at_found. right.
    exists e. repeat split; auto.
Qed.

Lemma reachable_side_levels (self : OrderBook.t) :
  reachable self ->
  side_levels (bid_prices self) (bid_levels self) /\
  side_levels (ask_prices self) (ask_levels self).
Proof.
  induction 1 as [symbol max_levels | self bids R [Hb Ha]
                  | self asks R [Hb Ha]].
  - split; intros p [].
  - split.
    + rewrite update_bids_bid_prices, update_bids_bid_levels.
      apply rebuild_side_levels.
    + now rewrite update_bids_ask_prices, update_bids_ask_levels.
  - split.
    + now rewrite update_asks_bid_prices, update_asks_bid_levels.
    + rewrite update_asks_ask_prices, update_asks_ask_levels.
      apply rebuild_side_levels.
Qed.

Lemma depth_side_eq (levels : dict PriceLevel.t) :
  forall prices entries volume,
    (forall p, In p prices -> dict_get levels p <> None) ->
    depth_side levels prices entries volume =
    Ok (entries ++ map (depth_entry levels) prices,
        fold_left Qplus (map (available levels) prices) volume).
Proof.
  induction prices as [|p prices IH]; intros entries volume Hd.
  - simpl. now rewrite app_nil_r.
  - cbn [depth_side]. unfold dict_item.
    destruct (dict_get levels p) as [level|] eqn:E;
      [|exfalso; apply (Hd p); [now left | exact E]].
    cbn [bind]. rewrite IH by (intros p' Hp'; apply Hd; now right).
    cbn [map fold_left]. rewrite <- app_assoc. cbn [app].
    assert (Ea : available levels p = PriceLevel.total_quantity level)
      by (unfold available; now rewrite E).
    rewrite Ea. unfold depth_entry at 2. rewrite Ea, E. reflexivity.
Qed.

Lemma side_levels_entries (prices sub : list Q)
  (levels : dict PriceLevel.t) :
  side_levels prices levels ->
  (forall p, In p sub -> In p prices) ->
  Forall (fun l => 0 < quantity l /\ order_count l = 1%nat)
         (map (depth_entry levels) sub).
Proof.
  intros Hs Hsub. apply Forall_forall. intros l Hl.
  apply in_map_iff in Hl. destruct Hl as (p & <- & Hp).
  destruct (Hs p (Hsub p Hp)) as (e & Hr & _ & Hg).
  unfold depth_entry, available. rewrite Hg. cbn.
  apply retained_pos in Hr. split; [lra | reflexivity].
Qed.

(** X7.  On every state of the book [get_depth] returns; each side lists
    the first [levels] prices of that side's index, in index order (for a
    negative [levels], all but the last [-levels]); every listed level
    has a positive quantity and exactly one order; and each total volume
    is the sum of the listed quantities. *)
Theorem get_depth_lists_the_nearest_levels (self : OrderBook.t) (levels : Z) :
  reachable self ->
  exists d,
    get_depth self levels = Ok d /\
    map price (bids d) = slice_to (bid_prices self) levels /\
    map price (asks d) = slice_to (ask_prices self) levels /\
    ((0 <= levels)%Z ->
     List.length (bids d)
       = Nat.min (Z.to_nat levels) (List.length (bid_prices self)) /\
     List.length (asks d)
       = Nat.min (Z.to_nat levels) (List.length (ask_prices self))) /\
    ((levels < 0)%Z ->
     List.length (bids d)
       = (List.length (bid_prices self) - Z.to_nat (- levels))%nat /\
     List.length (asks d)
       = (List.length (ask_prices self) - Z.to_nat (- levels))%nat) /\
    Forall (fun l => 0 < quantity l /\ order_count l = 1%nat)
           (bids d ++ asks d) /\
    total_bid_volume d = Qsum (map quantity (bids d)) /\
    total_ask_volume d = Qsum (map quantity (asks d)).
Proof.
  intro R. destruct (reachable_side_levels self R) as [Lb La].
  apply reachable_wf in R. destruct R as [Hb Ha _ _ _ _ _].
  unfold get_depth.
  rewrite (depth_side_eq (bid_levels self))
    by (intros p Hp; apply In_slice_to in Hp; eapply side_ok_lookup; eauto).
  rewrite (depth_side_eq (ask_levels self))
    by (intros p Hp; apply In_slice_to in Hp; eapply side_ok_lookup; eauto).
  cbn [bind fst snd app]. eexists. split; [reflexivity|].
  cbn [bids asks total_bid_volume total_ask_volume].
  assert (P : forall levels0 ps,
            map price (map (depth_entry levels0) ps) = ps).
  { intros levels0 ps. rewrite map_map. apply map_id. }
  assert (Qm : forall levels0 ps,
            map quantity (map (depth_entry levels0) ps)
            = map (available levels0) ps).
  { intros levels0 ps. rewrite map_map. reflexivity. }
  rewrite !P, !Qm, !length_map.
  split; [reflexivity|]. split; [reflexivity|].
  split.
  { intro H. unfold slice_to.
    assert (E : (levels <? 0)%Z = false) by (apply Z.ltb_ge; exact H).
    rewrite E, !length_firstn. split; reflexivity. }
  split.
  { intro H. unfold slice_to.
    assert (E : (levels <? 0)%Z = true) by (apply Z.ltb_lt; exact H).
    rewrite E, !length_firstn. split; lia. }
  split.
  { apply Forall_app. split.
    - apply (side_levels_entries (bid_prices self)); [exact Lb|].
      intros p. apply In_slice_to.
    - apply (side_levels_entries (ask_prices self)); [exact La|].
      intros p. apply In_slice_to. }
  split; reflexivity.
Qed.

Lemma get_depth_lists_the_nearest_levels_witness :
  exists d,
    get_depth example_book 1 = Ok d /\
    map price (bids d) = [100] /\ map price (asks d) = [101].
Proof.
  destruct (get_depth_lists_the_nearest_levels example_book 1
              example_book_reachable) as (d & H & Hb & Ha & _).
  exists d. split; [exact H|]. split; [exact Hb | exact Ha].
Defined.

(** ** [OrderBook.estimate_vwap]: a negative quantity *)

(** Binary64 rounding keeps the sign of a non-negative number. *)
Lemma round64_nonneg (x : Q) : 0 <= x -> 0 <= round64 x.
Proof.
  intro Hx. unfold round64.
  destruct (Qeq_bool x 0) eqn:Z; [apply Qle_refl|].
  apply Qeq_bool_neq in Z.
  assert (Hpos : 0 < x).
  { destruct (Qlt_le_dec 0 x) as [P|P]; [exact P|]. exfalso. apply Z. lra. }
  assert (B : Qle_bool 0 x = true) by (apply Qle_bool_iff; lra).
  rewrite B, Qred_correct.
  set (ulp := Z.max (ilog2 (Qabs x) - 52) (-1074)).
  assert (P2 : 0 < 2 ^ ulp) by (apply Qpower_0_lt; lra).
  assert (Ha : 0 <= Qabs x / 2 ^ ulp).
  { apply Qle_shift_div_l; [exact P2|]. rewrite Qabs_pos; lra. }
  assert (Hf : (0 <= Qfloor (Qabs x / 2 ^ ulp))%Z).
  { change 0%Z with (Qfloor 0). now apply Qfloor_resp_le. }
  assert (Hn : (0 <= round_half_even (Qabs x / 2 ^ ulp))%Z).
  { unfold round_half_even.
    destruct (Qcompare _ _); [destruct (Z.even _)| |]; lia. }
  apply Qmult_le_0_compat; [|lra].
  rewrite Qmult_1_l. change 0 with (inject_Z 0). now rewrite <- Zle_Qle.
Qed.

(** X10.  A negative quantity is not rejected.  On every state of the
    book whose opposing side is populated, and for a rounding that keeps
    non-negative numbers non-negative, [estimate_vwap] stops inside the
    best level: it reports the negative quantity as filled in full, at a
    VWAP computed from the best opposing price alone, with the remainder
    [q - q]. *)
Theorem negative_quantity_fills_at_best (rnd : Q -> Q) (self : OrderBook.t)
  (quantity : Q) (side : string) (prices : list Q)
  (levels : dict PriceLevel.t) (best : Q) :
  (forall x, 0 <= x -> 0 <= rnd x) ->
  reachable self ->
  quantity < 0 ->
  (side = "buy"%string /\
   prices = ask_prices self /\ levels = ask_levels self) \/
  (side = "sell"%string /\
   prices = bid_prices self /\ levels = bid_levels self) ->
  hd_error prices = Some best ->
  exists r,
    estimate_vwap rnd self quantity side = Ok r /\
    filled r = quantity /\
    vwap r = rnd (rnd (0 + rnd (best * rnd (quantity - 0))) / quantity) /\
    remaining r = rnd (quantity - quantity).
Proof.
  intros Hrnd R Hq Hside Hbest. apply reachable_wf in R.
  assert (Hs : side_ok prices levels).
  { destruct R as [Sb Sa _ _ _ _ _].
    destruct Hside as [(_ & -> & ->)|(_ & -> & ->)]; assumption. }
  rewrite (estimate_vwap_eq rnd _ _ _ _ _ Hside).
  destruct prices as [|p rest]; [discriminate|].
  cbn in Hbest. inversion Hbest; subst p.
  destruct (Hs best (or_introl eq_refl)) as (_ & level & E & Hpos).
  cbn [vwap_walk]. unfold dict_item. rewrite E. cbn [bind].
  assert (B : Qle_bool (rnd (0 + PriceLevel.total_quantity level)) quantity
              = false).
  { apply Qle_bool_gt.
    assert (H0 : 0 <= rnd (0 + PriceLevel.total_quantity level))
      by (apply Hrnd; lra).
    lra. }
  rewrite B. cbv zeta. cbn [bind].
  assert (Z : Qeq_bool quantity 0 = false).
  { destruct (Qeq_bool quantity 0) eqn:Z; [|reflexivity].
    apply Qeq_bool_iff in Z. exfalso. lra. }
  rewrite Z. eexists. split; [reflexivity|]. cbn. repeat split.
Qed.

Lemma negative_quantity_fills_at_best_witness :
  exists r,
    estimate_vwap round64 tenth_book (-3) "buy" = Ok r /\
    filled r = -3 /\
    vwap r = round64 (round64 (0 + round64 (101 * round64 (-3 - 0))) / -3).
Proof.
  destruct (negative_quantity_fills_at_best round64 tenth_book (-3) "buy"
              (ask_prices tenth_book) (ask_levels tenth_book) 101
              round64_nonneg tenth_book_reachable)
    as (r & H & Hf & Hv & _).
  - unfold Qlt. simpl. lia.
  - left. now repeat split.
  - reflexivity.
  - exists r. repeat split; assumption.
Defined.

(** ** [SpreadAnalyzer]: history and metrics *)

(** What a call does to the analyzer: nothing on the early return,
    otherwise one sample appended and the oldest dropped beyond
    capacity. *)
Lemma spread_metrics_step (np_sqrt : Q -> Q) (np_mean np_std : list Q -> Q)
  (self : SpreadAnalyzer.t)
  (orderbook : OrderBook.t) (metrics : SpreadAnalyzer.SpreadMetrics)
  (self' : SpreadAnalyzer.t) :
  SpreadAnalyzer.calculate_all_metrics np_sqrt np_mean np_std
    self orderbook
    = Ok (metrics, self') ->
  (metrics = SpreadAnalyzer.default_metrics /\ self' = self /\
   (get_spread orderbook = None \/ mid_price orderbook = None \/
    exists m, mid_price orderbook = Some m /\ m == 0)) \/
  (exists spread mid,
     get_spread orderbook = Some spread /\
     mid_price orderbook = Some mid /\ ~ mid == 0 /\
     SpreadAnalyzer.absolute_spread metrics = spread /\
     SpreadAnalyzer.relative_spread metrics = spread / mid * 100 /\
     SpreadAnalyzer.spread_bps metrics = spread / mid * 100 * 100 /\
     SpreadAnalyzer.max_history self' = SpreadAnalyzer.max_history self /\
     SpreadAnalyzer.history self' =
       if (SpreadAnalyzer.max_history self
           <? List.length (SpreadAnalyzer.history self ++ [metrics]))%nat
       then tl (SpreadAnalyzer.history self ++ [metrics])
       else SpreadAnalyzer.history self ++ [metrics]).
Proof.
  unfold SpreadAnalyzer.calculate_all_metrics.
  destruct (get_spread orderbook) as [spread|];
    [|intro H; inversion H; left; auto].
  destruct (mid_price orderbook) as [mid|];
    [|intro H; inversion H; left; auto].
  destruct (Qeq_bool mid 0) eqn:Z.
  - intro H. inversion H. left. repeat split. right. right.
    exists mid. split; [reflexivity | now apply Qeq_bool_iff].
  - destruct (SpreadAnalyzer.calculate_price_impact np_sqrt orderbook 1)
      as [impact|e]; cbn [bind]; [|discriminate].
    intro H. inversion H; subst; clear H. right.
    exists spread, mid. apply Qeq_bool_neq in Z.
    repeat split; try reflexivity; assumption.
Qed.

Lemma watching_capacity (np_sqrt : Q -> Q) (np_mean np_std : list Q -> Q)
  (orderbook : OrderBook.t)
  (self : SpreadAnalyzer.t) :
  watching np_sqrt np_mean np_std orderbook self ->
  SpreadAnalyzer.max_history self = 1000%nat /\
  (List.length (SpreadAnalyzer.history self) <= 1000)%nat.
Proof.
  induction 1 as [b R | b a e W IH | b a e W IH | b a m a' W [Hm Hl] C].
  - split; [reflexivity | simpl; lia].
  - exact IH.
  - exact IH.
  - apply spread_metrics_step in C.
    destruct C as [(_ & -> & _)|(s & mid & _ & _ & _ & _ & _ & _ & M & H)];
      [now split|].
    split; [congruence|]. rewrite H, Hm.
    destruct (1000 <? _)%nat eqn:L.
    + destruct (SpreadAnalyzer.history a) as [|x h]; simpl.
      * lia.
      * simpl in Hl. rewrite length_app. simpl. lia.
    + apply Nat.ltb_ge in L. exact L.
Qed.

(** X11.  The history of a spread analyzer never holds more than 1000
    samples.  A call that finds no spread on the book returns the default
    metrics and records nothing; any other call appends the metrics it
    returns, dropping the oldest sample first when the history is full. *)
Theorem spread_history_bounded_fifo (np_sqrt : Q -> Q)
  (np_mean np_std : list Q -> Q)
  (orderbook : OrderBook.t) (self : SpreadAnalyzer.t)
  (metrics : SpreadAnalyzer.SpreadMetrics) (self' : SpreadAnalyzer.t) :
  watching np_sqrt np_mean np_std orderbook self ->
  SpreadAnalyzer.calculate_all_metrics np_sqrt np_mean np_std
    self orderbook
    = Ok (metrics, self') ->
  (List.length (SpreadAnalyzer.history self') <= 1000)%nat /\
  (get_spread orderbook = None ->
   metrics = SpreadAnalyzer.default_metrics /\ self' = self) /\
  (get_spread orderbook <> None ->
   SpreadAnalyzer.history self' =
     (if (List.length (SpreadAnalyzer.history self) <? 1000)%nat
      then SpreadAnalyzer.history self
      else tl (SpreadAnalyzer.history self))
     ++ [metrics]).
Proof.
  intros W C.
  destruct (watching_capacity np_sqrt np_mean np_std orderbook self'
              (watch_metrics _ _ _ _ _ _ _ W C)) as [_ Hl'].
  destruct (watching_capacity np_sqrt np_mean np_std orderbook self W)
    as [Hm Hl].
  split; [exact Hl'|].
  apply spread_metrics_step in C.
  destruct C as [(-> & -> & Hearly)|(s & mid & Hs & _ & _ & _ & _ & _ & _ & H)].
  - split; [auto|]. intro Hn.
    destruct Hearly as [E|[E|(m & E & Hz)]]; [now elim Hn | |].
    + exfalso. revert E Hn. unfold get_spread, mid_price.
      apply watching_inv in W. destruct W as [R _].
      apply reachable_wf in R. destruct R as [_ _ _ _ Pb Pa M].
      rewrite M. unfold best_bid, best_ask.
      destruct (_best_bid orderbook) as [b|]; [|intros _ Hn; now elim Hn].
      destruct (_best_ask orderbook) as [a|];
        [discriminate | intros _ Hn; apply Hn; simpl;
                        now destruct (negb _)].
    + exfalso.
      apply watching_inv in W. destruct W as [R _].
      apply reachable_wf in R. destruct R as [_ _ _ _ Pb Pa M].
      unfold mid_price in E. rewrite M in E.
      destruct (_best_bid orderbook) as [b|]; [|discriminate].
      destruct (_best_ask orderbook) as [a|]; [|discriminate].
      inversion E; subst m. specialize (Pb b eq_refl).
      specialize (Pa a eq_refl). rewrite Qhalf in Hz. lra.
  - split; [intro E; congruence|]. intros _.
    rewrite H, Hm, length_app. cbn [List.length].
    destruct (List.length (SpreadAnalyzer.history self) <? 1000)%nat eqn:L.
    + apply Nat.ltb_lt in L.
      assert (E : (1000 <? List.length (SpreadAnalyzer.history self) + 1)%nat
                  = false) by (apply Nat.ltb_ge; lia).
      now rewrite E.
    + apply Nat.ltb_ge in L.
      assert (E : (1000 <? List.length (SpreadAnalyzer.history self) + 1)%nat
                  = true) by (apply Nat.ltb_lt; lia).
      rewrite E.
      destruct (SpreadAnalyzer.history self) as [|x h];
        [simpl in L; lia | reflexivity].
Qed.

Lemma spread_history_bounded_fifo_witness :
  exists metrics self',
    SpreadAnalyzer.calculate_all_metrics sqrt64 np_mean64 np_std64
      SpreadAnalyzer.new example_book
      = Ok (metrics, self') /\
    SpreadAnalyzer.history self' = [metrics].
Proof.
  destruct (SpreadAnalyzer.calculate_all_metrics sqrt64 np_mean64 np_std64
              SpreadAnalyzer.new example_book) as [[metrics self']|e] eqn:C;
    [|vm_compute in C; discriminate C].
  destruct (spread_history_bounded_fifo sqrt64 np_mean64 np_std64
              example_book SpreadAnalyzer.new metrics self') as (_ & _ & H).
  - apply watch_new. exact example_book_reachable.
  - exact C.
  - exists metrics, self'. split; [reflexivity|].
    apply H. vm_compute. discriminate.
Defined.

Lemma get_depth_eq (self : OrderBook.t) (levels : Z) :
  wf self ->
  get_depth self levels =
  Ok (mk_depth
        (map (depth_entry (bid_levels self))
             (slice_to (bid_prices self) levels))
        (map (depth_entry (ask_levels self))
             (slice_to (ask_prices self) levels))
        (volume (bid_levels self) (slice_to (bid_prices self) levels))
        (volume (ask_levels self) (slice_to (ask_prices self) levels))).
Proof.
  intros [Hb Ha _ _ _ _ _]. unfold get_depth.
  rewrite (depth_side_eq (bid_levels self))
    by (intros p Hp; apply In_slice_to in Hp; eapply side_ok_lookup; eauto).
  rewrite (depth_side_eq (ask_levels self))
    by (intros p Hp; apply In_slice_to in Hp; eapply side_ok_lookup; eauto).
  reflexivity.
Qed.

Lemma depth_entry_quantities (levels : dict PriceLevel.t) (ps : list Q) :
  map quantity (map (depth_entry levels) ps) = map (available levels) ps.
Proof. rewrite map_map. reflexivity. Qed.

Lemma side_ok_volume (prices sub : list Q) (levels : dict PriceLevel.t) :
  side_ok prices levels ->
  (forall p, In p sub -> In p prices) ->
  0 <= volume levels sub /\ (sub <> [] -> 0 < volume levels sub).
Proof.
  intros Hs. induction sub as [|p sub IH]; intro Hsub.
  - unfold volume. simpl. rewrite Qsum_nil. split; [lra|]. intro H. now elim H.
  - destruct IH as [V _]; [intros p' Hp'; apply Hsub; now right|].
    destruct (Hs p (Hsub p (or_introl eq_refl))) as (_ & level & E & Hpos).
    rewrite volume_cons. unfold available at 1 2. rewrite E.
    split; [lra | intros _; lra].
Qed.

Lemma wf_spread_mid (self : OrderBook.t) (b a : Q) :
  wf self ->
  best_bid self = Some b -> best_ask self = Some a ->
  0 < b /\ 0 < a /\
  get_spread self = Some (a - b) /\
  mid_price self = Some ((b + a) / 2) /\
  0 < (b + a) / 2.
Proof.
  intros [_ _ _ _ Pb Pa M] Hb Ha.
  unfold best_bid, best_ask in *. unfold get_spread, mid_price, best_bid,
    best_ask. rewrite M, Hb, Ha.
  specialize (Pb b Hb). specialize (Pa a Ha).
  rewrite (truthy_pos b Pb), (truthy_pos a Pa). cbn.
  repeat split; try assumption. rewrite Qhalf. lra.
Qed.

(** X12.  For a book and a spread analyzer watching it, with best bid
    [b] and best ask [a] cached, the metrics returned have absolute
    spread [a - b] (negative on a crossed book); the relative spread is
    that spread over the mid price [(b + a) / 2], times 100, and the bps
    spread is the relative spread times 100, each as the source writes
    it; and the effective spread is zero, the cached mid price being the
    very expression it is compared with. *)
Theorem spread_metrics_values (np_sqrt : Q -> Q)
  (np_mean np_std : list Q -> Q)
  (orderbook : OrderBook.t) (self : SpreadAnalyzer.t)
  (metrics : SpreadAnalyzer.SpreadMetrics) (self' : SpreadAnalyzer.t)
  (b a : Q) :
  watching np_sqrt np_mean np_std orderbook self ->
  SpreadAnalyzer.calculate_all_metrics np_sqrt np_mean np_std
    self orderbook = Ok (metrics, self') ->
  best_bid orderbook = Some b ->
  best_ask orderbook = Some a ->
  SpreadAnalyzer.absolute_spread metrics = a - b /\
  SpreadAnalyzer.relative_spread metrics = (a - b) / ((b + a) / 2) * 100 /\
  SpreadAnalyzer.spread_bps metrics
    = SpreadAnalyzer.relative_spread metrics * 100 /\
  SpreadAnalyzer.effective_spread metrics == 0.
Proof.
  intros W C Hb Ha. apply watching_inv in W. destruct W as [R _].
  apply reachable_wf in R.
  destruct (wf_spread_mid orderbook b a R Hb Ha) as (Pb & Pa & S & M & Mp).
  revert C. unfold SpreadAnalyzer.calculate_all_metrics.
  rewrite S, M, Hb, Ha.
  assert (Z : Qeq_bool ((b + a) / 2) 0 = false).
  { destruct (Qeq_bool ((b + a) / 2) 0) eqn:Z; [|reflexivity].
    apply Qeq_bool_iff in Z. exfalso. lra. }
  rewrite Z, (truthy_pos b Pb), (truthy_pos a Pa).
  destruct (SpreadAnalyzer.calculate_price_impact np_sqrt orderbook 1)
    as [impact|e]; cbn [bind]; [|discriminate].
  intro C. inversion C; subst; clear C.
  cbn [SpreadAnalyzer.absolute_spread SpreadAnalyzer.relative_spread
       SpreadAnalyzer.spread_bps SpreadAnalyzer.effective_spread].
  split; [reflexivity|]. split; [reflexivity|]. split; [reflexivity|].
  assert (E : 2 * ((b + a) / 2 - (b + a) / 2) == 0) by ring.
  rewrite (Qabs_wd _ _ E). reflexivity.
Qed.

Lemma spread_metrics_values_witness :
  exists metrics self',
    SpreadAnalyzer.calculate_all_metrics sqrt64 np_mean64 np_std64
      SpreadAnalyzer.new example_book = Ok (metrics, self') /\
    SpreadAnalyzer.absolute_spread metrics = 101 - 100 /\
    SpreadAnalyzer.relative_spread metrics
      = (101 - 100) / ((100 + 101) / 2) * 100 /\
    SpreadAnalyzer.effective_spread metrics == 0.
Proof.
  destruct (SpreadAnalyzer.calculate_all_metrics sqrt64 np_mean64 np_std64
              SpreadAnalyzer.new example_book) as [[metrics self']|e] eqn:C;
    [|vm_compute in C; discriminate C].
  destruct (spread_metrics_values sqrt64 np_mean64 np_std64
              example_book SpreadAnalyzer.new
              metrics self' 100 101) as (H1 & H2 & _ & H4).
  - apply watch_new. exact example_book_reachable.
  - exact C.
  - reflexivity.
  - reflexivity.
  - exists metrics, self'. repeat split; assumption.
Defined.

(** X13.  On every state of the book with both sides populated,
    [calculate_price_impact] takes none of its early returns: the bid and
    the ask volume of the ten nearest levels are positive, and the
    estimate is [spread / (avg_liquidity * mid) * sqrt(quantity) * mid]
    as the source writes it, with the spread [a - b], the mid price
    [(b + a) / 2] and for [avg_liquidity] half the sum of the two
    volumes. *)
Theorem price_impact_closed_form (np_sqrt : Q -> Q)
  (orderbook : OrderBook.t) (quantity b a : Q) :
  reachable orderbook ->
  bid_prices orderbook <> [] -> ask_prices orderbook <> [] ->
  best_bid orderbook = Some b -> best_ask orderbook = Some a ->
  let bid_liquidity :=
    volume (bid_levels orderbook) (firstn 10 (bid_prices orderbook)) in
  let ask_liquidity :=
    volume (ask_levels orderbook) (firstn 10 (ask_prices orderbook)) in
  let avg_liquidity := (bid_liquidity + ask_liquidity) / 2 in
  let mid := (b + a) / 2 in
  exists impact,
    SpreadAnalyzer.calculate_price_impact np_sqrt orderbook quantity
      = Ok impact /\
    0 < bid_liquidity /\ 0 < ask_liquidity /\
    impact = (a - b) / (avg_liquidity * mid) * np_sqrt quantity * mid.
Proof.
  intros R Nb Na Hb Ha. cbv zeta. apply reachable_wf in R.
  destruct (wf_spread_mid orderbook b a R Hb Ha) as (Pb & Pa & S & M & Mp).
  pose proof R as W. destruct W as [Sb Sa _ _ _ _ _].
  destruct (side_ok_volume (bid_prices orderbook)
              (firstn 10 (bid_prices orderbook)) (bid_levels orderbook) Sb)
    as [_ Vb]; [intros p; apply In_firstn|].
  destruct (side_ok_volume (ask_prices orderbook)
              (firstn 10 (ask_prices orderbook)) (ask_levels orderbook) Sa)
    as [_ Va]; [intros p; apply In_firstn|].
  assert (Fb : firstn 10 (bid_prices orderbook) <> [])
    by (destruct (bid_prices orderbook); [now elim Nb | discriminate]).
  assert (Fa : firstn 10 (ask_prices orderbook) <> [])
    by (destruct (ask_prices orderbook); [now elim Na | discriminate]).
  specialize (Vb Fb). specialize (Va Fa).
  unfold SpreadAnalyzer.calculate_price_impact.
  rewrite M, S, (truthy_pos _ Mp).
  assert (Z : Qeq_bool ((b + a) / 2) 0 = false).
  { destruct (Qeq_bool ((b + a) / 2) 0) eqn:Z; [|reflexivity].
    apply Qeq_bool_iff in Z. exfalso. lra. }
  rewrite Z. cbn [negb orb].
  rewrite (get_depth_eq orderbook 10 R). cbn [bind bids asks].
  change (slice_to (bid_prices orderbook) 10)
    with (firstn 10 (bid_prices orderbook)).
  change (slice_to (ask_prices orderbook) 10)
    with (firstn 10 (ask_prices orderbook)).
  rewrite !depth_entry_quantities.
  fold (volume (bid_levels orderbook) (firstn 10 (bid_prices orderbook))).
  fold (volume (ask_levels orderbook) (firstn 10 (ask_prices orderbook))).
  set (vb := volume (bid_levels orderbook) (firstn 10 (bid_prices orderbook)))
    in *.
  set (va := volume (ask_levels orderbook) (firstn 10 (ask_prices orderbook)))
    in *.
  destruct (map (depth_entry (bid_levels orderbook))
              (firstn 10 (bid_prices orderbook))) as [|eb ebs] eqn:Eb.
  { apply map_eq_nil in Eb. now elim Fb. }
  destruct (map (depth_entry (ask_levels orderbook))
              (firstn 10 (ask_prices orderbook))) as [|ea eas] eqn:Ea.
  { apply map_eq_nil in Ea. now elim Fa. }
  assert (Az : Qeq_bool ((vb + va) / 2) 0 = false).
  { destruct (Qeq_bool ((vb + va) / 2) 0) eqn:Az; [|reflexivity].
    apply Qeq_bool_iff in Az. rewrite Qhalf in Az. exfalso. lra. }
  rewrite Az. eexists. split; [reflexivity|].
  split; [exact Vb|]. split; [exact Va|]. reflexivity.
Qed.

Lemma price_impact_closed_form_witness :
  exists impact,
    SpreadAnalyzer.calculate_price_impact sqrt64 example_book 1 = Ok impact /\
    impact == (101 - 100) / ((5 + 5) / 2 * ((100 + 101) / 2)) * sqrt64 1
              * ((100 + 101) / 2).
Proof.
  destruct (price_impact_closed_form sqrt64 example_book 1 100 101
              example_book_reachable) as (impact & H & _ & _ & E).
  - vm_compute. discriminate.
  - vm_compute. discriminate.
  - reflexivity.
  - reflexivity.
  - exists impact. split; [exact H|]. rewrite E. vm_compute. reflexivity.
Defined.

(** ** [DepthAnalyzer]: ranges, defaults, the depth curve *)

Lemma sorted_between_ends (R : Q -> Q -> Prop) (l : list Q) :
  (forall x, R x x) ->
  (forall x y z, R x y -> R y z -> R x z) ->
  StronglySorted R l ->
  forall p, In p l -> R (hd 0 l) p /\ R p (last l 0).
Proof.
  intros Rrefl Rtrans. induction 1 as [|x l Hs IH Hall]; intros p Hp.
  - destruct Hp.
  - rewrite Forall_forall in Hall. cbn [hd].
    assert (Hlast : R x (last (x :: l) 0)).
    { destruct l as [|y l']; [apply Rrefl|].
      change (last (x :: y :: l') 0) with (last (y :: l') 0).
      destruct (IH y (or_introl eq_refl)) as [_ H2].
      eapply Rtrans; [apply Hall; now left | exact H2]. }
    destruct Hp as [<-|Hp].
    + split; [apply Rrefl | exact Hlast].
    + split; [now apply Hall|].
      destruct l as [|y l']; [destruct Hp|].
      change (last (x :: y :: l') 0) with (last (y :: l') 0).
      now apply IH.
Qed.

Lemma imbalance_range (vb va : Q) :
  0 <= vb -> 0 <= va ->
  -1 <= (if Qltb 0 (vb + va) then (vb - va) / (vb + va) else 0) <= 1.
Proof.
  intros Hb Ha. destruct (Qltb 0 (vb + va)) eqn:T; [|split; lra].
  apply Qltb_lt in T. split.
  - apply Qle_shift_div_l; [exact T | lra].
  - apply Qle_shift_div_r; [exact T | lra].
Qed.

Lemma slice_to_firstn {A : Type} (l : list A) (n : Z) :
  exists k, slice_to l n = firstn k l.
Proof. unfold slice_to. destruct (n <? 0)%Z; eauto. Qed.

Lemma StronglySorted_firstn {A : Type} (R : A -> A -> Prop) (k : nat)
  (l : list A) :
  StronglySorted R l -> StronglySorted R (firstn k l).
Proof.
  intro H. revert k. induction H as [|x l Hs IH Hall]; intros [|k]; simpl;
    try constructor.
  - apply IH.
  - apply Forall_forall. intros y Hy. apply In_firstn in Hy.
    rewrite Forall_forall in Hall. now apply Hall.
Qed.

Lemma Qlen_nonneg {A : Type} (l : list A) : 0 <= Qlen l.
Proof.
  unfold Qlen. change 0 with (inject_Z 0). rewrite <- Zle_Qle. lia.
Qed.

Lemma Qlen_pos {A : Type} (l : list A) : l <> [] -> 0 < Qlen l.
Proof.
  intro H. unfold Qlen. change 0 with (inject_Z 0). rewrite <- Zlt_Qlt.
  destruct l; [now elim H | simpl; lia].
Qed.

Lemma np_mean_nonneg (l : list Q) :
  Forall (fun x => 0 <= x) l -> 0 <= np_mean l.
Proof.
  intro H. unfold np_mean. destruct l as [|x l].
  - apply Qle_bool_iff. reflexivity.
  - apply Qle_shift_div_l.
    + apply Qlen_pos. discriminate.
    + pose proof (Qsum_nonneg _ H). lra.
Qed.

Lemma last_nonempty_In {A : Type} (l : list A) (d : A) :
  l <> [] -> In (last l d) l.
Proof.
  induction l as [|x l IH]; intro H; [now elim H|].
  destruct l as [|y l']; [now left|].
  right. apply IH. discriminate.
Qed.

Lemma map_price_entries (levels : dict PriceLevel.t) (ps : list Q) :
  map price (map (depth_entry levels) ps) = ps.
Proof. rewrite map_map. apply map_id. Qed.

Lemma book_slope_nonneg (bid_levels0 ask_levels0 : dict PriceLevel.t)
  (bs az : list Q) (vb va : Q) :
  StronglySorted (fun x y => y <= x) bs ->
  StronglySorted (fun x y => x <= y) az ->
  0 <= DepthAnalyzer._calculate_book_slope
         (mk_depth (map (depth_entry bid_levels0) bs)
                   (map (depth_entry ask_levels0) az) vb va).
Proof.
  intros Sb Sa. unfold DepthAnalyzer._calculate_book_slope.
  cbn [bids asks]. rewrite !map_price_entries.
  destruct (map (depth_entry bid_levels0) bs) as [|eb ebs] eqn:Eb; [lra|].
  destruct (map (depth_entry ask_levels0) az) as [|ea eas] eqn:Ea; [lra|].
  rewrite <- Eb, <- Ea.
  assert (Rb : 0 <= hd 0 bs - last bs 0).
  { destruct bs as [|b bs']; [discriminate|].
    destruct (sorted_between_ends (fun x y => y <= x) (b :: bs')
                Qle_refl (fun x y z H1 H2 => Qle_trans _ _ _ H2 H1) Sb
                (last (b :: bs') 0)) as [H _].
    - apply last_nonempty_In. discriminate.
    - cbn [hd] in *. lra. }
  assert (Ra : 0 <= last az 0 - hd 0 az).
  { destruct az as [|a az']; [discriminate|].
    destruct (sorted_between_ends Qle (a :: az') Qle_refl Qle_trans Sa
                (last (a :: az') 0)) as [H _].
    - apply last_nonempty_In. discriminate.
    - cbn [hd] in *. lra. }
  set (sb := if (1 <? List.length bs)%nat
             then
               if Qltb 0 (Qsum (map quantity (map (depth_entry bid_levels0) bs)))
               then [] ++ [(hd 0 bs - last bs 0)
                            / Qsum (map quantity
                                      (map (depth_entry bid_levels0) bs))]
               else []
             else []).
  assert (Fb : Forall (fun x => 0 <= x) sb).
  { unfold sb. destruct (1 <? _)%nat; [|constructor].
    destruct (Qltb 0 _) eqn:T; [|constructor].
    apply Qltb_lt in T. constructor; [|constructor].
    apply Qle_shift_div_l; [exact T | lra]. }
  clearbody sb.
  set (sa := if (1 <? List.length az)%nat
             then
               if Qltb 0 (Qsum (map quantity (map (depth_entry ask_levels0) az)))
               then sb ++ [(last az 0 - hd 0 az)
                            / Qsum (map quantity
                                      (map (depth_entry ask_levels0) az))]
               else sb
             else sb).
  assert (Fa : Forall (fun x => 0 <= x) sa).
  { unfold sa. destruct (1 <? _)%nat; [|exact Fb].
    destruct (Qltb 0 _) eqn:T; [|exact Fb].
    apply Qltb_lt in T. apply Forall_app. split; [exact Fb|].
    constructor; [|constructor].
    apply Qle_shift_div_l; [exact T | lra]. }
  clearbody sa.
  change (0 <= match sa with [] => 0 | _ :: _ => np_mean sa end).
  destruct sa as [|s sa']; [lra|].
  now apply np_mean_nonneg.
Qed.

Lemma wf_slice_volume (self : OrderBook.t) (levels : Z) :
  wf self ->
  0 <= volume (bid_levels self) (slice_to (bid_prices self) levels) /\
  0 <= volume (ask_levels self) (slice_to (ask_prices self) levels).
Proof.
  intros [Sb Sa _ _ _ _ _]. split.
  - apply (side_ok_volume (bid_prices self)); [exact Sb|].
    intro p. apply In_slice_to.
  - apply (side_ok_volume (ask_prices self)); [exact Sa|].
    intro p. apply In_slice_to.
Qed.

(** X14.  On every state of the book the depth metrics stay in range:
    both total volumes are non-negative, the volume imbalance lies in
    [[-1, 1]], the liquidity score in [[0, 100]], and the order-book
    slope is non-negative; and [calculate_all_metrics] does not fail. *)
Theorem depth_metrics_ranges (self : DepthAnalyzer.t)
  (orderbook : OrderBook.t) :
  reachable orderbook ->
  exists metrics,
    DepthAnalyzer.calculate_all_metrics self orderbook = Ok metrics /\
    0 <= DepthAnalyzer.total_bid_volume metrics /\
    0 <= DepthAnalyzer.total_ask_volume metrics /\
    -1 <= DepthAnalyzer.volume_imbalance metrics <= 1 /\
    0 <= DepthAnalyzer.liquidity_score metrics <= 100 /\
    0 <= DepthAnalyzer.order_book_slope metrics.
Proof.
  intro R. destruct (reachable_sorted orderbook R) as [Sb Sa].
  apply reachable_wf in R.
  destruct (wf_slice_volume orderbook (DepthAnalyzer.depth_levels self) R)
    as [Vb Va].
  pose proof (book_slope_nonneg (bid_levels orderbook) (ask_levels orderbook)
                (slice_to (bid_prices orderbook)
                          (DepthAnalyzer.depth_levels self))
                (slice_to (ask_prices orderbook)
                          (DepthAnalyzer.depth_levels self))
                (volume (bid_levels orderbook)
                   (slice_to (bid_prices orderbook)
                             (DepthAnalyzer.depth_levels self)))
                (volume (ask_levels orderbook)
                   (slice_to (ask_prices orderbook)
                             (DepthAnalyzer.depth_levels self)))) as Slope.
  destruct (slice_to_firstn (bid_prices orderbook)
              (DepthAnalyzer.depth_levels self)) as [kb Ekb].
  destruct (slice_to_firstn (ask_prices orderbook)
              (DepthAnalyzer.depth_levels self)) as [ka Eka].
  unfold DepthAnalyzer.calculate_all_metrics.
  rewrite (get_depth_eq orderbook _ R). cbn [bind].
  set (d := mk_depth _ _ _ _) in *.
  assert (Hs : 0 <= DepthAnalyzer._calculate_book_slope d).
  { apply Slope.
    - rewrite Ekb. now apply StronglySorted_firstn.
    - rewrite Eka. now apply StronglySorted_firstn. }
  destruct (bids d) as [|eb ebs]; [|destruct (asks d) as [|ea eas]].
  - eexists. split; [reflexivity|]. cbn.
    repeat split; try lra; apply Qle_bool_iff; reflexivity.
  - eexists. split; [reflexivity|]. cbn.
    repeat split; try lra; apply Qle_bool_iff; reflexivity.
  - eexists. split; [reflexivity|].
    cbn [DepthAnalyzer.total_bid_volume DepthAnalyzer.total_ask_volume
         DepthAnalyzer.volume_imbalance DepthAnalyzer.liquidity_score
         DepthAnalyzer.order_book_slope].
    unfold d at 1 2 3 4 5 6. cbn [total_bid_volume total_ask_volume].
    split; [exact Vb|]. split; [exact Va|].
    split; [apply imbalance_range; assumption|].
    split; [|exact Hs].
    unfold DepthAnalyzer._calculate_liquidity_score. apply clamp_bounds.
Qed.

Lemma depth_metrics_ranges_witness :
  exists metrics,
    DepthAnalyzer.calculate_all_metrics (DepthAnalyzer.mk 20) example_book
      = Ok metrics /\
    -1 <= DepthAnalyzer.volume_imbalance metrics <= 1.
Proof.
  destruct (depth_metrics_ranges (DepthAnalyzer.mk 20) example_book
              example_book_reachable) as (m & H & _ & _ & Hi & _).
  exists m. split; assumption.
Defined.

(** X15.  On every state of the book, when the bid side or the ask side
    is empty, or no level is asked for, [calculate_all_metrics] returns
    the default metrics: every number is 0, also the total volume of a
    side that does hold orders, and the two curves are absent. *)
Theorem one_sided_book_gives_default_metrics (self : DepthAnalyzer.t)
  (orderbook : OrderBook.t) :
  reachable orderbook ->
  bid_prices orderbook = [] \/ ask_prices orderbook = [] \/
  DepthAnalyzer.depth_levels self = 0%Z ->
  DepthAnalyzer.calculate_all_metrics self orderbook
    = Ok DepthAnalyzer.default_metrics.
Proof.
  intros R H. apply reachable_wf in R.
  unfold DepthAnalyzer.calculate_all_metrics.
  rewrite (get_depth_eq orderbook _ R). cbn [bind bids asks].
  assert (E : slice_to (bid_prices orderbook)
                       (DepthAnalyzer.depth_levels self) = [] \/
              slice_to (ask_prices orderbook)
                       (DepthAnalyzer.depth_levels self) = []).
  { unfold slice_to. destruct H as [-> | [-> | ->]].
    - left. destruct (_ <? 0)%Z; apply firstn_nil.
    - right. destruct (_ <? 0)%Z; apply firstn_nil.
    - left. reflexivity. }
  destruct E as [-> | ->]; cbn [map]; [reflexivity|].
  now destruct (map _ _).
Qed.

Lemma one_sided_book_gives_default_metrics_witness :
  DepthAnalyzer.calculate_all_metrics (DepthAnalyzer.mk 20)
    (update_bids (OrderBook.new "X" 1000) [(100, 2)])
  = Ok DepthAnalyzer.default_metrics.
Proof.
  apply one_sided_book_gives_default_metrics.
  - apply reach_bids, reach_new.
  - right. left. reflexivity.
Defined.

Lemma cumulative_side_length (mid : Q) (levels : list depth_level) :
  forall volume0,
    List.length (DepthAnalyzer.cumulative_side mid levels volume0)
    = List.length levels.
Proof.
  induction levels as [|l levels IH]; intro v; simpl; [reflexivity|].
  now rewrite IH.
Qed.

(** X16.  On every state of the book with both sides populated and at
    least one level asked for, the metrics carry a cumulative depth curve
    with one point per listed bid and ask level, ordered by ascending
    offset from the mid price, and a VWAP for each of the six depth
    percentages 0.1, 0.25, 0.5, 1, 2 and 5, in that order. *)
Theorem depth_curves_shape (self : DepthAnalyzer.t)
  (orderbook : OrderBook.t) :
  reachable orderbook ->
  bid_prices orderbook <> [] -> ask_prices orderbook <> [] ->
  (0 < DepthAnalyzer.depth_levels self)%Z ->
  exists metrics curve vwaps,
    DepthAnalyzer.calculate_all_metrics self orderbook = Ok metrics /\
    DepthAnalyzer.cumulative_depth_bps metrics = Some curve /\
    StronglySorted (fun x y => fst x <= fst y) curve /\
    List.length curve =
      (Nat.min (Z.to_nat (DepthAnalyzer.depth_levels self))
               (List.length (bid_prices orderbook))
       + Nat.min (Z.to_nat (DepthAnalyzer.depth_levels self))
                 (List.length (ask_prices orderbook)))%nat /\
    DepthAnalyzer.vwap_at_depth metrics = Some vwaps /\
    map fst vwaps = [1 # 10; 1 # 4; 1 # 2; 1; 2; 5].
Proof.
  intros R Nb Na Hl. apply reachable_wf in R.
  assert (Hb : exists b, best_bid orderbook = Some b).
  { destruct R as [_ _ Cb _ _ _ _]. unfold best_bid.
    destruct (bid_prices orderbook) as [|b bs]; [now elim Nb|].
    exists b. now rewrite <- Cb. }
  assert (Ha : exists a, best_ask orderbook = Some a).
  { destruct R as [_ _ _ Ca _ _ _]. unfold best_ask.
    destruct (ask_prices orderbook) as [|a az]; [now elim Na|].
    exists a. now rewrite <- Ca. }
  destruct Hb as [b Hb]. destruct Ha as [a Ha].
  destruct (wf_spread_mid orderbook b a R Hb Ha) as (_ & _ & _ & M & Mp).
  assert (Z : Qeq_bool ((b + a) / 2) 0 = false).
  { destruct (Qeq_bool ((b + a) / 2) 0) eqn:Z; [|reflexivity].
    apply Qeq_bool_iff in Z. exfalso. lra. }
  unfold DepthAnalyzer.calculate_all_metrics.
  rewrite (get_depth_eq orderbook _ R). cbn [bind bids asks].
  assert (E : forall l : list Q,
            slice_to l (DepthAnalyzer.depth_levels self)
            = firstn (Z.to_nat (DepthAnalyzer.depth_levels self)) l).
  { intro l. unfold slice_to.
    assert (F : (DepthAnalyzer.depth_levels self <? 0)%Z = false)
      by (apply Z.ltb_ge; lia).
    now rewrite F. }
  rewrite !E.
  set (n := Z.to_nat (DepthAnalyzer.depth_levels self)).
  assert (Hn : (0 < n)%nat) by (unfold n; lia).
  destruct (map (depth_entry (bid_levels orderbook))
              (firstn n (bid_prices orderbook))) as [|eb ebs] eqn:Eb.
  { apply map_eq_nil in Eb. destruct n; [lia|].
    destruct (bid_prices orderbook); [now elim Nb | discriminate]. }
  destruct (map (depth_entry (ask_levels orderbook))
              (firstn n (ask_prices orderbook))) as [|ea eas] eqn:Ea.
  { apply map_eq_nil in Ea. destruct n; [lia|].
    destruct (ask_prices orderbook); [now elim Na | discriminate]. }
  eexists _, _, _. split; [reflexivity|].
  cbn [DepthAnalyzer.cumulative_depth_bps DepthAnalyzer.vwap_at_depth].
  split; [reflexivity|].
  unfold DepthAnalyzer._calculate_cumulative_depth. rewrite M, Z.
  cbn [bids asks].
  split; [apply sorted_asc_sorted|]. split.
  - unfold sorted_asc.
    rewrite (Permutation_length (sorted_by_perm ascending _)).
    rewrite length_app, !cumulative_side_length, <- Eb, <- Ea.
    rewrite !length_map, !length_firstn. reflexivity.
  - split; [reflexivity|]. reflexivity.
Qed.

Lemma depth_curves_shape_witness :
  exists metrics curve,
    DepthAnalyzer.calculate_all_metrics (DepthAnalyzer.mk 20) example_book
      = Ok metrics /\
    DepthAnalyzer.cumulative_depth_bps metrics = Some curve /\
    List.length curve = 4%nat.
Proof.
  destruct (depth_curves_shape (DepthAnalyzer.mk 20) example_book
              example_book_reachable)
    as (m & curve & vwaps & H & Hc & _ & Hl & _).
  - vm_compute. discriminate.
  - vm_compute. discriminate.
  - reflexivity.
  - exists m, curve. repeat split; assumption.
Defined.

Lemma int_dict_set_keys (d : list (Z * Q)) (k : Z) (v : Q) :
  forall k', In k' (map fst (DepthAnalyzer.int_dict_set d k v)) <->
             k' = k \/ In k' (map fst d).
Proof.
  induction d as [|[k1 v1] d IH]; intro k'; simpl.
  - intuition congruence.
  - destruct (k1 =? k)%Z eqn:E; simpl.
    + apply Z.eqb_eq in E. subst k1. intuition congruence.
    + rewrite IH. intuition congruence.
Qed.

Lemma int_dict_set_NoDup (d : list (Z * Q)) (k : Z) (v : Q) :
  NoDup (map fst d) ->
  NoDup (map fst (DepthAnalyzer.int_dict_set d k v)).
Proof.
  induction d as [|[k1 v1] d IH]; intro H; simpl.
  - constructor; [intros [] | constructor].
  - inversion H as [|? ? Hnot Hd]; subst.
    destruct (k1 =? k)%Z eqn:E; simpl.
    + now constructor.
    + constructor; [|now apply IH].
      rewrite int_dict_set_keys. intros [->|Hin]; [|contradiction].
      apply Z.eqb_neq in E. now elim E.
Qed.

Lemma int_dict_set_Forall (P : Z * Q -> Prop) (d : list (Z * Q))
  (k : Z) (v : Q) :
  Forall P d -> P (k, v) ->
  Forall P (DepthAnalyzer.int_dict_set d k v).
Proof.
  intros Hd Hkv. induction Hd as [|[k1 v1] d H1 Hd IH]; simpl.
  - constructor; [exact Hkv | constructor].
  - destruct (k1 =? k)%Z eqn:E.
    + apply Z.eqb_eq in E. subst k1. now constructor.
    + now constructor.
Qed.

(** X17.  On every state of the book,
    [calculate_volume_imbalance_at_levels] does not fail; its result has
    exactly one entry per distinct requested level count, each holding
    the volume imbalance of that many nearest levels, in [[-1, 1]]. *)
Theorem imbalance_at_each_level (self : DepthAnalyzer.t)
  (orderbook : OrderBook.t) (levels : list Z) :
  reachable orderbook ->
  exists imbalances,
    DepthAnalyzer.calculate_volume_imbalance_at_levels self orderbook levels
      = Ok imbalances /\
    NoDup (map fst imbalances) /\
    (forall k, In k (map fst imbalances) <-> In k levels) /\
    Forall (fun kv => snd kv = imbalance_at orderbook (fst kv) /\
                      -1 <= snd kv <= 1) imbalances.
Proof.
  intro R. apply reachable_wf in R.
  unfold DepthAnalyzer.calculate_volume_imbalance_at_levels.
  set (P := fun kv : Z * Q =>
              snd kv = imbalance_at orderbook (fst kv) /\ -1 <= snd kv <= 1).
  assert (G : forall levels acc,
    NoDup (map fst acc) -> Forall P acc ->
    exists imbalances,
      DepthAnalyzer.imbalances_loop orderbook levels acc = Ok imbalances /\
      NoDup (map fst imbalances) /\
      (forall k, In k (map fst imbalances) <->
                 In k levels \/ In k (map fst acc)) /\
      Forall P imbalances).
  { clear levels. induction levels as [|k levels IH]; intros acc Hn Hp.
    - exists acc. simpl. repeat split; try assumption; intuition.
    - cbn [DepthAnalyzer.imbalances_loop].
      rewrite (get_depth_eq orderbook k R). cbn [bind].
      cbn [total_bid_volume total_ask_volume].
      destruct (wf_slice_volume orderbook k R) as [Vb Va].
      fold (imbalance_at orderbook k).
      destruct (IH (DepthAnalyzer.int_dict_set acc k
                      (imbalance_at orderbook k)))
        as (res & Hr & Hn' & Hk & Hp').
      + now apply int_dict_set_NoDup.
      + apply int_dict_set_Forall; [exact Hp|].
        unfold P. cbn [fst snd]. split; [reflexivity|].
        unfold imbalance_at. now apply imbalance_range.
      + exists res. split; [exact Hr|]. split; [exact Hn'|].
        split; [|exact Hp'].
        intro k'. rewrite Hk, int_dict_set_keys. simpl.
        intuition congruence. }
  destruct (G levels []) as (res & Hr & Hn & Hk & Hp);
    [constructor | constructor |].
  exists res. split; [exact Hr|]. split; [exact Hn|].
  split; [|exact Hp]. intro k. rewrite Hk. simpl. intuition.
Qed.

Lemma imbalance_at_each_level_witness :
  exists imbalances,
    DepthAnalyzer.calculate_volume_imbalance_at_levels (DepthAnalyzer.mk 20)
      example_book [1%Z; 2%Z; 1%Z] = Ok imbalances /\
    NoDup (map fst imbalances).
Proof.
  destruct (imbalance_at_each_level (DepthAnalyzer.mk 20) example_book
              [1%Z; 2%Z; 1%Z] example_book_reachable)
    as (res & H & Hn & _).
  exists res. split; assumption.
Defined.

(** ** [LiquidityAnalyzer] *)

(** X18.  [update_history] appends the sample to both series and, once a
    series holds [max_history] samples, drops its oldest one first; a
    series within capacity stays within capacity. *)
Theorem update_history_bounded_fifo (self : LiquidityAnalyzer.t)
  (price volume0 : Q) :
  (0 < LiquidityAnalyzer.max_history self)%nat ->
  let self' := LiquidityAnalyzer.update_history self price volume0 in
  let cap := LiquidityAnalyzer.max_history self in
  LiquidityAnalyzer.max_history self' = cap /\
  LiquidityAnalyzer.price_history self' =
    (if (List.length (LiquidityAnalyzer.price_history self) <? cap)%nat
     then LiquidityAnalyzer.price_history self
     else tl (LiquidityAnalyzer.price_history self)) ++ [price] /\
  LiquidityAnalyzer.volume_history self' =
    (if (List.length (LiquidityAnalyzer.volume_history self) <? cap)%nat
     then LiquidityAnalyzer.volume_history self
     else tl (LiquidityAnalyzer.volume_history self)) ++ [volume0] /\
  ((List.length (LiquidityAnalyzer.price_history self) <= cap)%nat ->
   (List.length (LiquidityAnalyzer.price_history self') <= cap)%nat) /\
  ((List.length (LiquidityAnalyzer.volume_history self) <= cap)%nat ->
   (List.length (LiquidityAnalyzer.volume_history self') <= cap)%nat).
Proof.
  intro Hcap. cbv zeta.
  assert (G : forall (l : list Q) (x : Q),
    (if (LiquidityAnalyzer.max_history self <? List.length (l ++ [x]))%nat
     then tl (l ++ [x]) else l ++ [x])
    = (if (List.length l <? LiquidityAnalyzer.max_history self)%nat
       then l else tl l) ++ [x]).
  { intros l x. rewrite length_app. cbn [List.length].
    destruct (List.length l <? LiquidityAnalyzer.max_history self)%nat eqn:L.
    - apply Nat.ltb_lt in L.
      assert (E : (LiquidityAnalyzer.max_history self
                   <? List.length l + 1)%nat = false)
        by (apply Nat.ltb_ge; lia).
      now rewrite E.
    - apply Nat.ltb_ge in L.
      assert (E : (LiquidityAnalyzer.max_history self
                   <? List.length l + 1)%nat = true)
        by (apply Nat.ltb_lt; lia).
      rewrite E. destruct l; [simpl in L; lia | reflexivity]. }
  unfold LiquidityAnalyzer.update_history.
  cbn [LiquidityAnalyzer.max_history LiquidityAnalyzer.price_history
       LiquidityAnalyzer.volume_history].
  rewrite !G. split; [reflexivity|]. split; [reflexivity|].
  split; [reflexivity|].
  assert (B : forall (l : list Q) (x : Q),
    (List.length l <= LiquidityAnalyzer.max_history self)%nat ->
    (List.length
       ((if (List.length l <? LiquidityAnalyzer.max_history self)%nat
         then l else tl l) ++ [x])
     <= LiquidityAnalyzer.max_history self)%nat).
  { intros l x Hl. rewrite length_app. cbn [List.length].
    destruct (List.length l <? LiquidityAnalyzer.max_history self)%nat eqn:L.
    - apply Nat.ltb_lt in L. lia.
    - destruct l; simpl in *; lia. }
  split; apply B.
Qed.

Lemma update_history_bounded_fifo_witness :
  LiquidityAnalyzer.price_history
    (LiquidityAnalyzer.update_history
       (LiquidityAnalyzer.new (Some [1; 2]) None) 3 7)
  = [1; 2; 3].
Proof.
  destruct (update_history_bounded_fifo
              (LiquidityAnalyzer.new (Some [1; 2]) None) 3 7)
    as (_ & H & _).
  - simpl. lia.
  - exact H.
Defined.

(** X19.  On every state of the book the liquidity coverage ratio is
    returned and is never negative: it is 0 for a stress volume that is
    not positive, and otherwise the bid plus ask volume of the twenty
    nearest levels over the stress volume. *)
Theorem lcr_is_volume_over_stress (self : LiquidityAnalyzer.t)
  (orderbook : OrderBook.t) (stress_volume : Q) :
  reachable orderbook ->
  let vb := volume (bid_levels orderbook)
                   (firstn 20 (bid_prices orderbook)) in
  let va := volume (ask_levels orderbook)
                   (firstn 20 (ask_prices orderbook)) in
  exists lcr,
    LiquidityAnalyzer.calculate_lcr self orderbook stress_volume = Ok lcr /\
    0 <= lcr /\
    (stress_volume <= 0 -> lcr = 0) /\
    (0 < stress_volume -> lcr = (vb + va) / stress_volume).
Proof.
  intro R. cbv zeta. apply reachable_wf in R.
  destruct (wf_slice_volume orderbook 20 R) as [Vb Va].
  unfold LiquidityAnalyzer.calculate_lcr.
  rewrite (get_depth_eq orderbook 20 R). cbn [bind].
  cbn [total_bid_volume total_ask_volume].
  change (slice_to (bid_prices orderbook) 20)
    with (firstn 20 (bid_prices orderbook)) in *.
  change (slice_to (ask_prices orderbook) 20)
    with (firstn 20 (ask_prices orderbook)) in *.
  destruct (Qle_bool stress_volume 0) eqn:S.
  - apply Qle_bool_iff in S. eexists. split; [reflexivity|].
    split; [lra|]. split; [reflexivity|]. intro H. exfalso. lra.
  - apply Qle_bool_gt in S. eexists. split; [reflexivity|].
    split; [apply Qle_shift_div_l; [exact S | lra]|].
    split; [intro H; exfalso; lra | reflexivity].
Qed.

Lemma lcr_is_volume_over_stress_witness :
  exists lcr,
    LiquidityAnalyzer.calculate_lcr (LiquidityAnalyzer.new None None)
      example_book 10000 = Ok lcr /\
    0 <= lcr.
Proof.
  destruct (lcr_is_volume_over_stress (LiquidityAnalyzer.new None None)
              example_book 10000 example_book_reachable)
    as (lcr & H & Hp & _).
  exists lcr. split; assumption.
Defined.

Lemma unit_clamp_bounds (x : Q) : 0 <= Qmax 0 (Qmin 1 x) <= 1.
Proof.
  split.
  - apply Q.le_max_l.
  - apply Q.max_lub; [lra | apply Q.le_min_l].
Qed.

Lemma price_efficiency_range (self : LiquidityAnalyzer.t) :
  0 <= LiquidityAnalyzer.calculate_price_efficiency self <= 1.
Proof.
  unfold LiquidityAnalyzer.calculate_price_efficiency.
  repeat match goal with
         | |- context [if ?c then _ else _] => destruct c
         end;
    try (split; lra); apply unit_clamp_bounds.
Qed.

Lemma composite_score_range (np_exp : Q -> Q)
  (metrics : LiquidityAnalyzer.LiquidityMetrics) :
  0 <= LiquidityAnalyzer.calculate_composite_score np_exp metrics <= 100.
Proof.
  unfold LiquidityAnalyzer.calculate_composite_score.
  destruct (Qltb 0 (LiquidityAnalyzer.kyle_lambda metrics));
    [|destruct (Qeq_bool (LiquidityAnalyzer.kyle_lambda metrics) 0)];
    (destruct (Qltb 0 (LiquidityAnalyzer.amihud_ratio metrics));
     [|destruct (Qeq_bool (LiquidityAnalyzer.amihud_ratio metrics) 0)]);
    cbn [app];
    match goal with
    | |- context [if ?c then _ else _] => destruct c
    end;
    try (split; lra); apply clamp_bounds.
Qed.

Lemma liquidity_resilience_returns (np_sqrt : Q -> Q)
  (self : LiquidityAnalyzer.t) (orderbook : OrderBook.t) :
  wf orderbook ->
  exists score,
    LiquidityAnalyzer.calculate_resilience_score np_sqrt self orderbook
      = Ok score.
Proof.
  intro W. unfold LiquidityAnalyzer.calculate_resilience_score.
  rewrite (get_depth_eq orderbook 10 W). cbn [bind].
  match goal with
  | |- exists score, match ?l with [] => _ | _ :: _ => _ end = _ =>
      destruct l; eauto
  end.
Qed.

Lemma market_impact_models_returns (np_sqrt : Q -> Q)
  (self : LiquidityAnalyzer.t) (orderbook : OrderBook.t) (quantity : Q) :
  wf orderbook ->
  exists models,
    LiquidityAnalyzer.calculate_market_impact_models np_sqrt self orderbook
      quantity = Ok models.
Proof.
  intro W. unfold LiquidityAnalyzer.calculate_market_impact_models.
  destruct (_ || _); [eauto|].
  rewrite (get_depth_eq orderbook 10 W). cbn [bind]. eauto.
Qed.

(** X20.  On every state of the book [calculate_all_metrics] of the
    liquidity analyzer does not fail, whatever the histories hold, and its
    scores stay in range: the overall score in [[0, 100]], the price
    efficiency in [[0, 1]], the coverage ratio non-negative, and the
    impact models present. *)
Theorem liquidity_metrics_ranges (np_sqrt np_exp : Q -> Q)
  (self : LiquidityAnalyzer.t) (orderbook : OrderBook.t) :
  reachable orderbook ->
  exists metrics,
    LiquidityAnalyzer.calculate_all_metrics np_sqrt np_exp self orderbook
      = Ok metrics /\
    0 <= LiquidityAnalyzer.overall_liquidity_score metrics <= 100 /\
    0 <= LiquidityAnalyzer.price_efficiency metrics <= 1 /\
    0 <= LiquidityAnalyzer.liquidity_coverage_ratio metrics /\
    LiquidityAnalyzer.market_impact_models metrics <> None.
Proof.
  intro R. pose proof R as R0. apply reachable_wf in R.
  unfold LiquidityAnalyzer.calculate_all_metrics.
  assert (L : exists lcr,
            LiquidityAnalyzer.calculate_lcr self orderbook 10000 = Ok lcr /\
            0 <= lcr).
  { destruct (wf_slice_volume orderbook 20 R) as [Vb Va].
    unfold LiquidityAnalyzer.calculate_lcr.
    rewrite (get_depth_eq orderbook 20 R). cbn [bind].
    cbn [total_bid_volume total_ask_volume].
    assert (S : Qle_bool 10000 0 = false) by reflexivity.
    rewrite S. eexists. split; [reflexivity|].
    apply Qle_shift_div_l; lra. }
  destruct L as (lcr & -> & Hl). cbn [bind].
  destruct (liquidity_resilience_returns np_sqrt self orderbook R)
    as (res & ->). cbn [bind].
  destruct (market_impact_models_returns np_sqrt self orderbook 100 R)
    as (models & ->). cbn [bind].
  eexists. split; [reflexivity|].
  cbn [LiquidityAnalyzer.overall_liquidity_score
       LiquidityAnalyzer.price_efficiency
       LiquidityAnalyzer.liquidity_coverage_ratio
       LiquidityAnalyzer.market_impact_models].
  split; [apply composite_score_range|].
  split; [apply price_efficiency_range|].
  split; [exact Hl | discriminate].
Qed.

Lemma liquidity_metrics_ranges_witness :
  exists metrics,
    LiquidityAnalyzer.calculate_all_metrics sqrt6 (fun x => 1 + x)
      (LiquidityAnalyzer.new None None) example_book = Ok metrics /\
    0 <= LiquidityAnalyzer.overall_liquidity_score metrics <= 100.
Proof.
  destruct (liquidity_metrics_ranges sqrt6 (fun x => 1 + x)
              (LiquidityAnalyzer.new None None) example_book
              example_book_reachable) as (m & H & Hs & _).
  exists m. split; assumption.
Defined.

Lemma Qsum_zero (l : list Q) : Forall (fun x => x == 0) l -> Qsum l == 0.
Proof.
  induction 1 as [|x l Hx _ IH].
  - rewrite Qsum_nil. reflexivity.
  - rewrite Qsum_cons, Hx, IH. lra.
Qed.

Lemma np_mean_zero (l : list Q) :
  Forall (fun x => x == 0) l -> np_mean l == 0.
Proof.
  intro H. unfold np_mean. rewrite (Qsum_zero l H). unfold Qdiv. ring.
Qed.

Lemma np_var_zero (l : list Q) :
  Forall (fun x => x == 0) l -> np_var l == 0.
Proof.
  intro H. unfold np_var. apply np_mean_zero.
  pose proof (np_mean_zero l H) as M.
  apply Forall_forall. intros y Hy. apply in_map_iff in Hy.
  destruct Hy as (x & <- & Hx). rewrite Forall_forall in H.
  assert (E : x - np_mean l == 0) by (rewrite M, (H x Hx); ring).
  change (Qabs (x - np_mean l) ^ 2)
    with (Qabs (x - np_mean l) * Qabs (x - np_mean l)).
  rewrite (Qabs_wd _ _ E). reflexivity.
Qed.

Lemma np_diff_constant (v : Q) (l : list Q) :
  Forall (fun x => x == v) l -> Forall (fun x => x == 0) (np_diff l).
Proof.
  induction 1 as [|x l Hx Hl IH]; [constructor|].
  destruct l as [|y l']; [constructor|].
  cbn [np_diff]. constructor; [|exact IH].
  inversion Hl as [|? ? Hy _]; subst. rewrite Hx, Hy. ring.
Qed.

(** X21.  Kyle's lambda is 0 when either history holds fewer samples than
    the window, and when the volumes of the window are all equal (the
    volume changes then have no variance). *)
Theorem kyle_lambda_zero_cases (self : LiquidityAnalyzer.t)
  (window : positive) :
  ((List.length (LiquidityAnalyzer.price_history self)
    < Pos.to_nat window)%nat \/
   (List.length (LiquidityAnalyzer.volume_history self)
    < Pos.to_nat window)%nat ->
   LiquidityAnalyzer.calculate_kyle_lambda self window = 0) /\
  (forall v,
     Forall (fun x => x == v)
            (last_p window (LiquidityAnalyzer.volume_history self)) ->
     LiquidityAnalyzer.calculate_kyle_lambda self window = 0).
Proof.
  unfold LiquidityAnalyzer.calculate_kyle_lambda. split.
  - intros [H|H]; apply Nat.ltb_lt in H; rewrite H;
      [|rewrite orb_true_r]; reflexivity.
  - intros v Hv.
    destruct (_ || _); [reflexivity|].
    destruct (_ <? 2)%nat; [reflexivity|].
    destruct (_ || _); [reflexivity|].
    pose proof (np_var_zero _ (np_diff_constant v _ Hv)) as Z.
    apply Qeq_bool_iff in Z. now rewrite Z.
Qed.

Lemma kyle_lambda_zero_cases_witness :
  LiquidityAnalyzer.calculate_kyle_lambda
    (LiquidityAnalyzer.new (Some [1; 2; 4]) (Some [5; 5; 5])) 3 = 0.
Proof.
  destruct (kyle_lambda_zero_cases
              (LiquidityAnalyzer.new (Some [1; 2; 4]) (Some [5; 5; 5])) 3)
    as [_ H].
  apply (H 5). vm_compute. repeat constructor.
Defined.

(** X22.  For a history of positive prices (which keeps the divisions of
    the source away from zero) the Amihud ratio is never negative, and it
    is 0 when either history holds fewer samples than the window. *)
Theorem amihud_ratio_nonnegative (self : LiquidityAnalyzer.t)
  (window : positive) :
  Forall (fun p => 0 < p) (LiquidityAnalyzer.price_history self) ->
  0 <= LiquidityAnalyzer.calculate_amihud_ratio self window /\
  ((List.length (LiquidityAnalyzer.price_history self)
    < Pos.to_nat window)%nat \/
   (List.length (LiquidityAnalyzer.volume_history self)
    < Pos.to_nat window)%nat ->
   LiquidityAnalyzer.calculate_amihud_ratio self window = 0).
Proof.
  intros _. unfold LiquidityAnalyzer.calculate_amihud_ratio. split.
  - destruct (_ || _); [lra|].
    destruct (_ <? 2)%nat; [lra|].
    set (returns := map Qabs _). set (vols := tl _).
    assert (Hr : Forall (fun rv => 0 <= fst rv / snd rv)
                   (filter (fun rv => Qltb 0 (snd rv))
                           (combine returns vols))).
    { apply Forall_forall. intros [r v] Hin. apply filter_In in Hin.
      destruct Hin as [Hin Hv]. cbn [fst snd] in *.
      apply Qltb_lt in Hv. apply in_combine_l in Hin.
      unfold returns in Hin. apply in_map_iff in Hin.
      destruct Hin as (x & <- & _).
      apply Qle_shift_div_l; [exact Hv|].
      pose proof (Qabs_nonneg x). lra. }
    destruct (filter _ _) as [|rv rest] eqn:F; [lra|].
    apply np_mean_nonneg. apply Forall_forall. intros y Hy.
    apply in_map_iff in Hy. destruct Hy as (rv' & <- & Hin).
    rewrite Forall_forall in Hr. now apply Hr.
  - intros [H|H]; apply Nat.ltb_lt in H; rewrite H;
      [|rewrite orb_true_r]; reflexivity.
Qed.

Lemma amihud_ratio_nonnegative_witness :
  0 <= LiquidityAnalyzer.calculate_amihud_ratio
         (LiquidityAnalyzer.new (Some [1; 2; 4]) (Some [5; 6; 7])) 3.
Proof.
  destruct (amihud_ratio_nonnegative
              (LiquidityAnalyzer.new (Some [1; 2; 4]) (Some [5; 6; 7])) 3)
    as [H _].
  - repeat constructor.
  - exact H.
Defined.

(** X23.  On every state of the book the market impact models are: none
    when the mid price is absent; otherwise the square-root and the Kyle
    model, preceded by the linear model exactly when the ten nearest
    levels hold volume, its value being the quantity times the mid price
    over that volume. *)
Theorem market_impact_models_present (np_sqrt : Q -> Q)
  (self : LiquidityAnalyzer.t) (orderbook : OrderBook.t) (quantity : Q) :
  reachable orderbook ->
  let liquidity :=
    volume (bid_levels orderbook) (firstn 10 (bid_prices orderbook))
    + volume (ask_levels orderbook) (firstn 10 (ask_prices orderbook)) in
  exists models,
    LiquidityAnalyzer.calculate_market_impact_models np_sqrt self orderbook
      quantity = Ok models /\
    (mid_price orderbook = None -> models = []) /\
    (forall mid,
       mid_price orderbook = Some mid ->
       (bid_prices orderbook = [] /\ ask_prices orderbook = [] ->
        map fst models = ["sqrt"%string; "kyle"%string]) /\
       (bid_prices orderbook <> [] \/ ask_prices orderbook <> [] ->
        0 < liquidity /\
        map fst models = ["linear"%string; "sqrt"%string; "kyle"%string] /\
        hd_error models
          = Some ("linear"%string, 1 / liquidity * quantity * mid))).
Proof.
  intro R. cbv zeta. apply reachable_wf in R. pose proof R as W.
  destruct W as [Sb Sa _ _ Pb Pa M].
  unfold LiquidityAnalyzer.calculate_market_impact_models.
  unfold mid_price. rewrite M.
  destruct (_best_bid orderbook) as [b|] eqn:Eb;
    [|exists []; split; [reflexivity|]; split; [reflexivity|];
      intros mid Hm; discriminate Hm].
  destruct (_best_ask orderbook) as [a|] eqn:Ea;
    [|exists []; split; [reflexivity|]; split; [reflexivity|];
      intros mid Hm; discriminate Hm].
  destruct (wf_spread_mid orderbook b a R Eb Ea) as (_ & _ & S & _ & Mp).
  rewrite (truthy_pos _ Mp).
  assert (Z : Qeq_bool ((b + a) / 2) 0 = false).
  { destruct (Qeq_bool ((b + a) / 2) 0) eqn:Z; [|reflexivity].
    apply Qeq_bool_iff in Z. exfalso. lra. }
  rewrite Z. cbn [negb orb].
  rewrite (get_depth_eq orderbook 10 R). cbn [bind].
  cbn [total_bid_volume total_ask_volume]. rewrite S.
  change (slice_to (bid_prices orderbook) 10)
    with (firstn 10 (bid_prices orderbook)).
  change (slice_to (ask_prices orderbook) 10)
    with (firstn 10 (ask_prices orderbook)).
  destruct (side_ok_volume (bid_prices orderbook)
              (firstn 10 (bid_prices orderbook)) (bid_levels orderbook) Sb)
    as [Vb0 Vb]; [intros p; apply In_firstn|].
  destruct (side_ok_volume (ask_prices orderbook)
              (firstn 10 (ask_prices orderbook)) (ask_levels orderbook) Sa)
    as [Va0 Va]; [intros p; apply In_firstn|].
  set (vb := volume (bid_levels orderbook) (firstn 10 (bid_prices orderbook)))
    in *.
  set (va := volume (ask_levels orderbook) (firstn 10 (ask_prices orderbook)))
    in *.
  eexists. split; [reflexivity|]. split; [intro H; discriminate H|].
  intros mid Hm. inversion Hm; subst mid. split.
  - intros [Nb Na].
    assert (T : Qltb 0 (vb + va) = false).
    { apply Qltb_ge. unfold vb, va. rewrite Nb, Na.
      apply Qle_bool_iff. reflexivity. }
    rewrite T. reflexivity.
  - intro H.
    assert (P : 0 < vb + va).
    { destruct H as [Nb|Na].
      - assert (F : firstn 10 (bid_prices orderbook) <> [])
          by (destruct (bid_prices orderbook); [now elim Nb | discriminate]).
        specialize (Vb F). lra.
      - assert (F : firstn 10 (ask_prices orderbook) <> [])
          by (destruct (ask_prices orderbook); [now elim Na | discriminate]).
        specialize (Va F). lra. }
    split; [exact P|].
    assert (T : Qltb 0 (vb + va) = true) by (now apply Qltb_lt).
    rewrite T. split; reflexivity.
Qed.

Lemma market_impact_models_present_witness :
  exists models,
    LiquidityAnalyzer.calculate_market_impact_models sqrt6
      (LiquidityAnalyzer.new None None) example_book 100 = Ok models /\
    map fst models = ["linear"%string; "sqrt"%string; "kyle"%string].
Proof.
  destruct (market_impact_models_present sqrt6
              (LiquidityAnalyzer.new None None) example_book 100
              example_book_reachable) as (models & H & _ & Hm).
  exists models. split; [exact H|].
  destruct (Hm ((100 + 101) / 2) eq_refl) as [_ Hk].
  apply Hk. left. vm_compute. discriminate.
Defined.

Lemma top_share_range (levels : dict PriceLevel.t) (prices all : list Q) :
  side_ok all levels ->
  (forall p, In p prices -> In p all) ->
  prices <> [] ->
  0 < volume levels prices /\
  0 < hd 0 (map (available levels) prices) / volume levels prices <= 1.
Proof.
  intros Hs Hsub Hne.
  destruct (side_ok_volume all prices levels Hs Hsub) as [_ V].
  specialize (V Hne). split; [exact V|].
  destruct prices as [|p rest]; [now elim Hne|].
  cbn [map hd].
  destruct (Hs p (Hsub p (or_introl eq_refl))) as (_ & level & E & Hpos).
  assert (Ea : available levels p = PriceLevel.total_quantity level)
    by (unfold available; now rewrite E).
  destruct (side_ok_volume all rest levels Hs) as [Vr _];
    [intros q Hq; apply Hsub; now right|].
  rewrite volume_cons in *. rewrite Ea in *. split.
  - apply Qlt_shift_div_l; lra.
  - apply Qle_shift_div_r; lra.
Qed.

(** X24.  On every state of the book, for a liquidity analyzer with at
    most ten price samples and no volume sample, the resilience score is
    the default 50 when a side of the book is empty, and otherwise the
    concentration score [100 (1 - (b + a) / 2)], where [b] and [a] are the
    shares of the best bid and the best ask level in the volume of the ten
    nearest levels of their side; it then lies in [[0, 100)]. *)
Theorem liquidity_resilience_without_history (np_sqrt : Q -> Q)
  (self : LiquidityAnalyzer.t) (orderbook : OrderBook.t) :
  reachable orderbook ->
  (List.length (LiquidityAnalyzer.price_history self) <= 10)%nat ->
  LiquidityAnalyzer.volume_history self = [] ->
  (bid_prices orderbook = [] \/ ask_prices orderbook = [] ->
   LiquidityAnalyzer.calculate_resilience_score np_sqrt self orderbook
     = Ok 50) /\
  (bid_prices orderbook <> [] -> ask_prices orderbook <> [] ->
   let share := fun levels prices =>
     hd 0 (map (available levels) (firstn 10 prices))
     / volume levels (firstn 10 prices) in
   exists score,
     LiquidityAnalyzer.calculate_resilience_score np_sqrt self orderbook
       = Ok score /\
     score ==
       100 * (1 - (share (bid_levels orderbook) (bid_prices orderbook)
                   + share (ask_levels orderbook) (ask_prices orderbook))
                  / 2) /\
     0 <= score < 100).
Proof.
  intros R Hp Hv. apply reachable_wf in R.
  unfold LiquidityAnalyzer.calculate_resilience_score.
  rewrite (get_depth_eq orderbook 10 R). cbn [bind bids asks].
  rewrite Hv.
  assert (L : (10 <? List.length (LiquidityAnalyzer.price_history self))%nat
              = false) by (apply Nat.ltb_ge; exact Hp).
  rewrite L, !depth_entry_quantities.
  change (slice_to (bid_prices orderbook) 10)
    with (firstn 10 (bid_prices orderbook)).
  change (slice_to (ask_prices orderbook) 10)
    with (firstn 10 (ask_prices orderbook)).
  split.
  - intros [-> | ->]; cbn [firstn map]; [reflexivity|].
    now destruct (map _ _).
  - intros Nb Na. cbv zeta.
    destruct R as [Sb Sa _ _ _ _ _].
    assert (Fb : firstn 10 (bid_prices orderbook) <> [])
      by (destruct (bid_prices orderbook); [now elim Nb | discriminate]).
    assert (Fa : firstn 10 (ask_prices orderbook) <> [])
      by (destruct (ask_prices orderbook); [now elim Na | discriminate]).
    destruct (top_share_range (bid_levels orderbook)
                (firstn 10 (bid_prices orderbook)) (bid_prices orderbook)
                Sb (fun p => In_firstn p 10 _) Fb) as (Vb & Tb0 & Tb1).
    destruct (top_share_range (ask_levels orderbook)
                (firstn 10 (ask_prices orderbook)) (ask_prices orderbook)
                Sa (fun p => In_firstn p 10 _) Fa) as (Va & Ta0 & Ta1).
    fold (volume (bid_levels orderbook) (firstn 10 (bid_prices orderbook))).
    fold (volume (ask_levels orderbook) (firstn 10 (ask_prices orderbook))).
    rewrite (proj2 (Qltb_lt _ _) Vb), (proj2 (Qltb_lt _ _) Va).
    destruct (map (available (bid_levels orderbook))
                (firstn 10 (bid_prices orderbook))) as [|xb lb] eqn:Eb.
    { apply map_eq_nil in Eb. now elim Fb. }
    destruct (map (available (ask_levels orderbook))
                (firstn 10 (ask_prices orderbook))) as [|xa la] eqn:Ea.
    { apply map_eq_nil in Ea. now elim Fa. }
    cbn [hd app] in *.
    set (tb := xb / volume (bid_levels orderbook)
                      (firstn 10 (bid_prices orderbook))) in *.
    set (ta := xa / volume (ask_levels orderbook)
                      (firstn 10 (ask_prices orderbook))) in *.
    clearbody tb ta.
    eexists. split; [reflexivity|].
    assert (E : np_mean [100 * (1 - (tb + ta) / 2)]
                == 100 * (1 - (tb + ta) / 2)).
    { unfold np_mean, Qlen. cbn [List.length].
      rewrite Qsum_cons, Qsum_nil. change (inject_Z (Z.of_nat 1)) with 1.
      field. }
    split; [exact E|]. rewrite E, Qhalf. split; lra.
Qed.

Lemma liquidity_resilience_without_history_witness :
  LiquidityAnalyzer.calculate_resilience_score sqrt6
    (LiquidityAnalyzer.new None None)
    (update_bids (OrderBook.new "X" 1000) [(100, 2)])
  = Ok 50.
Proof.
  destruct (liquidity_resilience_without_history sqrt6
              (LiquidityAnalyzer.new None None)
              (update_bids (OrderBook.new "X" 1000) [(100, 2)]))
    as [H _].
  - apply reach_bids, reach_new.
  - simpl. lia.
  - reflexivity.
  - apply H. right. reflexivity.
Defined.

(** ** [SpreadAnalyzer]: statistics and trend *)

Lemma fold_Qmin_le (l : list Q) :
  forall a, fold_left Qmin l a <= a /\
            forall x, In x l -> fold_left Qmin l a <= x.
Proof.
  induction l as [|y l IH]; intro a; simpl.
  - split; [lra | intros x []].
  - destruct (IH (Qmin a y)) as [H1 H2].
    pose proof (Q.le_min_l a y). pose proof (Q.le_min_r a y).
    split; [lra|]. intros x [<-|Hx]; [lra | now apply H2].
Qed.

Lemma fold_Qmax_ge (l : list Q) :
  forall a, a <= fold_left Qmax l a /\
            forall x, In x l -> x <= fold_left Qmax l a.
Proof.
  induction l as [|y l IH]; intro a; simpl.
  - split; [lra | intros x []].
  - destruct (IH (Qmax a y)) as [H1 H2].
    pose proof (Q.le_max_l a y). pose proof (Q.le_max_r a y).
    split; [lra|]. intros x [<-|Hx]; [lra | now apply H2].
Qed.

Lemma np_min_max_bound (l : list Q) (x : Q) :
  In x l -> np_min l <= x <= np_max l.
Proof.
  destruct l as [|a l]; [intros []|]. unfold np_min, np_max.
  destruct (fold_Qmin_le l a) as [M1 M2].
  destruct (fold_Qmax_ge l a) as [X1 X2].
  intros [<-|Hx]; split; auto.
Qed.

Lemma Qlen_cons {A : Type} (x : A) (l : list A) :
  Qlen (x :: l) == 1 + Qlen l.
Proof.
  unfold Qlen. cbn [List.length]. rewrite Nat2Z.inj_succ.
  unfold Z.succ. rewrite inject_Z_plus. ring.
Qed.

Lemma Qmin_one_of (a b : Q) : Qmin a b = a \/ Qmin a b = b.
Proof.
  unfold Qmin, GenericMinMax.gmin. destruct (a ?= b); auto.
Qed.

Lemma Qmax_one_of (a b : Q) : Qmax a b = a \/ Qmax a b = b.
Proof.
  unfold Qmax, GenericMinMax.gmax. destruct (a ?= b); auto.
Qed.

Lemma fold_one_of (f : Q -> Q -> Q) :
  (forall a b, f a b = a \/ f a b = b) ->
  forall l a, In (fold_left f l a) (a :: l).
Proof.
  intros Hf. induction l as [|y l IH]; intro a; cbn [fold_left].
  - now left.
  - destruct (IH (f a y)) as [E|H].
    + rewrite <- E. destruct (Hf a y) as [->| ->];
        [now left | right; now left].
    + right. now right.
Qed.

(** [np.min] and [np.max] select a sample. *)
Lemma np_min_max_In (l : list Q) :
  l <> [] -> In (np_min l) l /\ In (np_max l) l.
Proof.
  destruct l as [|a l]; [intro H; now elim H|]. intros _.
  unfold np_min, np_max. split.
  - apply (fold_one_of Qmin Qmin_one_of).
  - apply (fold_one_of Qmax Qmax_one_of).
Qed.

Lemma slice_from_length {A : Type} (l : list A) (start : Z) :
  List.length (slice_from l start) =
  if (start <? 0)%Z
  then Nat.min (Z.to_nat (- start)) (List.length l)
  else (List.length l - Z.to_nat start)%nat.
Proof.
  unfold slice_from. destruct (start <? 0)%Z; rewrite length_skipn; lia.
Qed.

(** X25.  [calculate_spread_statistics] returns the empty result for a
    window of 0 and for an empty history with a non-negative window; a
    window beyond the history is the same as the whole history; a
    negative window that skips every sample raises [ValueError]; and for
    a positive window on a non-empty history the minimum and the maximum
    it reports are samples of the window that bound every sample of it,
    the mean and the deviation are those NumPy computes for the window,
    and the interquartile range is the difference of the two quartiles
    reported.  [np.mean] and [np.std] are any functions. *)
Theorem spread_statistics_summary (np_mean np_std : list Q -> Q)
  (self : SpreadAnalyzer.t) (window : Z) :
  let n := Z.of_nat (List.length (SpreadAnalyzer.history self)) in
  let statistics :=
    SpreadAnalyzer.calculate_spread_statistics np_mean np_std self in
  (window = 0%Z \/ (n = 0%Z /\ (0 <= window)%Z) ->
   statistics window = Ok None) /\
  ((n <= window)%Z -> statistics window = statistics n) /\
  ((window < 0)%Z -> (n <= - window)%Z ->
   exists msg, statistics window = Raise (ValueError msg)) /\
  ((0 < window)%Z -> (0 < n)%Z ->
   let spreads :=
     map SpreadAnalyzer.spread_bps
         (last_n (Z.to_nat (Z.min window n))
                 (SpreadAnalyzer.history self)) in
   exists st,
     statistics window = Ok (Some st) /\
     In (SpreadAnalyzer.stat_min st) spreads /\
     In (SpreadAnalyzer.stat_max st) spreads /\
     (forall x, In x spreads ->
        SpreadAnalyzer.stat_min st <= x <= SpreadAnalyzer.stat_max st) /\
     SpreadAnalyzer.stat_mean st = np_mean spreads /\
     SpreadAnalyzer.stat_std st = np_std spreads /\
     SpreadAnalyzer.stat_iqr st
       = SpreadAnalyzer.stat_q3 st - SpreadAnalyzer.stat_q1 st).
Proof.
  cbv zeta. unfold SpreadAnalyzer.calculate_spread_statistics.
  set (n := Z.of_nat (List.length (SpreadAnalyzer.history self))).
  split; [|split; [|split]].
  - intros [-> | [Hn Hw]].
    + destruct (n <? 0)%Z eqn:E; [apply Z.ltb_lt in E; unfold n in E; lia|].
      reflexivity.
    + destruct (n <? window)%Z eqn:E.
      * rewrite Hn. reflexivity.
      * apply Z.ltb_ge in E. assert (window = 0%Z) by lia. subst window.
        reflexivity.
  - intro H. rewrite Z.ltb_irrefl.
    destruct (n <? window)%Z eqn:E; [reflexivity|].
    apply Z.ltb_ge in E. assert (window = n) by lia. now subst window.
  - intros Hw Hn.
    assert (E : (n <? window)%Z = false)
      by (apply Z.ltb_ge; unfold n; lia).
    rewrite E.
    assert (Z0 : (window =? 0)%Z = false) by (apply Z.eqb_neq; lia).
    rewrite Z0.
    assert (L : slice_from (SpreadAnalyzer.history self) (- window) = []).
    { apply length_zero_iff_nil. rewrite slice_from_length.
      assert (F : (- window <? 0)%Z = false) by (apply Z.ltb_ge; lia).
      rewrite F. unfold n in Hn. lia. }
    rewrite L. cbn [map]. eauto.
  - intros Hw Hn.
    set (w := if (n <? window)%Z then n else window).
    assert (Hw' : (0 < w <= n)%Z /\ w = Z.min window n).
    { unfold w. destruct (n <? window)%Z eqn:E.
      - apply Z.ltb_lt in E. lia.
      - apply Z.ltb_ge in E. lia. }
    destruct Hw' as [Hw' Ew]. rewrite <- Ew.
    assert (Z0 : (w =? 0)%Z = false) by (apply Z.eqb_neq; lia).
    rewrite Z0.
    assert (Es : slice_from (SpreadAnalyzer.history self) (- w)
                 = last_n (Z.to_nat w) (SpreadAnalyzer.history self)).
    { unfold slice_from, last_n.
      assert (F : (- w <? 0)%Z = true) by (apply Z.ltb_lt; lia).
      rewrite F, Z.opp_involutive. reflexivity. }
    rewrite Es.
    set (spreads := map SpreadAnalyzer.spread_bps
                        (last_n (Z.to_nat w) (SpreadAnalyzer.history self))).
    assert (Hne : spreads <> []).
    { intro E. apply (f_equal (@List.length Q)) in E. unfold spreads in E.
      rewrite length_map in E. unfold last_n in E.
      rewrite length_skipn in E. unfold n in Hw'. simpl in E. lia. }
    destruct spreads as [|s0 rest] eqn:Eq; [now elim Hne|].
    rewrite <- Eq in *. clear Eq. eexists. split; [reflexivity|].
    cbn [SpreadAnalyzer.stat_min SpreadAnalyzer.stat_mean
         SpreadAnalyzer.stat_max SpreadAnalyzer.stat_std
         SpreadAnalyzer.stat_q1 SpreadAnalyzer.stat_q3
         SpreadAnalyzer.stat_iqr].
    destruct (np_min_max_In spreads Hne) as [I1 I2].
    split; [exact I1|]. split; [exact I2|].
    split; [exact (np_min_max_bound spreads)|].
    repeat split.
Qed.

Lemma spread_statistics_summary_witness :
  exists st,
    SpreadAnalyzer.calculate_spread_statistics np_mean64 np_std64
      (SpreadAnalyzer.mk
         [SpreadAnalyzer.mk_metrics 0 0 3 0 0 0 false;
          SpreadAnalyzer.mk_metrics 0 0 1 0 0 0 false;
          SpreadAnalyzer.mk_metrics 0 0 2 0 0 0 false] 1000) 2
    = Ok (Some st) /\
    In (SpreadAnalyzer.stat_min st) [1; 2] /\
    In (SpreadAnalyzer.stat_max st) [1; 2].
Proof.
  destruct (spread_statistics_summary np_mean64 np_std64
              (SpreadAnalyzer.mk
                 [SpreadAnalyzer.mk_metrics 0 0 3 0 0 0 false;
                  SpreadAnalyzer.mk_metrics 0 0 1 0 0 0 false;
                  SpreadAnalyzer.mk_metrics 0 0 2 0 0 0 false] 1000) 2)
    as (_ & _ & _ & H).
  destruct H as (st & H & I1 & I2 & _); [lia | simpl; lia |].
  exists st. split; [exact H|]. split; [exact I1 | exact I2].
Defined.

Lemma Qltb_compat (a a' b b' : Q) :
  a == a' -> b == b' -> Qltb a b = Qltb a' b'.
Proof.
  intros Ha Hb.
  destruct (Qltb a b) eqn:E1, (Qltb a' b') eqn:E2; try reflexivity.
  - apply Qltb_lt in E1. apply Qltb_ge in E2. exfalso. lra.
  - apply Qltb_ge in E1. apply Qltb_lt in E2. exfalso. lra.
Qed.

Section LinearDrift.
Variables c d : Q.

Lemma drift_sum (ys xs : list Q) :
  Forall2 (fun y x => y == c + d * x) ys xs ->
  Qsum ys == c * Qlen xs + d * Qsum xs /\ Qlen ys = Qlen xs.
Proof.
  induction 1 as [|y x ys xs Hy _ [IH1 IH2]].
  - split; [|reflexivity]. rewrite Qsum_nil.
    change (Qlen (@nil Q)) with 0. ring.
  - split.
    + rewrite !Qsum_cons, Qlen_cons, IH1, Hy. ring.
    + unfold Qlen in *. cbn [List.length].
      apply (f_equal Qnum) in IH2. cbn in IH2.
      apply Nat2Z.inj in IH2. now rewrite IH2.
Qed.

Lemma drift_mean (ys xs : list Q) :
  xs <> [] ->
  Forall2 (fun y x => y == c + d * x) ys xs ->
  np_mean ys == c + d * np_mean xs.
Proof.
  intros Hne H. destruct (drift_sum ys xs H) as [S L].
  unfold np_mean. rewrite L, S.
  pose proof (Qlen_pos xs Hne). field. lra.
Qed.

Lemma drift_covariance (ys xs : list Q) (mx my : Q) :
  my == c + d * mx ->
  Forall2 (fun y x => y == c + d * x) ys xs ->
  Qsum (map (fun xy => (fst xy - mx) * (snd xy - my)) (combine xs ys))
  == d * Qsum (map (fun x => (x - mx) ^ 2) xs).
Proof.
  intros Hm. induction 1 as [|y x ys xs Hy _ IH].
  - cbn [combine map]. rewrite Qsum_nil. ring.
  - cbn [combine map fst snd]. rewrite !Qsum_cons, IH, Hy, Hm.
    change ((x - mx) ^ 2) with ((x - mx) * (x - mx)). ring.
Qed.
End LinearDrift.

Lemma arange_spread_positive (n : nat) (m : Q) :
  (2 <= n)%nat ->
  0 < Qsum (map (fun x => (x - m) ^ 2) (np_arange n)).
Proof.
  intro Hn. destruct n as [|[|n]]; try lia.
  unfold np_arange. cbn [seq map]. rewrite !Qsum_cons.
  assert (R : 0 <= Qsum (map (fun x => (x - m) ^ 2)
                           (map (fun i => inject_Z (Z.of_nat i))
                                (seq 2 n)))).
  { apply Qsum_nonneg. apply Forall_forall. intros y Hy.
    apply in_map_iff in Hy. destruct Hy as (x & <- & _).
    change ((x - m) ^ 2) with ((x - m) * (x - m)).
    destruct (Qlt_le_dec (x - m) 0) as [N|P].
    - setoid_replace ((x - m) * (x - m)) with ((m - x) * (m - x)) by ring.
      apply Qmult_le_0_compat; lra.
    - apply Qmult_le_0_compat; lra. }
  change (inject_Z (Z.of_nat 0)) with 0.
  change (inject_Z (Z.of_nat 1)) with 1.
  change ((0 - m) ^ 2) with ((0 - m) * (0 - m)).
  change ((1 - m) ^ 2) with ((1 - m) * (1 - m)).
  set (r := Qsum _) in *. clearbody r.
  assert (T : 0 < (0 - m) * (0 - m) + (1 - m) * (1 - m)).
  { setoid_replace ((0 - m) * (0 - m) + (1 - m) * (1 - m))
      with (2 * ((m - (1 # 2)) * (m - (1 # 2))) + (1 # 2)) by ring.
    assert (S : 0 <= (m - (1 # 2)) * (m - (1 # 2))).
    { destruct (Qlt_le_dec (m - (1 # 2)) 0) as [N|P].
      - setoid_replace ((m - (1 # 2)) * (m - (1 # 2)))
          with (((1 # 2) - m) * ((1 # 2) - m)) by ring.
        apply Qmult_le_0_compat; lra.
      - apply Qmult_le_0_compat; lra. }
    lra. }
  lra.
Qed.

Lemma last_p_length {A : Type} (n : positive) (l : list A) :
  (Pos.to_nat n <= List.length l)%nat ->
  List.length (last_p n l) = Pos.to_nat n.
Proof. intro H. unfold last_p. rewrite length_skipn. lia. Qed.

(** X26.  [get_spread_trend] answers "insufficient_data" when the history
    holds fewer samples than [periods], and fails with [LinAlgError] when
    asked for the trend of a single sample.  When the trailing [periods]
    samples, at least two, drift linearly, the sample at index [i] having
    [c + d i] basis points, the fitted slope is [d]: the trend is
    "increasing" for [d > 0.1], "decreasing" for [d < -0.1] and "stable"
    otherwise, a flat history included. *)
Theorem spread_trend_of_linear_drift (self : SpreadAnalyzer.t)
  (periods : positive) (c d : Q) :
  ((List.length (SpreadAnalyzer.history self) < Pos.to_nat periods)%nat ->
   SpreadAnalyzer.get_spread_trend self periods
     = Ok "insufficient_data"%string) /\
  ((Pos.to_nat periods <= List.length (SpreadAnalyzer.history self))%nat ->
   (2 <= Pos.to_nat periods)%nat ->
   Forall2 (fun y x => y == c + d * x)
           (map SpreadAnalyzer.spread_bps
                (last_p periods (SpreadAnalyzer.history self)))
           (np_arange (Pos.to_nat periods)) ->
   SpreadAnalyzer.get_spread_trend self periods =
     if Qltb (1 # 10) d then Ok "increasing"%string
     else if Qltb d (- (1 # 10)) then Ok "decreasing"%string
     else Ok "stable"%string) /\
  ((1 <= List.length (SpreadAnalyzer.history self))%nat ->
   exists msg,
     SpreadAnalyzer.get_spread_trend self 1 = Raise (LinAlgError msg)).
Proof.
  unfold SpreadAnalyzer.get_spread_trend. split; [|split].
  - intro H. apply Nat.ltb_lt in H. now rewrite H.
  - intros Hlen H2 Hd.
    assert (L : (List.length (SpreadAnalyzer.history self)
                 <? Pos.to_nat periods)%nat = false)
      by (apply Nat.ltb_ge; exact Hlen).
    rewrite L, length_map, (last_p_length _ _ Hlen).
    assert (N1 : (Pos.to_nat periods =? 1)%nat = false)
      by (apply Nat.eqb_neq; lia).
    rewrite N1.
    set (ys := map SpreadAnalyzer.spread_bps
                   (last_p periods (SpreadAnalyzer.history self))) in *.
    set (xs := np_arange (Pos.to_nat periods)) in *.
    assert (Hne : xs <> []).
    { unfold xs, np_arange. destruct (Pos.to_nat periods); [lia|].
      discriminate. }
    pose proof (drift_mean c d ys xs Hne Hd) as Hm.
    pose proof (drift_covariance c d ys xs (np_mean xs) (np_mean ys) Hm Hd)
      as Hc.
    pose proof (arange_spread_positive (Pos.to_nat periods) (np_mean xs) H2)
      as Hp.
    fold xs in Hp.
    assert (S : np_polyfit_slope xs ys == d).
    { unfold np_polyfit_slope. rewrite Hc. field. lra. }
    rewrite (Qltb_compat (1 # 10) (1 # 10) _ d (Qeq_refl _) S).
    rewrite (Qltb_compat _ d (- (1 # 10)) (- (1 # 10)) S (Qeq_refl _)).
    reflexivity.
  - intro Hlen.
    assert (L : (List.length (SpreadAnalyzer.history self)
                 <? Pos.to_nat 1)%nat = false)
      by (apply Nat.ltb_ge; exact Hlen).
    rewrite L, length_map, (last_p_length 1%positive _ Hlen).
    change (Pos.to_nat 1 =? 1)%nat with true. cbv iota. eexists. reflexivity.
Qed.

Lemma spread_trend_of_linear_drift_witness :
  SpreadAnalyzer.get_spread_trend
    (SpreadAnalyzer.mk
       [SpreadAnalyzer.mk_metrics 0 0 1 0 0 0 false;
        SpreadAnalyzer.mk_metrics 0 0 2 0 0 0 false] 1000) 2
  = Ok "increasing"%string.
Proof.
  destruct (spread_trend_of_linear_drift
              (SpreadAnalyzer.mk
                 [SpreadAnalyzer.mk_metrics 0 0 1 0 0 0 false;
                  SpreadAnalyzer.mk_metrics 0 0 2 0 0 0 false] 1000)
              2 1 1) as (_ & H & _).
  apply H.
  - simpl. lia.
  - simpl. lia.
  - repeat constructor; vm_compute; reflexivity.
Defined.
